(** * hyperchat: the room membership and broadcast core of the chat relay

    The repository holds two variants of the relay server.  Both are
    embedded here, each in a module of its own:

    - [Server] embeds [src/server.js]: sessions live in the [users] map,
      a room's member set holds display names, every join goes through
      [joinRoom] and every leave through [leaveRoom];
    - [Lobby] embeds [src/unnamed/part_000]: the name and the current room
      are properties of the socket object, a room's member set holds socket
      ids, and the join and leave blocks are written out in every handler.

    The transport (socket.io) is outside the core.  What the handlers do to
    it is kept as data: every [emit] becomes a [Target] paired with a
    payload, [socket.join] and [socket.leave] update an [Adapter] table, and
    [console.log] is dropped.  [Date.now()] is read from a clock
    [clk : nat -> Z] handed to each handler run: the n-th reading site of a
    handler reads [clk n], and nothing is assumed about the readings.

    A handler run returns [None] when the JavaScript code throws (a property
    read on [undefined]); otherwise it returns the next state and the
    notifications emitted, in order.  In [Lobby], where the session lives on
    the socket object, a handler also has no run ([None]) on a socket id
    that is not live. *)

From Stdlib Require Import String Ascii List ZArith Bool Lia.
From Stdlib Require DecimalString.
Import ListNotations.
Local Open Scope string_scope.
Local Open Scope bool_scope.
Local Open Scope list_scope.

(** ** JavaScript values used by the handlers *)

Module Js.

(** Strings are sequences of code units in the Latin-1 range.  The white
    space and line terminators that [String.prototype.trim] strips are, in
    that range, TAB, LF, VT, FF, CR, SPACE and NBSP. *)
Definition isWhite (c : ascii) : bool :=
  let n := nat_of_ascii c in
  (Nat.eqb n 9 || Nat.eqb n 10 || Nat.eqb n 11 || Nat.eqb n 12
   || Nat.eqb n 13 || Nat.eqb n 32 || Nat.eqb n 160)%bool.

Fixpoint trimStart (s : string) : string :=
  match s with
  | EmptyString => EmptyString
  | String c r => if isWhite c then trimStart r else s
  end.

Fixpoint trimEnd (s : string) : string :=
  match s with
  | EmptyString => EmptyString
  | String c r =>
      let r' := trimEnd r in
      if isWhite c && (r' =? "") then EmptyString else String c r'
  end.

(** [s.trim()] *)
Definition trim (s : string) : string := trimEnd (trimStart s).

(** Truthiness of a value that is [null]/[undefined] ([None]) or a string:
    only a non-empty string is truthy. *)
Definition truthy (v : option string) : bool :=
  match v with
  | Some s => negb (s =? "")
  | None => false
  end.

(** [v !== null] for such a value. *)
Definition notNull (v : option string) : bool :=
  match v with Some _ => true | None => false end.

(** [a === b] for two such values. *)
Definition seq (a b : option string) : bool :=
  match a, b with
  | Some x, Some y => x =? y
  | None, None => true
  | _, _ => false
  end.

(** A value inside a template literal; [nul] is how the absent value
    prints (["null"] or ["undefined"]). *)
Definition show (nul : string) (v : option string) : string :=
  match v with Some s => s | None => nul end.

(** An integer inside a template literal. *)
Definition showZ (z : Z) : string :=
  DecimalString.NilZero.string_of_int (Z.to_int z).

(** [a || b] where [a] is [null] or a string and [b] a string. *)
Definition orElse (a : option string) (b : string) : string :=
  match a with
  | Some s => if s =? "" then b else s
  | None => b
  end.

(** The double-quote character, for the literals that contain one. *)
Definition dquote : string := String "034"%char EmptyString.

(** A template literal, given as the list of its parts. *)
Definition tpl (parts : list string) : string := String.concat "" parts.

(** *** [Map] with string keys: entries in insertion order, one per key *)
Section JsMap.
Context {V : Type}.

Definition Map := list (string * V).

Fixpoint mget (k : string) (m : Map) : option V :=
  match m with
  | [] => None
  | (k', v) :: m' => if k =? k' then Some v else mget k m'
  end.

Definition mhas (k : string) (m : Map) : bool :=
  match mget k m with Some _ => true | None => false end.

(** [m.set(k, v)]: an existing key keeps its place. *)
Fixpoint mset (k : string) (v : V) (m : Map) : Map :=
  match m with
  | [] => [(k, v)]
  | (k', v') :: m' =>
      if k =? k' then (k, v) :: m' else (k', v') :: mset k v m'
  end.

(** [m.delete(k)] *)
Fixpoint mdel (k : string) (m : Map) : Map :=
  match m with
  | [] => []
  | (k', v') :: m' => if k =? k' then mdel k m' else (k', v') :: mdel k m'
  end.

(** The object stored under [k] is mutated in place: the map changes
    only if the object is still in it. *)
Fixpoint mupd (k : string) (f : V -> V) (m : Map) : Map :=
  match m with
  | [] => []
  | (k', v') :: m' =>
      if k =? k' then (k', f v') :: m' else (k', v') :: mupd k f m'
  end.

Definition mkeys (m : Map) : list string := map fst m.
Definition mvalues (m : Map) : list V := map snd m.
End JsMap.
Arguments Map : clear implicits.

(** *** [Set] of strings: elements in insertion order, no repeats *)
Definition StrSet := list string.

Fixpoint shas (x : string) (s : StrSet) : bool :=
  match s with
  | [] => false
  | y :: s' => (x =? y) || shas x s'
  end.

Definition sadd (x : string) (s : StrSet) : StrSet :=
  if shas x s then s else s ++ [x].

Fixpoint sdel (x : string) (s : StrSet) : StrSet :=
  match s with
  | [] => []
  | y :: s' => if x =? y then sdel x s' else y :: sdel x s'
  end.

(** [s.delete(v)] where [v] may be [null]: a set of strings never holds
    [null]. *)
Definition sdelv (v : option string) (s : StrSet) : StrSet :=
  match v with Some x => sdel x s | None => s end.

End Js.
Import Js.

(** ** What goes over the wire *)

Inductive MsgType := TSystem | TMessage | TAction.

(** A history entry or chat payload.  The handlers build objects with
    different sets of keys; an absent key is [None]. *)
Record ChatEvent := mkEvent {
  ev_type : option MsgType;
  ev_user : option string;
  ev_text : string;
  ev_timestamp : Z;
  ev_room : option string
}.

Record RoomSummary := mkSummary {
  rs_id : string;
  rs_name : string;
  rs_hasPin : bool
}.

(** Who an [emit] is addressed to. *)
Inductive Target :=
| ToSocket (sid : string)               (* socket.emit *)
| ToRoom (roomId : string)              (* io.to(roomId).emit *)
| ToRoomExcept (roomId sid : string)    (* socket.to(roomId).emit *)
| ToAll.                                (* io.emit *)

(** The transport's room table: socket [sid] has joined room [r].  The
    private room every socket has under its own id is not part of it. *)
Definition Adapter := list (string * string).

Definition ajoined (a : Adapter) (sid r : string) : bool :=
  existsb (fun p => (fst p =? sid) && (snd p =? r)) a.

Definition ajoin (sid r : string) (a : Adapter) : Adapter :=
  if ajoined a sid r then a else a ++ [(sid, r)].

Definition aleave (sid r : string) (a : Adapter) : Adapter :=
  filter (fun p => negb ((fst p =? sid) && (snd p =? r))) a.

Definition aleaveAll (sid : string) (a : Adapter) : Adapter :=
  filter (fun p => negb (fst p =? sid)) a.

Definition amembers (a : Adapter) (r : string) : list string :=
  map fst (filter (fun p => snd p =? r) a).

(** The sockets an [emit] reaches, given the connected sockets and the room
    table at the time of the [emit]. *)
Definition recipients (conns : list string) (a : Adapter) (t : Target)
  : list string :=
  match t with
  | ToSocket sid => [sid]
  | ToRoom r => amembers a r
  | ToRoomExcept r sid => filter (fun s => negb (s =? sid)) (amembers a r)
  | ToAll => conns
  end.

Definition Clock := nat -> Z.

Definition GENERAL_ROOM_ID : string := "general".

(** ** [src/server.js] *)

Module Server.

(** [users]: socket.id -> { username, currentRoomId } *)
Record User := mkUser {
  username : option string;
  currentRoomId : option string
}.

(** [rooms]: roomId -> { name, pin, history, usersInRoom } *)
Record Room := mkRoom {
  name : string;
  pin : option string;
  history : list ChatEvent;
  usersInRoom : StrSet
}.

(** The three module-level maps, and the transport's room table. *)
Record State := mkState {
  users : Map User;
  rooms : Map Room;
  userSocketRooms : Map StrSet;
  sio : Adapter
}.

Record JoinedInfo := mkJoined {
  j_roomName : string;
  j_roomId : string;
  j_history : list ChatEvent;
  j_usersInRoom : list string
}.

(** The events the server emits, named after their wire names. *)
Inductive Payload :=
| Room_action_feedback (msg : string)
| Username_accepted (uname : string)
| Username_updated (uname : string)
| Update_room_list (l : list RoomSummary)
| Update_user_list (room : string) (names : list string)
| Room_joined_success (info : JoinedInfo)
| Chat_message (ev : ChatEvent)
| Chat_action (ev : ChatEvent)
| User_typing (uname : option string) (room : string)
| User_stop_typing (uname : option string) (room : string).

Definition Notification : Type := Target * Payload.
Definition Result : Type := option (State * list Notification).

Definition feedback (sid msg : string) : Notification :=
  (ToSocket sid, Room_action_feedback msg).

(** The state once the module body has run: the 'general' room exists. *)
Definition initial : State :=
  {| users := [];
     rooms := [(GENERAL_ROOM_ID,
                {| name := "General"; pin := None;
                   history := []; usersInRoom := [] |})];
     userSocketRooms := [];
     sio := [] |}.

Definition setUsers (st : State) (u : Map User) : State :=
  {| users := u; rooms := rooms st;
     userSocketRooms := userSocketRooms st; sio := sio st |}.

Definition setRooms (st : State) (r : Map Room) : State :=
  {| users := users st; rooms := r;
     userSocketRooms := userSocketRooms st; sio := sio st |}.

Definition getUsersInRoom (st : State) (roomId : string) : list string :=
  match mget roomId (rooms st) with
  | Some room => usersInRoom room
  | None => []
  end.

Definition broadcastUserList (st : State) (roomId : string)
  : list Notification :=
  [(ToRoom roomId, Update_user_list roomId (getUsersInRoom st roomId))].

Definition roomList (st : State) : list RoomSummary :=
  map (fun e => {| rs_id := fst e;
                   rs_name := name (snd e);
                   rs_hasPin := notNull (pin (snd e)) |})
      (rooms st).

Definition broadcastRoomList (st : State) : list Notification :=
  [(ToAll, Update_room_list (roomList st))].

(** [leaveRoom(socket, roomId, isDisconnect)]; [now] is its reading of
    the clock. *)
Definition leaveRoom (now : Z) (sid roomId : string) (isDisconnect : bool)
           (st : State) : Result :=
  match mget sid (users st), mget roomId (rooms st) with
  | Some userData, Some room =>
      match mget sid (userSocketRooms st) with
      | None => None
      | Some _ =>
          let leaveMessage :=
            {| ev_type := Some TSystem;
               ev_user := None;
               ev_text := tpl ["<strong>"; show "null" (username userData);
                               "</strong> has left the room."];
               ev_timestamp := now;
               ev_room := Some roomId |} in
          let room' :=
            {| name := name room; pin := pin room;
               history := history room ++ [leaveMessage];
               usersInRoom := sdelv (username userData) (usersInRoom room) |} in
          let st1 :=
            {| users := users st;
               rooms := mupd roomId (fun _ => room') (rooms st);
               userSocketRooms := mupd sid (sdel roomId) (userSocketRooms st);
               sio := aleave sid roomId (sio st) |} in
          let out1 := (ToRoom roomId, Chat_message leaveMessage)
                        :: broadcastUserList st1 roomId in
          let '(st2, out2) :=
            if Nat.eqb (length (usersInRoom room')) 0
               && negb (roomId =? GENERAL_ROOM_ID)
            then let st2 := setRooms st1 (mdel roomId (rooms st1)) in
                 (st2, broadcastRoomList st2)
            else (st1, []) in
          let st3 :=
            if isDisconnect then st2
            else setUsers st2
                   (mupd sid (fun u => {| username := username u;
                                          currentRoomId := None |})
                         (users st2)) in
          Some (st3, out1 ++ out2)
      end
  | _, _ => Some (st, [])
  end.

(** [joinRoom(socket, roomId, pin = null)]; [tLeave] is the clock reading
    of the nested [leaveRoom], [tJoin] the one of the join message. *)
Definition joinRoom (tLeave tJoin : Z) (sid roomId : string)
           (pinArg : option string) (st : State) : Result :=
  match mget sid (users st) with
  | None => Some (st, [feedback sid "Please set your username first."])
  | Some userData =>
      if negb (truthy (username userData))
      then Some (st, [feedback sid "Please set your username first."])
      else
        match mget roomId (rooms st) with
        | None => Some (st, [feedback sid "Room does not exist."])
        | Some room =>
            if truthy (pin room) && negb (seq (pin room) pinArg)
               && negb (roomId =? GENERAL_ROOM_ID)
            then Some (st, [feedback sid "Incorrect PIN for this room."])
            else if seq (currentRoomId userData) (Some roomId)
            then Some (st, [feedback sid
                              (tpl ["You are already in '"; name room; "'."])])
            else
              match
                (if truthy (currentRoomId userData)
                 then leaveRoom tLeave sid
                        (show "" (currentRoomId userData)) false st
                 else Some (st, []))
              with
              | None => None
              | Some (st1, out1) =>
                  match mget sid (userSocketRooms st1) with
                  | None => None
                  | Some _ =>
                      let joinMessage :=
                        {| ev_type := Some TSystem;
                           ev_user := None;
                           ev_text :=
                             tpl ["<strong>"; show "null" (username userData);
                                  "</strong> has joined the room."];
                           ev_timestamp := tJoin;
                           ev_room := Some roomId |} in
                      let room' :=
                        {| name := name room; pin := pin room;
                           history := history room ++ [joinMessage];
                           usersInRoom :=
                             sadd (show "null" (username userData))
                                  (usersInRoom room) |} in
                      let st2 :=
                        {| users :=
                             mupd sid
                               (fun u => {| username := username u;
                                            currentRoomId := Some roomId |})
                               (users st1);
                           rooms := mupd roomId (fun _ => room') (rooms st1);
                           userSocketRooms :=
                             mupd sid (sadd roomId) (userSocketRooms st1);
                           sio := ajoin sid roomId (sio st1) |} in
                      Some (st2,
                            out1
                            ++ [(ToSocket sid,
                                 Room_joined_success
                                   {| j_roomName := name room';
                                      j_roomId := roomId;
                                      j_history := history room';
                                      j_usersInRoom :=
                                        getUsersInRoom st2 roomId |});
                                (ToRoomExcept roomId sid,
                                 Chat_message joinMessage)]
                            ++ broadcastUserList st2 roomId)
                  end
              end
        end
  end.

(** io.on('connection') *)
Definition connection (sid : string) (st : State) : Result :=
  let st1 :=
    {| users := mset sid {| username := None; currentRoomId := None |}
                     (users st);
       rooms := rooms st;
       userSocketRooms := mset sid [] (userSocketRooms st);
       sio := sio st |} in
  Some (st1, broadcastRoomList st1).

(** 'set initial username' *)
Definition setInitialUsername (clk : Clock) (sid newUsername : string)
           (st : State) : Result :=
  let trimmedUsername := trim newUsername in
  if trimmedUsername =? ""
  then Some (st, [feedback sid "Username cannot be empty."])
  else
    let isUsernameTaken :=
      existsb (fun user => seq (username user) (Some trimmedUsername)
                           && notNull (currentRoomId user))
              (mvalues (users st)) in
    if isUsernameTaken
    then Some (st, [feedback sid
                      (tpl ["Username '"; trimmedUsername;
                            "' is already taken. Please choose another."])])
    else
      match mget sid (users st) with
      | None => None
      | Some user =>
          let st1 :=
            setUsers st
              (mset sid {| username := Some trimmedUsername;
                           currentRoomId := currentRoomId user |}
                    (users st)) in
          match joinRoom (clk 0%nat) (clk 1%nat) sid GENERAL_ROOM_ID None st1
          with
          | None => None
          | Some (st2, out) =>
              Some (st2, (ToSocket sid, Username_accepted trimmedUsername)
                           :: out)
          end
      end.

(** 'change username'; [clk 0] stamps the history entry, [clk 1] the
    broadcast. *)
Definition changeUsername (clk : Clock) (sid newUsername : string)
           (st : State) : Result :=
  let trimmedNewUsername := trim newUsername in
  let oldUserData := mget sid (users st) in
  let oldUsername :=
    match oldUserData with Some u => username u | None => None end in
  if trimmedNewUsername =? ""
  then Some (st, [feedback sid "New username cannot be empty."])
  else if seq (Some trimmedNewUsername) oldUsername
  then Some (st, [feedback sid "That is already your username."])
  else
    let isUsernameTaken :=
      existsb (fun user => seq (username user) (Some trimmedNewUsername)
                           && notNull (currentRoomId user)
                           && negb (seq (username user) oldUsername))
              (mvalues (users st)) in
    if isUsernameTaken
    then Some (st, [feedback sid
                      (tpl ["Username '"; trimmedNewUsername;
                            "' is already taken. Please choose another."])])
    else
      match oldUserData with
      | None => Some (st, [])
      | Some u =>
          let st1 :=
            setUsers st
              (mset sid {| username := Some trimmedNewUsername;
                           currentRoomId := currentRoomId u |}
                    (users st)) in
          let out1 := [(ToSocket sid, Username_updated trimmedNewUsername)] in
          if truthy (currentRoomId u)
          then
            let cur := show "" (currentRoomId u) in
            match mget cur (rooms st1) with
            | None => Some (st1, out1)
            | Some room =>
                let text :=
                  tpl ["<strong>"; orElse oldUsername "A user";
                       "</strong> is now <strong>"; trimmedNewUsername;
                       "</strong>."] in
                let room' :=
                  {| name := name room; pin := pin room;
                     history :=
                       history room
                       ++ [{| ev_type := Some TSystem; ev_user := None;
                              ev_text := text; ev_timestamp := clk 0%nat;
                              ev_room := None |}];
                     usersInRoom :=
                       sadd trimmedNewUsername
                            (if truthy oldUsername
                             then sdelv oldUsername (usersInRoom room)
                             else usersInRoom room) |} in
                let st2 := setRooms st1 (mupd cur (fun _ => room') (rooms st1)) in
                Some (st2,
                      out1 ++ broadcastUserList st2 cur
                      ++ [(ToRoom cur,
                           Chat_message
                             {| ev_type := Some TSystem;
                                ev_user := Some "System";
                                ev_text := text;
                                ev_timestamp := clk 1%nat;
                                ev_room := Some cur |})])
            end
          else Some (st1, out1)
      end.

(** 'create room'; [clk 0] makes the room id, [clk 1] and [clk 2] are the
    readings of the [joinRoom] that follows. *)
Definition createRoom (clk : Clock) (sid roomName roomPin : string)
           (st : State) : Result :=
  let trimmedName := trim roomName in
  let trimmedPin := trim roomPin in
  if (trimmedName =? "") || (trimmedPin =? "")
  then Some (st, [feedback sid "Room name and PIN cannot be empty."])
  else
    let roomId := tpl ["room-"; showZ (clk 0%nat)] in
    if mhas roomId (rooms st)
    then Some (st, [feedback sid
                      "Failed to create room: Room ID already exists."])
    else
      let st1 :=
        setRooms st
          (mset roomId {| name := trimmedName; pin := Some trimmedPin;
                          history := []; usersInRoom := [] |}
                (rooms st)) in
      let out1 :=
        feedback sid (tpl ["Room '"; trimmedName;
                           "' created successfully! PIN: "; trimmedPin])
          :: broadcastRoomList st1 in
      match joinRoom (clk 1%nat) (clk 2%nat) sid roomId None st1 with
      | None => None
      | Some (st2, out2) => Some (st2, out1 ++ out2)
      end.

(** The [for ... of rooms.entries()] scan of 'join room by pin'. *)
Fixpoint findByPin (trimmedPin : string) (rs : Map Room) : option string :=
  match rs with
  | [] => None
  | (id, room) :: rs' =>
      if seq (pin room) (Some trimmedPin) then Some id
      else findByPin trimmedPin rs'
  end.

(** 'join room by pin' *)
Definition joinRoomByPin (clk : Clock) (sid roomPin : string) (st : State)
  : Result :=
  let trimmedPin := trim roomPin in
  if trimmedPin =? ""
  then Some (st, [feedback sid "PIN cannot be empty."])
  else
    let foundRoomId := findByPin trimmedPin (rooms st) in
    if truthy foundRoomId
    then joinRoom (clk 0%nat) (clk 1%nat) sid (show "" foundRoomId) None st
    else Some (st, [feedback sid "No room found with that PIN."]).

(** 'switch room' *)
Definition switchRoom (clk : Clock) (sid newRoomId : string) (st : State)
  : Result :=
  joinRoom (clk 0%nat) (clk 1%nat) sid newRoomId None st.

(** 'leave current room'; [clk 0] is the reading of the [leaveRoom],
    [clk 1] and [clk 2] those of the [joinRoom] that follows. *)
Definition leaveCurrentRoom (clk : Clock) (sid : string) (st : State)
  : Result :=
  match mget sid (users st) with
  | Some userData =>
      if truthy (currentRoomId userData)
         && negb (seq (currentRoomId userData) (Some GENERAL_ROOM_ID))
      then
        match leaveRoom (clk 0%nat) sid (show "" (currentRoomId userData))
                        false st with
        | None => None
        | Some (st1, out1) =>
            match joinRoom (clk 1%nat) (clk 2%nat) sid GENERAL_ROOM_ID None st1
            with
            | None => None
            | Some (st2, out2) => Some (st2, out1 ++ out2)
            end
        end
      else if seq (currentRoomId userData) (Some GENERAL_ROOM_ID)
      then Some (st, [feedback sid
                        "You cannot leave the General room. You can only switch to another room."])
      else Some (st, [feedback sid
                        "You are not currently in a room to leave."])
  | None => Some (st, [feedback sid
                         "You are not currently in a room to leave."])
  end.

(** The body shared by 'chat message' and 'chat action': they differ in
    the [type] of the entry and in the wire name of the broadcast. *)
Definition post (ty : MsgType) (wire : ChatEvent -> Payload)
           (sid text : string) (timestamp : Z) (st : State) : Result :=
  let userData := mget sid (users st) in
  let cur :=
    match userData with Some u => currentRoomId u | None => None end in
  let uname :=
    match userData with Some u => username u | None => None end in
  if truthy cur && truthy uname
  then
    match mget (show "" cur) (rooms st) with
    | Some room =>
        let messageData :=
          {| ev_type := Some ty; ev_user := uname; ev_text := text;
             ev_timestamp := timestamp; ev_room := cur |} in
        Some (setRooms st
                (mupd (show "" cur)
                      (fun r => {| name := name r; pin := pin r;
                                   history := history r ++ [messageData];
                                   usersInRoom := usersInRoom r |})
                      (rooms st)),
              [(ToRoom (show "" cur), wire messageData)])
    | None => Some (st, [])
    end
  else Some (st, []).

(** 'chat message' *)
Definition chatMessage := post TMessage Chat_message.

(** 'chat action' *)
Definition chatAction := post TAction Chat_action.

(** The body shared by 'typing' and 'stop typing'. *)
Definition typingSignal (wire : option string -> string -> Payload)
           (sid roomId : string) (st : State) : Result :=
  match mget sid (users st) with
  | Some userData =>
      if truthy (username userData)
         && seq (currentRoomId userData) (Some roomId)
      then Some (st, [(ToRoomExcept roomId sid,
                       wire (username userData) roomId)])
      else Some (st, [])
  | None => Some (st, [])
  end.

Definition typing := typingSignal User_typing.
Definition stopTyping := typingSignal User_stop_typing.

(** 'disconnect'.  The transport has taken the socket out of every room
    before the handler runs. *)
Definition disconnect (clk : Clock) (sid : string) (st : State) : Result :=
  let st0 :=
    {| users := users st; rooms := rooms st;
       userSocketRooms := userSocketRooms st;
       sio := aleaveAll sid (sio st) |} in
  let left :=
    match mget sid (users st0) with
    | Some userData =>
        if truthy (currentRoomId userData)
        then leaveRoom (clk 0%nat) sid (show "" (currentRoomId userData))
                       true st0
        else Some (st0, [])
    | None => Some (st0, [])
    end in
  match left with
  | None => None
  | Some (st1, out) =>
      Some ({| users := mdel sid (users st1);
               rooms := rooms st1;
               userSocketRooms := mdel sid (userSocketRooms st1);
               sio := sio st1 |}, out)
  end.

(** The events a client, or the transport, can raise on a socket. *)
Inductive Event :=
| On_connection (sid : string)
| On_set_initial_username (sid newUsername : string)
| On_change_username (sid newUsername : string)
| On_create_room (sid roomName roomPin : string)
| On_join_room_by_pin (sid roomPin : string)
| On_switch_room (sid newRoomId : string)
| On_leave_current_room (sid : string)
| On_chat_message (sid text : string) (timestamp : Z)
| On_chat_action (sid text : string) (timestamp : Z)
| On_typing (sid roomId : string)
| On_stop_typing (sid roomId : string)
| On_disconnect (sid : string).

Definition handle (clk : Clock) (e : Event) (st : State) : Result :=
  match e with
  | On_connection sid => connection sid st
  | On_set_initial_username sid n => setInitialUsername clk sid n st
  | On_change_username sid n => changeUsername clk sid n st
  | On_create_room sid n p => createRoom clk sid n p st
  | On_join_room_by_pin sid p => joinRoomByPin clk sid p st
  | On_switch_room sid r => switchRoom clk sid r st
  | On_leave_current_room sid => leaveCurrentRoom clk sid st
  | On_chat_message sid t ts => chatMessage sid t ts st
  | On_chat_action sid t ts => chatAction sid t ts st
  | On_typing sid r => typing sid r st
  | On_stop_typing sid r => stopTyping sid r st
  | On_disconnect sid => disconnect clk sid st
  end.

(** The handlers run one after the other, each to completion; every run
    comes with its own clock readings. *)
Fixpoint run (es : list (Clock * Event)) (st : State) : option State :=
  match es with
  | [] => Some st
  | (clk, e) :: es' =>
      match handle clk e st with
      | None => None
      | Some (st', _) => run es' st'
      end
  end.

(** The display names of the sessions whose [currentRoomId] is [roomId]. *)
Definition namesInRoom (st : State) (roomId : string) : list (option string) :=
  map username
      (filter (fun u => seq (currentRoomId u) (Some roomId))
              (mvalues (users st))).

End Server.

(** ** [src/unnamed/part_000] *)

Module Lobby.

(** An entry of the [users] array: { id, username } *)
Record UserEntry := mkEntry {
  ue_id : string;
  ue_username : string
}.

(** [rooms]: key -> { id, name, pin, history, users }; [users] holds
    socket ids. *)
Record Room := mkRoom {
  id : string;
  name : string;
  pin : option string;
  history : list ChatEvent;
  room_users : StrSet
}.

(** The two properties the handlers keep on the socket object. *)
Record Sock := mkSock {
  username : option string;
  currentRoomId : option string
}.

(** The module-level [users] and [rooms], the live sockets
    ([io.sockets.sockets]) and the transport's room table. *)
Record State := mkState {
  users : list UserEntry;
  rooms : Map Room;
  sockets : Map Sock;
  sio : Adapter
}.

Record JoinedInfo := mkJoined {
  j_roomName : string;
  j_roomId : string;
  j_history : list ChatEvent;
  j_usersInRoom : list (option string)
}.

Inductive Payload :=
| Room_action_feedback (msg : string)
| Username_accepted (uname : string)
| Username_rejected (msg : string)
| Username_updated (uname : string)
| Update_room_list (l : list RoomSummary)
| Update_user_list (names : list (option string))
| Room_joined_success (info : JoinedInfo)
| Chat_message (ev : ChatEvent)
| Chat_action (ev : ChatEvent)
| User_typing (uname : option string) (room : string)
| User_stop_typing (uname : option string) (room : string)
| Entered_lobby.

Definition Notification : Type := Target * Payload.
Definition Result : Type := option (State * list Notification).

Definition feedback (sid msg : string) : Notification :=
  (ToSocket sid, Room_action_feedback msg).

Definition initial : State :=
  {| users := [];
     rooms := [("general",
                {| id := "general"; name := "General"; pin := None;
                   history := []; room_users := [] |})];
     sockets := [];
     sio := [] |}.

Definition getRoomList (st : State) : list RoomSummary :=
  map (fun room => {| rs_id := id room;
                      rs_name := name room;
                      rs_hasPin := truthy (pin room) |})
      (mvalues (rooms st)).

(** [Array.from(ids).map(id => io.sockets.sockets.get(id).username)]:
    the read throws when an id is not a live socket. *)
Fixpoint usernamesOf (socks : Map Sock) (ids : list string)
  : option (list (option string)) :=
  match ids with
  | [] => Some []
  | i :: ids' =>
      match mget i socks, usernamesOf socks ids' with
      | Some sock, Some names => Some (username sock :: names)
      | _, _ => None
      end
  end.

Definition addHistory (ev : ChatEvent) (r : Room) : Room :=
  {| id := id r; name := name r; pin := pin r;
     history := history r ++ [ev]; room_users := room_users r |}.

Definition setRoomUsers (u : StrSet) (r : Room) : Room :=
  {| id := id r; name := name r; pin := pin r;
     history := history r; room_users := u |}.

(** io.on('connection') *)
Definition connection (sid : string) (st : State) : Result :=
  let st1 :=
    {| users := users st; rooms := rooms st;
       sockets := mset sid {| username := None; currentRoomId := None |}
                       (sockets st);
       sio := sio st |} in
  Some (st1, [(ToSocket sid, Update_room_list (getRoomList st1))]).

(** 'set initial username' *)
Definition setInitialUsername (sid newUsername : string) (st : State)
  : Result :=
  match mget sid (sockets st) with
  | None => None
  | Some sock =>
      let trimmedUsername := trim newUsername in
      if negb (trimmedUsername =? "")
         && negb (existsb (fun u => ue_username u =? trimmedUsername)
                          (users st))
      then
        let st1 :=
          {| users := users st
                      ++ [{| ue_id := sid; ue_username := trimmedUsername |}];
             rooms := rooms st;
             sockets :=
               mupd sid (fun _ => {| username := Some trimmedUsername;
                                     currentRoomId := currentRoomId sock |})
                    (sockets st);
             sio := sio st |} in
        Some (st1, [(ToSocket sid, Username_accepted trimmedUsername);
                    (ToAll, Update_room_list (getRoomList st1))])
      else
        Some (st, [(ToSocket sid,
                    Username_rejected "Username is empty or already taken.")])
  end.

(** [users[users.findIndex(u => u.id === sid)].username = n], when the
    index is not -1. *)
Fixpoint renameFirst (sid n : string) (us : list UserEntry)
  : list UserEntry :=
  match us with
  | [] => []
  | u :: us' =>
      if ue_id u =? sid then {| ue_id := ue_id u; ue_username := n |} :: us'
      else u :: renameFirst sid n us'
  end.

(** [users.splice(users.findIndex(u => u.id === sid), 1)], when the index
    is not -1. *)
Fixpoint removeFirst (sid : string) (us : list UserEntry)
  : list UserEntry :=
  match us with
  | [] => []
  | u :: us' => if ue_id u =? sid then us' else u :: removeFirst sid us'
  end.

(** The [for (const [roomId, room] of rooms)] loop of 'change username';
    the room at position [i] reads the clock at [2 * i] and [2 * i + 1]. *)
Fixpoint renameInRooms (clk : Clock) (i : nat) (sid : string)
         (text : string) (socks : Map Sock) (rs : Map Room)
  : option (Map Room * list Notification) :=
  match rs with
  | [] => Some ([], [])
  | (roomId, room) :: rs' =>
      if shas sid (room_users room)
      then
        match usernamesOf socks (room_users room) with
        | None => None
        | Some names =>
            match renameInRooms clk (S i) sid text socks rs' with
            | None => None
            | Some (rs'', out) =>
                Some ((roomId,
                       addHistory
                         {| ev_type := Some TSystem; ev_user := None;
                            ev_text := text;
                            ev_timestamp := clk (2 * i)%nat;
                            ev_room := None |} room) :: rs'',
                      (ToRoom roomId,
                       Chat_message
                         {| ev_type := None; ev_user := Some "System";
                            ev_text := text;
                            ev_timestamp := clk (2 * i + 1)%nat;
                            ev_room := Some roomId |})
                        :: (ToRoom roomId, Update_user_list names) :: out)
            end
        end
      else
        match renameInRooms clk (S i) sid text socks rs' with
        | None => None
        | Some (rs'', out) => Some ((roomId, room) :: rs'', out)
        end
  end.

(** 'change username' *)
Definition changeUsername (clk : Clock) (sid newUsername : string)
           (st : State) : Result :=
  match mget sid (sockets st) with
  | None => None
  | Some sock =>
      let trimmedNewUsername := trim newUsername in
      if trimmedNewUsername =? ""
      then Some (st, [feedback sid "Username cannot be empty."])
      else if existsb (fun u => (ue_username u =? trimmedNewUsername)
                                && negb (ue_id u =? sid))
                      (users st)
      then Some (st, [feedback sid
                        (tpl ["Username "; dquote; trimmedNewUsername;
                              dquote; " is already taken."])])
      else
        let oldUsername := username sock in
        if truthy oldUsername
        then
          let text := tpl [show "undefined" oldUsername; " is now ";
                           trimmedNewUsername; "."] in
          match renameInRooms clk 0 sid text (sockets st) (rooms st) with
          | None => None
          | Some (rooms', out) =>
              Some ({| users := renameFirst sid trimmedNewUsername (users st);
                       rooms := rooms';
                       sockets :=
                         mupd sid
                           (fun _ => {| username := Some trimmedNewUsername;
                                        currentRoomId := currentRoomId sock |})
                           (sockets st);
                       sio := sio st |},
                    out ++ [(ToSocket sid,
                             Username_updated trimmedNewUsername)])
          end
        else Some (st, [feedback sid
                          "You must set an initial username first."])
  end.

(** The block "Leave current room if in one" that 'create room', 'join room
    by pin' and 'switch room' each write out; [now] is its reading of the
    clock.  It leaves [socket.currentRoomId] as it is. *)
Definition leaveOld (now : Z) (sid : string) (sock : Sock) (st : State)
  : Result :=
  let cur := show "" (currentRoomId sock) in
  if truthy (currentRoomId sock) && mhas cur (rooms st)
  then
    let rooms1 :=
      mupd cur (fun r => setRoomUsers (sdel sid (room_users r)) r) (rooms st) in
    match mget cur rooms1 with
    | None => None
    | Some oldRoom =>
        match usernamesOf (sockets st) (room_users oldRoom) with
        | None => None
        | Some names =>
            Some ({| users := users st; rooms := rooms1;
                     sockets := sockets st;
                     sio := aleave sid cur (sio st) |},
                  [(ToRoom cur,
                    Chat_message
                      {| ev_type := None; ev_user := Some "System";
                         ev_text := tpl [show "undefined" (username sock);
                                         " has left the room."];
                         ev_timestamp := now;
                         ev_room := Some cur |});
                   (ToRoom cur, Update_user_list names)])
        end
    end
  else Some (st, []).

(** 'create room'; [clk 0] is the reading of the leave block, [clk 1]
    stamps the history entry. *)
Definition createRoom (clk : Clock) (sid roomName : string)
           (roomPin : option string) (st : State) : Result :=
  match mget sid (sockets st) with
  | None => None
  | Some sock =>
      if negb (truthy (username sock))
      then Some (st, [feedback sid "Please set your username first."])
      else
        let trimmedName := trim roomName in
        let trimmedPin :=
          if truthy roomPin then Some (trim (show "" roomPin)) else None in
        if (trimmedName =? "") || negb (truthy trimmedPin)
        then Some (st, [feedback sid "Room name and PIN cannot be empty."])
        else
          let key := show "" trimmedPin in
          if mhas key (rooms st)
          then Some (st, [feedback sid
                            (tpl ["Room with PIN "; dquote; key; dquote;
                                  " already exists."])])
          else
            match leaveOld (clk 0%nat) sid sock st with
            | None => None
            | Some (st1, out1) =>
                let newRoom :=
                  {| id := key; name := trimmedName; pin := Some key;
                     history :=
                       [{| ev_type := Some TSystem; ev_user := None;
                           ev_text :=
                             tpl [show "undefined" (username sock);
                                  " created and joined the room."];
                           ev_timestamp := clk 1%nat;
                           ev_room := None |}];
                     room_users := [sid] |} in
                let st2 :=
                  {| users := users st1;
                     rooms := mset key newRoom (rooms st1);
                     sockets :=
                       mupd sid (fun _ => {| username := username sock;
                                             currentRoomId := Some key |})
                            (sockets st1);
                     sio := ajoin sid key (sio st1) |} in
                match usernamesOf (sockets st2) (room_users newRoom) with
                | None => None
                | Some names =>
                    Some (st2,
                          out1
                          ++ [(ToSocket sid,
                               Room_joined_success
                                 {| j_roomName := name newRoom;
                                    j_roomId := id newRoom;
                                    j_history := history newRoom;
                                    j_usersInRoom := names |});
                              (ToRoom key, Update_user_list names);
                              (ToAll, Update_room_list (getRoomList st2))])
                end
            end
  end.

(** What 'join room by pin' and 'switch room' both do once the target
    [room], stored under [key], is found and is not the current room:
    the leave block, then the join.  [tLeave] is the reading of the leave
    block, [tJoin] stamps the history entry. *)
Definition enterRoom (tLeave tJoin : Z) (sid : string) (sock : Sock)
           (key : string) (room : Room) (st : State) : Result :=
  match leaveOld tLeave sid sock st with
  | None => None
  | Some (st1, out1) =>
      let room' :=
        {| id := id room; name := name room; pin := pin room;
           history :=
             history room
             ++ [{| ev_type := Some TSystem; ev_user := None;
                    ev_text := tpl [show "undefined" (username sock);
                                    " has joined the room."];
                    ev_timestamp := tJoin;
                    ev_room := None |}];
           room_users := sadd sid (room_users room) |} in
      let st2 :=
        {| users := users st1;
           rooms := mupd key (fun _ => room') (rooms st1);
           sockets :=
             mupd sid (fun _ => {| username := username sock;
                                   currentRoomId := Some key |})
                  (sockets st1);
           sio := ajoin sid key (sio st1) |} in
      match usernamesOf (sockets st2) (room_users room') with
      | None => None
      | Some names =>
          Some (st2,
                out1
                ++ [(ToSocket sid,
                     Room_joined_success
                       {| j_roomName := name room';
                          j_roomId := id room';
                          j_history := history room';
                          j_usersInRoom := names |});
                    (ToRoom key, Update_user_list names)])
      end
  end.

(** 'join room by pin' *)
Definition joinRoomByPin (clk : Clock) (sid roomPin : string) (st : State)
  : Result :=
  match mget sid (sockets st) with
  | None => None
  | Some sock =>
      if negb (truthy (username sock))
      then Some (st, [feedback sid "Please set your username first."])
      else
        let trimmedPin := trim roomPin in
        if trimmedPin =? ""
        then Some (st, [feedback sid "Please enter a room PIN/ID."])
        else
          match mget trimmedPin (rooms st) with
          | None => Some (st, [feedback sid "Room not found with that PIN."])
          | Some roomToJoin =>
              if seq (currentRoomId sock) (Some trimmedPin)
              then Some (st, [feedback sid "You are already in this room."])
              else enterRoom (clk 0%nat) (clk 1%nat) sid sock trimmedPin
                             roomToJoin st
          end
  end.

(** 'switch room' *)
Definition switchRoom (clk : Clock) (sid newRoomId : string) (st : State)
  : Result :=
  match mget sid (sockets st) with
  | None => None
  | Some sock =>
      if negb (truthy (username sock))
      then Some (st, [feedback sid "Please set your username first."])
      else
        match mget newRoomId (rooms st) with
        | None => Some (st, [feedback sid "Room not found."])
        | Some roomToSwitchTo =>
            if seq (currentRoomId sock) (Some newRoomId)
            then Some (st, [feedback sid "You are already in this room."])
            else enterRoom (clk 0%nat) (clk 1%nat) sid sock newRoomId
                           roomToSwitchTo st
        end
  end.

(** 'leave current room' *)
Definition leaveCurrentRoom (clk : Clock) (sid : string) (st : State)
  : Result :=
  match mget sid (sockets st) with
  | None => None
  | Some sock =>
      if truthy (currentRoomId sock)
         && mhas (show "" (currentRoomId sock)) (rooms st)
      then
        match leaveOld (clk 0%nat) sid sock st with
        | None => None
        | Some (st1, out1) =>
            Some ({| users := users st1; rooms := rooms st1;
                     sockets :=
                       mupd sid (fun _ => {| username := username sock;
                                             currentRoomId := None |})
                            (sockets st1);
                     sio := sio st1 |},
                  out1 ++ [(ToSocket sid, Entered_lobby)])
        end
      else Some (st, [feedback sid "You are not currently in a room."])
  end.

(** The body shared by 'chat message' and 'chat action'; [dataRoom] is the
    [room] field of the client's payload. *)
Definition post (ty : MsgType) (wire : ChatEvent -> Payload)
           (sid dataRoom text : string) (timestamp : Z) (st : State)
  : Result :=
  match mget sid (sockets st) with
  | None => None
  | Some sock =>
      let cur := show "" (currentRoomId sock) in
      if truthy (username sock) && truthy (currentRoomId sock)
         && mhas cur (rooms st)
      then
        let messageData :=
          {| ev_type := Some ty; ev_user := username sock; ev_text := text;
             ev_timestamp := timestamp; ev_room := Some dataRoom |} in
        Some ({| users := users st;
                 rooms := mupd cur (addHistory messageData) (rooms st);
                 sockets := sockets st; sio := sio st |},
              [(ToRoom dataRoom, wire messageData)])
      else Some (st, [])
  end.

(** 'chat message' *)
Definition chatMessage := post TMessage Chat_message.

(** 'chat action' *)
Definition chatAction := post TAction Chat_action.

(** The body shared by 'typing' and 'stop typing'. *)
Definition typingSignal (wire : option string -> string -> Payload)
           (sid roomId : string) (st : State) : Result :=
  match mget sid (sockets st) with
  | None => None
  | Some sock =>
      if truthy (username sock) && seq (currentRoomId sock) (Some roomId)
         && mhas roomId (rooms st)
      then Some (st, [(ToRoomExcept roomId sid, wire (username sock) roomId)])
      else Some (st, [])
  end.

Definition typing := typingSignal User_typing.
Definition stopTyping := typingSignal User_stop_typing.

(** 'disconnect'.  The transport has closed the socket before the handler
    runs: it is in no room and no longer among the live sockets; the
    handler still holds the socket object. *)
Definition disconnect (clk : Clock) (sid : string) (st : State) : Result :=
  match mget sid (sockets st) with
  | None => None
  | Some sock =>
      let st0 :=
        {| users := removeFirst sid (users st);
           rooms := rooms st;
           sockets := mdel sid (sockets st);
           sio := aleaveAll sid (sio st) |} in
      let cur := show "" (currentRoomId sock) in
      if truthy (currentRoomId sock) && mhas cur (rooms st0)
      then
        let rooms1 :=
          mupd cur (fun r => setRoomUsers (sdel sid (room_users r)) r)
               (rooms st0) in
        match mget cur rooms1 with
        | None => None
        | Some room =>
            match usernamesOf (sockets st0) (room_users room) with
            | None => None
            | Some names =>
                let st1 :=
                  {| users := users st0; rooms := rooms1;
                     sockets := sockets st0; sio := sio st0 |} in
                let out1 :=
                  [(ToRoom cur,
                    Chat_message
                      {| ev_type := None; ev_user := Some "System";
                         ev_text := tpl [show "undefined" (username sock);
                                         " has disconnected."];
                         ev_timestamp := clk 0%nat;
                         ev_room := Some cur |});
                   (ToRoom cur, Update_user_list names)] in
                if Nat.eqb (length (room_users room)) 0
                   && negb (id room =? "general")
                then
                  let st2 :=
                    {| users := users st1;
                       rooms := mdel (id room) (rooms st1);
                       sockets := sockets st1; sio := sio st1 |} in
                  Some (st2,
                        out1 ++ [(ToAll, Update_room_list (getRoomList st2))])
                else Some (st1, out1)
            end
        end
      else Some (st0, [])
  end.

(** The events a client, or the transport, can raise on a socket. *)
Inductive Event :=
| On_connection (sid : string)
| On_set_initial_username (sid newUsername : string)
| On_change_username (sid newUsername : string)
| On_create_room (sid roomName : string) (roomPin : option string)
| On_join_room_by_pin (sid roomPin : string)
| On_switch_room (sid newRoomId : string)
| On_leave_current_room (sid : string)
| On_chat_message (sid dataRoom text : string) (timestamp : Z)
| On_chat_action (sid dataRoom text : string) (timestamp : Z)
| On_typing (sid roomId : string)
| On_stop_typing (sid roomId : string)
| On_disconnect (sid : string).

Definition handle (clk : Clock) (e : Event) (st : State) : Result :=
  match e with
  | On_connection sid => connection sid st
  | On_set_initial_username sid n => setInitialUsername sid n st
  | On_change_username sid n => changeUsername clk sid n st
  | On_create_room sid n p => createRoom clk sid n p st
  | On_join_room_by_pin sid p => joinRoomByPin clk sid p st
  | On_switch_room sid r => switchRoom clk sid r st
  | On_leave_current_room sid => leaveCurrentRoom clk sid st
  | On_chat_message sid r t ts => chatMessage sid r t ts st
  | On_chat_action sid r t ts => chatAction sid r t ts st
  | On_typing sid r => typing sid r st
  | On_stop_typing sid r => stopTyping sid r st
  | On_disconnect sid => disconnect clk sid st
  end.

(** The handlers run one after the other, each to completion. *)
Fixpoint run (es : list (Clock * Event)) (st : State) : option State :=
  match es with
  | [] => Some st
  | (clk, e) :: es' =>
      match handle clk e st with
      | None => None
      | Some (st', _) => run es' st'
      end
  end.

End Lobby.

(** ** Scenarios

    Event sequences run from the initial state; every clock reading in
    them is 1000. *)

Definition at1000 : Clock := fun _ => 1000%Z.

(** A session claims a name, then claims another one while in 'general'. *)
Definition reclaimInRoom : list (Clock * Server.Event) :=
  [(at1000, Server.On_connection "s1");
   (at1000, Server.On_set_initial_username "s1" "alice");
   (at1000, Server.On_set_initial_username "s1" "bob")].

(** Two sessions take the same name through 'change username' while in no
    room, both switch to 'general', and the first disconnects. *)
Definition sameNameLeaves : list (Clock * Server.Event) :=
  [(at1000, Server.On_connection "s1");
   (at1000, Server.On_connection "s2");
   (at1000, Server.On_change_username "s1" "bob");
   (at1000, Server.On_change_username "s2" "bob");
   (at1000, Server.On_switch_room "s1" "general");
   (at1000, Server.On_switch_room "s2" "general");
   (at1000, Server.On_disconnect "s1")].

(** A session connects and names itself (it lands in 'general'). *)
Definition aliceInGeneral : list (Clock * Server.Event) :=
  [(at1000, Server.On_connection "s1");
   (at1000, Server.On_set_initial_username "s1" "alice")].

(** ... and then creates the room "Plans" with PIN "1234". *)
Definition aliceCreatesPlans : list (Clock * Server.Event) :=
  aliceInGeneral ++ [(at1000, Server.On_create_room "s1" "Plans" "1234")].

(** The other server: a session names itself and creates "Plans"/"1234". *)
Definition lobbyAliceCreates : list (Clock * Lobby.Event) :=
  [(at1000, Lobby.On_connection "s1");
   (at1000, Lobby.On_set_initial_username "s1" "alice");
   (at1000, Lobby.On_create_room "s1" "Plans" (Some "1234"))].

(** ... while a second session names itself and enters 'general'. *)
Definition lobbyTwoRooms : list (Clock * Lobby.Event) :=
  lobbyAliceCreates
  ++ [(at1000, Lobby.On_connection "s2");
      (at1000, Lobby.On_set_initial_username "s2" "bob");
      (at1000, Lobby.On_switch_room "s2" "general")].


(** The state of [src/unnamed/part_000] once "alice" has named herself. *)
Definition lobbyNamed : Lobby.State :=
  {| Lobby.users := [{| Lobby.ue_id := "s1"; Lobby.ue_username := "alice" |}];
     Lobby.rooms := Lobby.rooms Lobby.initial;
     Lobby.sockets := [("s1", {| Lobby.username := Some "alice";
                                 Lobby.currentRoomId := None |})];
     Lobby.sio := [] |}.

(** The state of [src/server.js] once "alice" has named herself, and once
    she has created "Plans". *)
Definition serverNamed : Server.State :=
  match Server.run aliceInGeneral Server.initial with
  | Some st => st
  | None => Server.initial
  end.

Definition serverPlans : Server.State :=
  match Server.run aliceCreatesPlans Server.initial with
  | Some st => st
  | None => Server.initial
  end.

(** The same registry with another PIN on "Plans". *)
Definition serverPlansRepinned : Server.State :=
  Server.setRooms serverPlans
    (mupd "room-1000"
          (fun r => {| Server.name := Server.name r;
                       Server.pin := Some "9999";
                       Server.history := Server.history r;
                       Server.usersInRoom := Server.usersInRoom r |})
          (Server.rooms serverPlans)).

(** The state of [src/unnamed/part_000] once "alice" has created "Plans",
    and once "bob" has connected and named himself. *)
Definition lobbyPlans : Lobby.State :=
  match Lobby.run lobbyAliceCreates Lobby.initial with
  | Some st => st
  | None => Lobby.initial
  end.

Definition lobbyBobArrives : list (Clock * Lobby.Event) :=
  lobbyAliceCreates
  ++ [(at1000, Lobby.On_connection "s2");
      (at1000, Lobby.On_set_initial_username "s2" "bob")].

Definition lobbyBobNamed : Lobby.State :=
  match Lobby.run lobbyBobArrives Lobby.initial with
  | Some st => st
  | None => Lobby.initial
  end.

(** The state of [src/server.js] once a second session has connected and
    taken the name "bob" through 'change username': it is in no room. *)
Definition bobRenamesUnnamed : list (Clock * Server.Event) :=
  aliceInGeneral
  ++ [(at1000, Server.On_connection "s2");
      (at1000, Server.On_change_username "s2" "bob")].

Definition serverBobNamed : Server.State :=
  match Server.run bobRenamesUnnamed Server.initial with
  | Some st => st
  | None => Server.initial
  end.

(** A second session connects while "alice" is in 'general'. *)
Definition bobConnects : list (Clock * Server.Event) :=
  aliceInGeneral ++ [(at1000, Server.On_connection "s2")].

Definition serverBobConnected : Server.State :=
  match Server.run bobConnects Server.initial with
  | Some st => st
  | None => Server.initial
  end.

(** ... and names itself "bob": both are in 'general'. *)
Definition bobInGeneral : list (Clock * Server.Event) :=
  bobConnects ++ [(at1000, Server.On_set_initial_username "s2" "bob")].

Definition serverBobInGeneral : Server.State :=
  match Server.run bobInGeneral Server.initial with
  | Some st => st
  | None => Server.initial
  end.

(** "bob" goes on to switch to the room "1234", where "alice" is. *)
Definition lobbyBobJoins : list (Clock * Lobby.Event) :=
  lobbyBobArrives ++ [(at1000, Lobby.On_switch_room "s2" "1234")].

Definition lobbyBobJoined : Lobby.State :=
  match Lobby.run lobbyBobJoins Lobby.initial with
  | Some st => st
  | None => Lobby.initial
  end.

(** The other server again: "alice" creates "Plans" under the PIN "5678". *)
Definition lobbyAliceCreatesOther : list (Clock * Lobby.Event) :=
  [(at1000, Lobby.On_connection "s1");
   (at1000, Lobby.On_set_initial_username "s1" "alice");
   (at1000, Lobby.On_create_room "s1" "Plans" (Some "5678"))].

Definition lobbyPlansOther : Lobby.State :=
  match Lobby.run lobbyAliceCreatesOther Lobby.initial with
  | Some st => st
  | None => Lobby.initial
  end.

(** The ids a transition registered: keys of [after] that [before] lacks. *)
Definition newKeys {V : Type} (before after : Map V) : list string :=
  filter (fun k => negb (mhas k before)) (mkeys after).

(** ** Predicates used in the statements *)

(** [src/server.js]: some session that occupies a room holds the name. *)
Definition heldInRoom (st : Server.State) (n : string) : Prop :=
  exists u, In u (mvalues (Server.users st))
            /\ Server.username u = Some n
            /\ Server.currentRoomId u <> None.




(** [src/unnamed/part_000]: an entry of another socket holds the name. *)
Definition heldByOther (st : Lobby.State) (sid n : string) : Prop :=
  exists u, In u (Lobby.users st) /\ Lobby.ue_username u = n
            /\ Lobby.ue_id u <> sid.

(** [src/unnamed/part_000]: every socket id in a room's member set is a
    live socket. *)
Definition membersLive (st : Lobby.State) : bool :=
  forallb (fun e => forallb (fun i => mhas i (Lobby.sockets st))
                            (Lobby.room_users (snd e)))
          (Lobby.rooms st).

(** Two registries of [src/server.js] that agree on the ids, on the names
    and on which rooms have a PIN, whatever the PINs are. *)
Definition sameListing (r1 r2 : Map Server.Room) : Prop :=
  Forall2 (fun e1 e2 =>
             fst e1 = fst e2
             /\ Server.name (snd e1) = Server.name (snd e2)
             /\ notNull (Server.pin (snd e1)) = notNull (Server.pin (snd e2)))
          r1 r2.

(** Two registries of [src/unnamed/part_000] that agree on the names and
    on which rooms have a PIN, whatever the PINs, and with them the ids,
    are. *)
Definition sameNamesL (r1 r2 : Map Lobby.Room) : Prop :=
  Forall2 (fun e1 e2 =>
             Lobby.name (snd e1) = Lobby.name (snd e2)
             /\ truthy (Lobby.pin (snd e1)) = truthy (Lobby.pin (snd e2)))
          r1 r2.

(** [src/server.js]: the system entry [joinRoom] records for a session
    named [uname] that joins room [rid] at time [t]. *)
Definition joinEntry (uname : option string) (rid : string) (t : Z)
  : ChatEvent :=
  {| ev_type := Some TSystem; ev_user := None;
     ev_text := tpl ["<strong>"; show "null" uname;
                     "</strong> has joined the room."];
     ev_timestamp := t; ev_room := Some rid |}.

(** [src/server.js]: the room record once the session has joined it. *)
Definition joinedRoom (uname : option string) (rid : string) (t : Z)
           (room : Server.Room) : Server.Room :=
  {| Server.name := Server.name room; Server.pin := Server.pin room;
     Server.history := Server.history room ++ [joinEntry uname rid t];
     Server.usersInRoom :=
       sadd (show "null" uname) (Server.usersInRoom room) |}.

(** [src/server.js]: the PIN test of [joinRoom]. *)
Definition pinGate (room : Server.Room) (pinArg : option string)
           (rid : string) : bool :=
  truthy (Server.pin room) && negb (seq (Server.pin room) pinArg)
  && negb (rid =? GENERAL_ROOM_ID).

(** [src/unnamed/part_000]: the system entry a join records. *)
Definition joinEntryL (uname : option string) (t : Z) : ChatEvent :=
  {| ev_type := Some TSystem; ev_user := None;
     ev_text := tpl [show "undefined" uname; " has joined the room."];
     ev_timestamp := t; ev_room := None |}.

(** [src/unnamed/part_000]: the room record once socket [sid] has joined. *)
Definition joinedRoomL (uname : option string) (sid : string) (t : Z)
           (room : Lobby.Room) : Lobby.Room :=
  {| Lobby.id := Lobby.id room; Lobby.name := Lobby.name room;
     Lobby.pin := Lobby.pin room;
     Lobby.history := Lobby.history room ++ [joinEntryL uname t];
     Lobby.room_users := sadd sid (Lobby.room_users room) |}.

(** [src/unnamed/part_000]: the runs of the server.  The transport hands
    out a fresh socket id with every connection. *)
Definition freshConnection (e : Lobby.Event) (st : Lobby.State) : Prop :=
  match e with
  | Lobby.On_connection sid => mhas sid (Lobby.sockets st) = false
  | _ => True
  end.

Inductive lobbyReachable : Lobby.State -> Prop :=
| lobby_initial : lobbyReachable Lobby.initial
| lobby_handle (st st' : Lobby.State) (clk : Clock) (e : Lobby.Event)
               (out : list Lobby.Notification) :
    lobbyReachable st ->
    freshConnection e st ->
    Lobby.handle clk e st = Some (st', out) ->
    lobbyReachable st'.

(** [src/unnamed/part_000]: the members of every room are the live sockets
    whose current room it is; [membersExactBut sid] leaves socket [sid]
    out, for the states in the middle of a move of [sid]. *)
Definition membersExact (st : Lobby.State) : Prop :=
  forall k r i,
    mget k (Lobby.rooms st) = Some r ->
    (In i (Lobby.room_users r)
     <-> exists s, mget i (Lobby.sockets st) = Some s
                   /\ Lobby.currentRoomId s = Some k).

Definition membersExactBut (sid : string) (st : Lobby.State) : Prop :=
  forall k r i,
    mget k (Lobby.rooms st) = Some r ->
    (In i (Lobby.room_users r)
     <-> i <> sid
         /\ exists s, mget i (Lobby.sockets st) = Some s
                      /\ Lobby.currentRoomId s = Some k).

(** The current room of every socket is registered. *)
Definition currentKnown (st : Lobby.State) : Prop :=
  forall i s k,
    mget i (Lobby.sockets st) = Some s ->
    Lobby.currentRoomId s = Some k ->
    mhas k (Lobby.rooms st) = true.

Definition currentKnownBut (sid : string) (st : Lobby.State) : Prop :=
  forall i s k,
    i <> sid ->
    mget i (Lobby.sockets st) = Some s ->
    Lobby.currentRoomId s = Some k ->
    mhas k (Lobby.rooms st) = true.

(** A room is stored under its id, which is not empty. *)
Definition keysOk (st : Lobby.State) : Prop :=
  forall k r, mget k (Lobby.rooms st) = Some r -> k <> "" /\ Lobby.id r = k.

Definition lobbyInv (st : Lobby.State) : Prop :=
  membersExact st /\ currentKnown st /\ keysOk st.

Definition lobbyInvBut (sid : string) (st : Lobby.State) : Prop :=
  membersExactBut sid st /\ currentKnownBut sid st /\ keysOk st.

(** [src/unnamed/part_000]: what every leave does to [rooms]: socket [sid] is taken out of the
    member set of its current room, if that room is registered. *)
Definition leftRooms (sid : string) (sock : Lobby.Sock) (rs : Map Lobby.Room)
  : Map Lobby.Room :=
  if truthy (Lobby.currentRoomId sock) && mhas (show "" (Lobby.currentRoomId sock)) rs
  then mupd (show "" (Lobby.currentRoomId sock))
            (fun r => Lobby.setRoomUsers (sdel sid (Lobby.room_users r)) r) rs
  else rs.

(** [src/unnamed/part_000]: the payloads that tell a client its request
    was turned down. *)
Definition isRejection (n : Lobby.Notification) : bool :=
  match snd n with
  | Lobby.Room_action_feedback _ | Lobby.Username_rejected _ => true
  | _ => false
  end.

(** [src/server.js]: every session that is in a room has joined that room
    in the transport's table; [adapterOkBut sid] leaves session [sid] out. *)
Definition adapterOk (st : Server.State) : Prop :=
  forall i u c,
    mget i (Server.users st) = Some u ->
    Server.currentRoomId u = Some c ->
    ajoined (Server.sio st) i c = true.

Definition adapterOkBut (sid : string) (st : Server.State) : Prop :=
  forall i u c,
    i <> sid ->
    mget i (Server.users st) = Some u ->
    Server.currentRoomId u = Some c ->
    ajoined (Server.sio st) i c = true.

Inductive serverReachable : Server.State -> Prop :=
| server_initial : serverReachable Server.initial
| server_handle (st st' : Server.State) (clk : Clock) (e : Server.Event)
                (out : list Server.Notification) :
    serverReachable st ->
    Server.handle clk e st = Some (st', out) ->
    serverReachable st'.

(** [src/unnamed/part_000]: every connection of the run brings a socket
    id that is not live at that point. *)
Fixpoint freshRun (es : list (Clock * Lobby.Event)) (st : Lobby.State) : bool :=
  match es with
  | [] => true
  | (clk, e) :: es' =>
      match e with
      | Lobby.On_connection sid => negb (mhas sid (Lobby.sockets st))
      | _ => true
      end
      && match Lobby.handle clk e st with
         | Some (st', _) => freshRun es' st'
         | None => true
         end
  end.

(** [src/server.js]: no room id is empty; 'general' is stored without a
    PIN; every other room has one, and has neither a member nor a history
    entry. *)
Definition pinsOk (rs : Map Server.Room) : Prop :=
  Forall (fun e => fst e <> ""
                   /\ if fst e =? GENERAL_ROOM_ID
                      then Server.pin (snd e) = None
                      else truthy (Server.pin (snd e)) = true
                           /\ Server.usersInRoom (snd e) = []
                           /\ Server.history (snd e) = []) rs.

(** [src/server.js]: a session that is in a room is in 'general'. *)
Definition onlyGeneral (st : Server.State) : Prop :=
  forall i u c,
    mget i (Server.users st) = Some u ->
    Server.currentRoomId u = Some c -> c = GENERAL_ROOM_ID.

(** [src/server.js]: [userSocketRooms] holds, for every session, its
    current room and nothing else. *)
Definition socketRoomsOk (st : Server.State) : Prop :=
  forall i u,
    mget i (Server.users st) = Some u ->
    mget i (Server.userSocketRooms st)
    = Some (match Server.currentRoomId u with
            | Some c => [c]
            | None => []
            end).

(** [src/server.js]: what holds between any two handler runs. *)
Definition serverInv (st : Server.State) : Prop :=
  pinsOk (Server.rooms st)
  /\ NoDup (mkeys (Server.rooms st))
  /\ mhas GENERAL_ROOM_ID (Server.rooms st) = true
  /\ onlyGeneral st
  /\ socketRoomsOk st.

(** The socket an event is raised on. *)
Definition serverSocket (e : Server.Event) : string :=
  match e with
  | Server.On_connection sid
  | Server.On_set_initial_username sid _
  | Server.On_change_username sid _
  | Server.On_create_room sid _ _
  | Server.On_join_room_by_pin sid _
  | Server.On_switch_room sid _
  | Server.On_leave_current_room sid
  | Server.On_chat_message sid _ _
  | Server.On_chat_action sid _ _
  | Server.On_typing sid _
  | Server.On_stop_typing sid _
  | Server.On_disconnect sid => sid
  end.

(** [src/server.js]: the event is a connection, or its socket has its
    entry in [users]. *)
Definition serverLive (e : Server.Event) (st : Server.State) : Prop :=
  match e with
  | Server.On_connection _ => True
  | _ => mhas (serverSocket e) (Server.users st) = true
  end.

(** [src/server.js]: room [r'] is room [r] some entries later: same name
    and PIN, and a history that starts with the one of [r]. *)
Definition keptRoom (r r' : Server.Room) : Prop :=
  Server.name r' = Server.name r
  /\ Server.pin r' = Server.pin r
  /\ exists more, Server.history r' = Server.history r ++ more.

(** The same for [src/unnamed/part_000], where the id is a field. *)
Definition keptRoomL (r r' : Lobby.Room) : Prop :=
  Lobby.id r' = Lobby.id r
  /\ Lobby.name r' = Lobby.name r
  /\ Lobby.pin r' = Lobby.pin r
  /\ exists more, Lobby.history r' = Lobby.history r ++ more.

(** [src/unnamed/part_000]: the keys of [rooms] are distinct, 'general'
    is one of them, and every room is stored under its id, which is not
    empty, with no PIN for 'general' and the key as PIN for the others. *)
Definition registryOk (rs : Map Lobby.Room) : Prop :=
  NoDup (mkeys rs)
  /\ mhas "general" rs = true
  /\ Forall (fun e => Lobby.id (snd e) = fst e
                      /\ fst e <> ""
                      /\ Lobby.pin (snd e)
                         = if fst e =? "general" then None else Some (fst e))
            rs.

(** The socket an event is raised on. *)
Definition lobbySocket (e : Lobby.Event) : string :=
  match e with
  | Lobby.On_connection sid
  | Lobby.On_set_initial_username sid _
  | Lobby.On_change_username sid _
  | Lobby.On_create_room sid _ _
  | Lobby.On_join_room_by_pin sid _
  | Lobby.On_switch_room sid _
  | Lobby.On_leave_current_room sid
  | Lobby.On_chat_message sid _ _ _
  | Lobby.On_chat_action sid _ _ _
  | Lobby.On_typing sid _
  | Lobby.On_stop_typing sid _
  | Lobby.On_disconnect sid => sid
  end.

(** [src/unnamed/part_000]: the event is a connection, or its socket is
    live. *)
Definition lobbyLive (e : Lobby.Event) (st : Lobby.State) : Prop :=
  match e with
  | Lobby.On_connection _ => True
  | _ => mhas (lobbySocket e) (Lobby.sockets st) = true
  end.

(** [src/unnamed/part_000]: entries of [users] with the same name belong to
    the same socket, and the name of every live socket has its entry. *)
Definition namesOk (st : Lobby.State) : Prop :=
  (forall u v, In u (Lobby.users st) -> In v (Lobby.users st) ->
               Lobby.ue_username u = Lobby.ue_username v ->
               Lobby.ue_id u = Lobby.ue_id v)
  /\ (forall i s n, mget i (Lobby.sockets st) = Some s ->
                    Lobby.username s = Some n ->
                    In {| Lobby.ue_id := i; Lobby.ue_username := n |}
                       (Lobby.users st)).

(** [src/unnamed/part_000]: the transport's room table holds, for every
    live socket, its current room and nothing else. *)
Definition adapterExact (st : Lobby.State) : Prop :=
  forall i k,
    ajoined (Lobby.sio st) i k = true
    <-> exists s, mget i (Lobby.sockets st) = Some s
                  /\ Lobby.currentRoomId s = Some k.

(** [adapterExactBut sid] leaves socket [sid] out: it has joined no room. *)
Definition adapterExactBut (sid : string) (socks : Map Lobby.Sock)
           (a : Adapter) : Prop :=
  forall i k,
    ajoined a i k = true
    <-> i <> sid
        /\ exists s, mget i socks = Some s /\ Lobby.currentRoomId s = Some k.

(** * Facts about the JavaScript containers *)

Module JsFacts.

Lemma mget_mset {V} (k k' : string) (v : V) (m : Map V) :
  mget k (mset k' v m) = if k =? k' then Some v else mget k m.
Proof.
  induction m as [|[k0 v0] m IH]; simpl.
  - reflexivity.
  - destruct (String.eqb_spec k' k0) as [->|Hn]; simpl.
    + destruct (k =? k0); reflexivity.
    + rewrite IH. destruct (String.eqb_spec k k0) as [->|Hn'].
      * destruct (String.eqb_spec k0 k'); congruence.
      * reflexivity.
Qed.

Lemma mget_mupd {V} (k k' : string) (f : V -> V) (m : Map V) :
  mget k (mupd k' f m)
  = if k =? k' then option_map f (mget k m) else mget k m.
Proof.
  induction m as [|[k0 v0] m IH]; simpl.
  - destruct (k =? k'); reflexivity.
  - destruct (String.eqb_spec k' k0) as [->|Hn]; simpl.
    + destruct (k =? k0); reflexivity.
    + rewrite IH. destruct (String.eqb_spec k k0) as [->|Hn'].
      * destruct (String.eqb_spec k0 k'); congruence.
      * reflexivity.
Qed.

Lemma mget_mdel_other {V} (k k' : string) (m : Map V) :
  k <> k' -> mget k (mdel k' m) = mget k m.
Proof.
  intros Hk. induction m as [|[k0 v0] m IH]; simpl.
  - reflexivity.
  - destruct (String.eqb_spec k' k0) as [->|Hn]; simpl.
    + destruct (String.eqb_spec k k0); [congruence | exact IH].
    + now rewrite IH.
Qed.

Lemma mget_mdel_same {V} (k : string) (m : Map V) : mget k (mdel k m) = None.
Proof.
  induction m as [|[k0 v0] m IH]; simpl.
  - reflexivity.
  - destruct (k =? k0) eqn:E; [exact IH |]. simpl. now rewrite E.
Qed.

Lemma mhas_mupd {V} (k k' : string) (f : V -> V) (m : Map V) :
  mhas k (mupd k' f m) = mhas k m.
Proof.
  unfold mhas. rewrite mget_mupd.
  destruct (k =? k'); destruct (mget k m); reflexivity.
Qed.

Lemma mkeys_mupd {V} (k : string) (f : V -> V) (m : Map V) :
  mkeys (mupd k f m) = mkeys m.
Proof.
  unfold mkeys. induction m as [|[k0 v0] m IH]; simpl.
  - reflexivity.
  - destruct (k =? k0); simpl; [reflexivity | now rewrite IH].
Qed.

Lemma mhas_mkeys {V} (k : string) (m : Map V) :
  mhas k m = false <-> ~ In k (mkeys m).
Proof.
  unfold mhas, mkeys. induction m as [|[k0 v0] m IH]; simpl.
  - tauto.
  - destruct (String.eqb_spec k k0) as [->|Hn].
    + split; [discriminate | intros H; exfalso; apply H; now left].
    + rewrite IH. split.
      * intros H [E|E]; [congruence | tauto].
      * intros H E. apply H. now right.
Qed.

Lemma mkeys_mset_new {V} (k : string) (v : V) (m : Map V) :
  mhas k m = false -> mkeys (mset k v m) = mkeys m ++ [k].
Proof.
  unfold mhas, mkeys. induction m as [|[k0 v0] m IH]; simpl.
  - reflexivity.
  - destruct (k =? k0); [discriminate |].
    intros H. simpl. now rewrite IH.
Qed.

Lemma mget_In {V} (k : string) (v : V) (m : Map V) :
  mget k m = Some v -> In (k, v) m.
Proof.
  induction m as [|[k0 v0] m IH]; simpl.
  - discriminate.
  - destruct (String.eqb_spec k k0) as [->|Hn].
    + intros [= ->]. now left.
    + intros H. right. now apply IH.
Qed.

Lemma seq_eq (a b : option string) : seq a b = true <-> a = b.
Proof.
  destruct a as [x|], b as [y|]; simpl; try (split; congruence).
  rewrite String.eqb_eq. split; congruence.
Qed.

Lemma seq_neq (a b : option string) : seq a b = false <-> a <> b.
Proof.
  rewrite <- seq_eq. destruct (seq a b); split; congruence.
Qed.

Lemma truthy_some (v : option string) :
  truthy v = true -> v = Some (show "" v).
Proof. destruct v; [reflexivity | discriminate]. Qed.

Lemma mhas_mset {V} (k k' : string) (v : V) (m : Map V) :
  mhas k (mset k' v m) = (k =? k') || mhas k m.
Proof.
  unfold mhas. rewrite mget_mset. destruct (k =? k'); reflexivity.
Qed.

Lemma mhas_mdel_other {V} (k k' : string) (m : Map V) :
  k <> k' -> mhas k (mdel k' m) = mhas k m.
Proof. intros H. unfold mhas. now rewrite mget_mdel_other. Qed.

Lemma mhas_mdel_same {V} (k : string) (m : Map V) : mhas k (mdel k m) = false.
Proof. unfold mhas. now rewrite mget_mdel_same. Qed.

Lemma shas_In (x : string) (s : StrSet) : shas x s = true <-> In x s.
Proof.
  induction s as [|y s IH]; simpl.
  - split; [discriminate | tauto].
  - rewrite orb_true_iff, IH, String.eqb_eq. split; intros [H|H]; auto.
Qed.

Lemma In_sdel (i x : string) (s : StrSet) :
  In i (sdel x s) <-> In i s /\ i <> x.
Proof.
  induction s as [|y s IH]; simpl.
  - tauto.
  - destruct (String.eqb_spec x y) as [->|Hn]; simpl; rewrite IH.
    + split; [tauto |]. intros [[E|H] Hne]; [congruence | tauto].
    + split; [intros [E|H]; [subst; split; auto | tauto] | tauto].
Qed.

Lemma In_sadd (i x : string) (s : StrSet) :
  In i (sadd x s) <-> In i s \/ i = x.
Proof.
  unfold sadd. destruct (shas x s) eqn:E.
  - apply shas_In in E. split; [tauto | intros [H| ->]; assumption].
  - rewrite in_app_iff. simpl. split; intros [H|H]; auto.
    + destruct H as [H|[]]; auto.
Qed.

Lemma mhas_mupd_true {V} (k k' : string) (f : V -> V) (m : Map V) :
  mhas k m = true -> mhas k (mupd k' f m) = true.
Proof. now rewrite mhas_mupd. Qed.

Lemma mhas_some {V} (k : string) (m : Map V) :
  mhas k m = true -> exists v, mget k m = Some v.
Proof. unfold mhas. destruct (mget k m); [eauto | discriminate]. Qed.

Lemma trim_nonempty (p : string) : trim p <> "" -> truthy (Some p) = true.
Proof.
  intros H. simpl. destruct (String.eqb_spec p ""); [subst; now elim H | reflexivity].
Qed.

Lemma In_mset_value {V} (k : string) (v : V) (m : Map V) :
  In v (mvalues (mset k v m)).
Proof.
  unfold mvalues. induction m as [|[k0 v0] m IH]; simpl.
  - now left.
  - destruct (k =? k0); simpl; [now left | now right].
Qed.

Lemma mhas_of_mkeys {V W} (k : string) (m : Map V) (m' : Map W) :
  mkeys m' = mkeys m -> mhas k m' = mhas k m.
Proof.
  intros E. destruct (mhas k m) eqn:H.
  - destruct (mhas k m') eqn:H'; [reflexivity |].
    apply mhas_mkeys in H'. rewrite E in H'. apply mhas_mkeys in H'. congruence.
  - apply mhas_mkeys. rewrite E. now apply mhas_mkeys.
Qed.

Lemma forallb_sdel (P : string -> bool) (x : string) (s : StrSet) :
  forallb P s = true -> forallb P (sdel x s) = true.
Proof.
  induction s as [|y s IH]; simpl; [trivial |].
  rewrite andb_true_iff. intros [Hy Hs].
  destruct (x =? y); [now apply IH |].
  simpl. now rewrite Hy, IH.
Qed.

Lemma forallb_sadd (P : string -> bool) (x : string) (s : StrSet) :
  P x = true -> forallb P s = true -> forallb P (sadd x s) = true.
Proof.
  intros Hx Hs. unfold sadd. destruct (shas x s); [exact Hs |].
  rewrite forallb_app, Hs. simpl. now rewrite Hx.
Qed.

Example trim_inner_space : trim "  Plans 2  " = "Plans 2".
Proof. reflexivity. Qed.

Example trim_only_space : trim "   " = "".
Proof. reflexivity. Qed.

Example showZ_decimal : tpl ["room-"; showZ 1700000000000] = "room-1700000000000".
Proof. reflexivity. Qed.

Example mset_keeps_place :
  mkeys (mset "a" 3 (mset "b" 2 (mset "a" 1 []))) = ["a"; "b"].
Proof. reflexivity. Qed.

End JsFacts.
Import JsFacts.

(** Tactics that walk through a handler, one test at a time. *)
Ltac same_state :=
  match goal with
  | |- Some (?st, _) = Some (_, _) -> _ => intros [= <- <-]; try assumption
  | |- None = Some _ -> _ => discriminate
  end.

Ltac step_if :=
  match goal with
  | |- (if ?c then _ else _) = _ -> _ => destruct c eqn:?
  end.

Ltac step_opt :=
  match goal with
  | |- match ?c with Some _ => _ | None => _ end = _ -> _ =>
      let H := fresh "Hrun" in destruct c as [[? ?]|] eqn:H
  end.

Ltac step_get :=
  match goal with
  | |- match ?c with Some _ => _ | None => _ end = _ -> _ =>
      destruct c eqn:?
  end.

(** * Facts about [src/server.js] *)

Module ServerFacts.
Import Server.

Lemma room_id_not_general (x : string) :
  (tpl ["room-"; x] =? GENERAL_ROOM_ID) = false.
Proof. reflexivity. Qed.

(** [joinRoom] is called without a PIN: a room that has one, other than
    'general', turns every caller away. *)
Lemma joinRoom_pin_rejects (tl tj : Z) (sid rid : string) (room : Room)
      (st : State) :
  mget rid (rooms st) = Some room ->
  truthy (pin room) = true ->
  (rid =? GENERAL_ROOM_ID) = false ->
  exists msg, joinRoom tl tj sid rid None st = Some (st, [feedback sid msg]).
Proof.
  intros Hr Hp Hg. unfold joinRoom.
  destruct (mget sid (users st)) as [u|]; [| eauto].
  destruct (truthy (username u)); simpl; [| eauto].
  rewrite Hr, Hp, Hg.
  destruct (pin room); [simpl; eauto | discriminate].
Qed.

Lemma createRoom_cases (clk : Clock) (sid nm p : string) (st : State) :
  trim nm <> "" -> trim p <> "" ->
  if mhas (tpl ["room-"; showZ (clk 0%nat)]) (rooms st)
  then createRoom clk sid nm p st
       = Some (st, [feedback sid
                      "Failed to create room: Room ID already exists."])
  else exists st' out,
      createRoom clk sid nm p st = Some (st', out)
      /\ rooms st' = mset (tpl ["room-"; showZ (clk 0%nat)])
                          {| name := trim nm; pin := Some (trim p);
                             history := []; usersInRoom := [] |}
                          (rooms st)
      /\ mkeys (rooms st')
         = mkeys (rooms st) ++ [tpl ["room-"; showZ (clk 0%nat)]].
Proof.
  intros Hnm Hp. unfold createRoom.
  destruct (String.eqb_spec (trim nm) ""); [contradiction |].
  destruct (String.eqb_spec (trim p) ""); [contradiction |].
  simpl orb. cbv iota.
  set (rid := tpl ["room-"; showZ (clk 0%nat)]).
  destruct (mhas rid (rooms st)) eqn:Hh; [reflexivity |].
  set (room := {| name := trim nm; pin := Some (trim p);
                  history := []; usersInRoom := [] |}).
  set (st1 := setRooms st (mset rid room (rooms st))).
  destruct (joinRoom_pin_rejects (clk 1%nat) (clk 2%nat) sid rid room st1)
    as [msg Hj].
  - simpl. now rewrite mget_mset, String.eqb_refl.
  - simpl. destruct (String.eqb_spec (trim p) ""); [contradiction | reflexivity].
  - apply room_id_not_general.
  - rewrite Hj. eexists _, _. split; [reflexivity |].
    split; [reflexivity |]. simpl. now apply mkeys_mset_new.
Qed.

Lemma username_mupd (sid k : string) (c : option string) (m : Map User) :
  option_map username
             (mget k (mupd sid (fun u => {| username := username u;
                                            currentRoomId := c |}) m))
  = option_map username (mget k m).
Proof.
  rewrite mget_mupd. destruct (k =? sid); [| reflexivity].
  destruct (mget k m); reflexivity.
Qed.

(** [leaveRoom] on a live connection returns; it keeps every user name,
    touches no room but [rid], and speaks only to [rid] and to all. *)
Lemma leaveRoom_spec (now : Z) (sid rid : string) (d : bool) (st : State) :
  mhas sid (userSocketRooms st) = true ->
  exists st1 out1,
    leaveRoom now sid rid d st = Some (st1, out1)
    /\ (forall k, option_map username (mget k (users st1))
                  = option_map username (mget k (users st)))
    /\ mhas sid (userSocketRooms st1) = true
    /\ (forall k, k <> rid -> mget k (rooms st1) = mget k (rooms st))
    /\ (forall t ev, In (t, Chat_message ev) out1 -> ev_room ev = Some rid).
Proof.
  intros Hc. unfold leaveRoom.
  destruct (mget sid (users st)) as [u|] eqn:Hu.
  2:{ exists st, []. repeat split; auto. intros t ev []. }
  destruct (mget rid (rooms st)) as [room|] eqn:Hr.
  2:{ exists st, []. repeat split; auto. intros t ev []. }
  destruct (mhas_some _ _ Hc) as [set Hset]. rewrite Hset.
  match goal with
  | |- context [if ?c then _ else _] => destruct c
  end;
    destruct d; eexists _, _; (split; [reflexivity |]); simpl;
    (split; [intros k; try apply username_mupd; reflexivity |]);
    (split; [apply mhas_mupd_true; exact Hc |]);
    (split;
     [intros k Hk; try rewrite mget_mdel_other by exact Hk;
      rewrite mget_mupd;
      destruct (String.eqb_spec k rid); [contradiction | reflexivity] |]);
    intros t ev H; simpl in H;
    repeat (destruct H as [H|H]; [inversion H; subst; reflexivity |]);
    try contradiction.
Qed.

(** [joinRoom] once every test has passed: the nested leave, then the
    join, with the notifications in the order of the source. *)
Lemma joinRoom_success (tl tj : Z) (sid rid : string) (pinArg : option string)
      (st : State) (u : User) (room : Room) :
  mget sid (users st) = Some u ->
  truthy (username u) = true ->
  mget rid (rooms st) = Some room ->
  pinGate room pinArg rid = false ->
  currentRoomId u <> Some rid ->
  mhas sid (userSocketRooms st) = true ->
  exists st' outLeave,
    joinRoom tl tj sid rid pinArg st
    = Some (st',
            outLeave
            ++ [(ToSocket sid,
                 Room_joined_success
                   {| j_roomName := name room; j_roomId := rid;
                      j_history := history room
                                   ++ [joinEntry (username u) rid tj];
                      j_usersInRoom :=
                        usersInRoom (joinedRoom (username u) rid tj room) |});
                (ToRoomExcept rid sid,
                 Chat_message (joinEntry (username u) rid tj));
                (ToRoom rid,
                 Update_user_list rid
                   (usersInRoom (joinedRoom (username u) rid tj room)))])
    /\ mget rid (rooms st') = Some (joinedRoom (username u) rid tj room)
    /\ mget sid (users st')
       = Some {| username := username u; currentRoomId := Some rid |}
    /\ (forall t ev, In (t, Chat_message ev) outLeave ->
                     ev_room ev <> Some rid)
    /\ (forall k, option_map username (mget k (users st'))
                  = option_map username (mget k (users st))).
Proof.
  intros Hu Hn Hr Hg Hcur Hc. unfold joinRoom.
  rewrite Hu, Hn, Hr. simpl negb. cbv iota.
  unfold pinGate in Hg. rewrite Hg.
  apply seq_neq in Hcur. rewrite Hcur.
  assert (Hleave :
    exists st1 out1,
      (if truthy (currentRoomId u)
       then leaveRoom tl sid (show "" (currentRoomId u)) false st
       else Some (st, [])) = Some (st1, out1)
      /\ (forall k, option_map username (mget k (users st1))
                    = option_map username (mget k (users st)))
      /\ mhas sid (userSocketRooms st1) = true
      /\ mget rid (rooms st1) = mget rid (rooms st)
      /\ (forall t ev, In (t, Chat_message ev) out1 ->
                       ev_room ev <> Some rid)).
  { destruct (truthy (currentRoomId u)) eqn:Ht.
    - apply truthy_some in Ht.
      assert (Hne : rid <> show "" (currentRoomId u)).
      { intros E. apply seq_neq in Hcur. apply Hcur. rewrite Ht.
        now rewrite <- E. }
      destruct (leaveRoom_spec tl sid (show "" (currentRoomId u)) false st Hc)
        as (st1 & out1 & H1 & H2 & H3 & H4 & H5).
      exists st1, out1.
      split; [exact H1 |]. split; [exact H2 |]. split; [exact H3 |].
      split; [now apply H4 |].
      intros t ev Hin E. apply H5 in Hin. congruence.
    - exists st, [].
      split; [reflexivity |]. split; [reflexivity |]. split; [exact Hc |].
      split; [reflexivity |]. intros t ev []. }
  destruct Hleave as (st1 & out1 & -> & Hname & Hc1 & Hr1 & Hout).
  destruct (mhas_some _ _ Hc1) as [set ->].
  eexists _, out1. split; [unfold broadcastUserList, getUsersInRoom; simpl |].
  - rewrite !mget_mupd, !String.eqb_refl, !Hr1, !Hr. reflexivity.
  - simpl. split; [now rewrite mget_mupd, String.eqb_refl, Hr1, Hr |].
    pose proof (Hname sid) as Hs. rewrite Hu in Hs. simpl in Hs.
    destruct (mget sid (users st1)) as [u1|] eqn:Hu1; [| discriminate].
    simpl in Hs. injection Hs as Hs.
    split; [rewrite mget_mupd, String.eqb_refl, Hu1; simpl; now rewrite Hs |].
    split; [exact Hout |].
    intros k. rewrite username_mupd. apply Hname.
Qed.

(** [joinRoom] on a live connection always returns, and renames nobody. *)
Lemma joinRoom_total (tl tj : Z) (sid rid : string) (pinArg : option string)
      (st : State) :
  mhas sid (userSocketRooms st) = true ->
  exists st' out,
    joinRoom tl tj sid rid pinArg st = Some (st', out)
    /\ (forall k, option_map username (mget k (users st'))
                  = option_map username (mget k (users st))).
Proof.
  intros Hc.
  destruct (mget sid (users st)) as [u|] eqn:Hu.
  2:{ unfold joinRoom. rewrite Hu. eauto. }
  destruct (truthy (username u)) eqn:Hn.
  2:{ unfold joinRoom. rewrite Hu, Hn. simpl. eauto. }
  destruct (mget rid (rooms st)) as [room|] eqn:Hr.
  2:{ unfold joinRoom. rewrite Hu, Hn, Hr. simpl. eauto. }
  destruct (pinGate room pinArg rid) eqn:Hg.
  { unfold joinRoom. rewrite Hu, Hn, Hr. simpl negb. cbv iota.
    unfold pinGate in Hg. rewrite Hg. eauto. }
  destruct (seq (currentRoomId u) (Some rid)) eqn:Hcur.
  { unfold joinRoom. rewrite Hu, Hn, Hr. simpl negb. cbv iota.
    unfold pinGate in Hg. rewrite Hg, Hcur. eauto. }
  apply seq_neq in Hcur.
  destruct (joinRoom_success tl tj sid rid pinArg st u room
              Hu Hn Hr Hg Hcur Hc) as (st' & out & H1 & _ & _ & _ & H5).
  eauto.
Qed.

Lemma taken_heldInRoom (st : State) (n : string) :
  existsb (fun user => seq (username user) (Some n)
                       && notNull (currentRoomId user))
          (mvalues (users st)) = true
  <-> heldInRoom st n.
Proof.
  rewrite existsb_exists. unfold heldInRoom.
  split; intros (u & Hin & H); exists u; (split; [exact Hin |]).
  - apply andb_true_iff in H. destruct H as [H1 H2].
    apply seq_eq in H1. split; [exact H1 |].
    destruct (currentRoomId u); [discriminate | discriminate].
  - destruct H as [H1 H2]. apply andb_true_iff. split.
    + now apply seq_eq.
    + destruct (currentRoomId u); [reflexivity | congruence].
Qed.


Lemma renameTaken_heldInRoom (st : State) (n : string) (old : option string) :
  old <> Some n ->
  existsb (fun user => seq (username user) (Some n)
                       && notNull (currentRoomId user)
                       && negb (seq (username user) old))
          (mvalues (users st)) = true
  <-> heldInRoom st n.
Proof.
  intros Hold. rewrite <- taken_heldInRoom, !existsb_exists.
  split; intros (u & Hin & H); exists u; (split; [exact Hin |]).
  - apply andb_true_iff in H. tauto.
  - rewrite H. simpl. apply andb_true_iff in H. destruct H as [H _].
    apply seq_eq in H. rewrite H.
    destruct (seq (Some n) old) eqn:E; [| reflexivity].
    apply seq_eq in E. congruence.
Qed.

Lemma pinGate_no_pin (room : Room) (rid : string) :
  pinGate room None rid = truthy (pin room) && negb (rid =? GENERAL_ROOM_ID).
Proof.
  unfold pinGate. destruct (pin room); simpl; [| reflexivity].
  now rewrite andb_true_r.
Qed.

(** [leaveRoom] never deletes 'general'. *)
Lemma leaveRoom_keeps_general (now : Z) (sid rid : string) (d : bool)
      (st st' : State) (out : list Notification) :
  leaveRoom now sid rid d st = Some (st', out) ->
  mhas GENERAL_ROOM_ID (rooms st) = true ->
  mhas GENERAL_ROOM_ID (rooms st') = true.
Proof.
  unfold leaveRoom.
  destruct (mget sid (users st)); [| now intros [= <- <-]].
  destruct (mget rid (rooms st)); [| now intros [= <- <-]].
  destruct (mget sid (userSocketRooms st)); [| discriminate].
  destruct (Nat.eqb _ 0) eqn:Hz; simpl.
  - destruct (String.eqb_spec rid GENERAL_ROOM_ID) as [->|Hne]; simpl;
      destruct d; intros [= <- <-]; simpl; intros Hg;
      try rewrite mhas_mdel_other by congruence;
      now rewrite mhas_mupd.
  - destruct d; intros [= <- <-]; simpl; intros Hg; now rewrite mhas_mupd.
Qed.

(** [joinRoom] never deletes 'general'. *)
Lemma joinRoom_keeps_general (tl tj : Z) (sid rid : string)
      (pinArg : option string) (st st' : State) (out : list Notification) :
  joinRoom tl tj sid rid pinArg st = Some (st', out) ->
  mhas GENERAL_ROOM_ID (rooms st) = true ->
  mhas GENERAL_ROOM_ID (rooms st') = true.
Proof.
  unfold joinRoom.
  destruct (mget sid (users st)) as [u|]; [| now intros [= <- <-]].
  destruct (negb (truthy (username u))); [now intros [= <- <-] |].
  destruct (mget rid (rooms st)) as [room|]; [| now intros [= <- <-]].
  destruct (_ && _ && _); [now intros [= <- <-] |].
  destruct (seq _ _); [now intros [= <- <-] |].
  destruct (truthy (currentRoomId u)).
  - destruct (leaveRoom tl sid _ false st) as [[st1 out1]|] eqn:Hl;
      [| discriminate].
    destruct (mget sid (userSocketRooms st1)); [| discriminate].
    intros [= <- <-] Hg. simpl. rewrite mhas_mupd.
    eapply leaveRoom_keeps_general; eauto.
  - destruct (mget sid (userSocketRooms st)); [| discriminate].
    intros [= <- <-] Hg. simpl. now rewrite mhas_mupd.
Qed.

(** No handler of [src/server.js] deletes 'general'. *)
Lemma server_keeps_general (clk : Clock) (e : Event) (st st' : State)
      (out : list Notification) :
  mhas GENERAL_ROOM_ID (rooms st) = true ->
  handle clk e st = Some (st', out) ->
  mhas GENERAL_ROOM_ID (rooms st') = true.
Proof.
  intros Hg. destruct e; simpl.
  - unfold connection. same_state.
  - unfold setInitialUsername. cbv zeta.
    step_if; [same_state |]. step_if; [same_state |].
    step_get; [| same_state]. step_opt; [| same_state].
    intros [= <- <-]. eapply joinRoom_keeps_general; eauto.
  - unfold changeUsername. cbv zeta.
    step_if; [same_state |]. step_if; [same_state |].
    step_if; [same_state |]. step_get; [| same_state].
    step_if; [| same_state]. step_get; same_state.
    simpl. now rewrite mhas_mupd.
  - unfold createRoom. cbv zeta.
    step_if; [same_state |]. step_if; [same_state |].
    step_opt; [| same_state].
    intros [= <- <-]. eapply joinRoom_keeps_general; eauto.
    simpl. rewrite mhas_mset, Hg. apply orb_true_r.
  - unfold joinRoomByPin. cbv zeta.
    step_if; [same_state |]. step_if; [| same_state].
    intros Hj. eapply joinRoom_keeps_general; eauto.
  - unfold switchRoom. intros Hj. eapply joinRoom_keeps_general; eauto.
  - unfold leaveCurrentRoom.
    step_get; [| same_state]. step_if.
    + step_opt; [| same_state]. step_opt; [| same_state].
      intros [= <- <-]. eapply joinRoom_keeps_general; eauto.
      eapply leaveRoom_keeps_general; eauto.
    + step_if; same_state.
  - unfold chatMessage, post. cbv zeta.
    step_if; [| same_state]. step_get; same_state.
    simpl. now rewrite mhas_mupd.
  - unfold chatAction, post. cbv zeta.
    step_if; [| same_state]. step_get; same_state.
    simpl. now rewrite mhas_mupd.
  - unfold typing, typingSignal.
    step_get; [| same_state]. step_if; same_state.
  - unfold stopTyping, typingSignal.
    step_get; [| same_state]. step_if; same_state.
  - unfold disconnect. cbv zeta. simpl users.
    destruct (mget sid (users st)) as [u|].
    + destruct (truthy (currentRoomId u)).
      * step_opt; [| same_state].
        intros [= <- <-]. simpl. eapply leaveRoom_keeps_general; eauto.
      * same_state.
    + same_state.
Qed.

(** ** The transport's room table in [src/server.js] *)

Lemma ajoined_ajoin (a : Adapter) (i c sid r : string) :
  ajoined (ajoin sid r a) i c = ajoined a i c || ((sid =? i) && (r =? c)).
Proof.
  unfold ajoin. destruct (ajoined a sid r) eqn:E.
  - destruct (String.eqb_spec sid i) as [->|]; [| now rewrite orb_false_r].
    destruct (String.eqb_spec r c) as [->|]; [| now rewrite orb_false_r].
    now rewrite E.
  - unfold ajoined. rewrite existsb_app. simpl. now rewrite orb_false_r.
Qed.

Lemma ajoined_aleave_other (a : Adapter) (i c sid r : string) :
  i <> sid -> ajoined (aleave sid r a) i c = ajoined a i c.
Proof.
  intros Hne. unfold ajoined, aleave.
  induction a as [|[s0 r0] a IH]; simpl; [reflexivity |].
  destruct (String.eqb_spec s0 sid) as [->|]; simpl.
  - destruct (r0 =? r); simpl; rewrite IH;
      destruct (String.eqb_spec sid i); solve [congruence | reflexivity].
  - now rewrite IH.
Qed.

Lemma ajoined_aleaveAll_other (a : Adapter) (i c sid : string) :
  i <> sid -> ajoined (aleaveAll sid a) i c = ajoined a i c.
Proof.
  intros Hne. unfold ajoined, aleaveAll.
  induction a as [|[s0 r0] a IH]; simpl; [reflexivity |].
  destruct (String.eqb_spec s0 sid) as [->|]; simpl.
  - rewrite IH. destruct (String.eqb_spec sid i);
      solve [congruence | reflexivity].
  - now rewrite IH.
Qed.

Lemma amembers_ajoined (a : Adapter) (i c : string) :
  ajoined a i c = true -> In i (amembers a c).
Proof.
  unfold ajoined, amembers. rewrite existsb_exists.
  intros ([s0 r0] & Hin & H). simpl in H. apply andb_true_iff in H.
  destruct H as [H1 H2]. apply String.eqb_eq in H1, H2. subst.
  change i with (fst (i, c)). apply in_map. apply filter_In.
  split; [exact Hin | simpl; apply String.eqb_refl].
Qed.

(** [leaveRoom] keeps the table right for everybody but the leaver, and,
    when it is not part of a disconnect, for the leaver as well. *)
Lemma leaveRoom_adapter (now : Z) (sid rid : string) (d : bool)
      (st st' : State) (out : list Notification) :
  leaveRoom now sid rid d st = Some (st', out) ->
  (forall u, mget sid (users st) = Some u -> currentRoomId u = Some rid) ->
  adapterOkBut sid st ->
  adapterOkBut sid st'
  /\ (d = false -> adapterOk st -> adapterOk st').
Proof.
  unfold leaveRoom. intros Hrun Hcur Hok.
  destruct (mget sid (users st)) as [u|] eqn:Hu.
  2:{ injection Hrun as <- <-. auto. }
  destruct (mget rid (rooms st)) as [room|] eqn:Hr.
  2:{ injection Hrun as <- <-. auto. }
  destruct (mget sid (userSocketRooms st)); [| discriminate].
  assert (Hbut : forall us rs usr,
             (forall i, i <> sid -> mget i us = mget i (users st)) ->
             adapterOkBut sid {| users := us; rooms := rs;
                                 userSocketRooms := usr;
                                 sio := aleave sid rid (sio st) |}).
  { intros us rs usr Hus i v c Hi. simpl. rewrite (Hus i Hi).
    intros H1 H2. rewrite ajoined_aleave_other by exact Hi.
    eapply Hok; eauto. }
  assert (Hclr : forall i, i <> sid ->
             mget i (mupd sid (fun u0 => {| username := username u0;
                                            currentRoomId := None |})
                          (users st)) = mget i (users st)).
  { intros i Hi. rewrite mget_mupd.
    destruct (String.eqb_spec i sid); [contradiction | reflexivity]. }
  destruct (Nat.eqb _ 0 && _); destruct d; injection Hrun as <- <-;
    (split; [apply Hbut; auto |]); intros Hd Hall; try discriminate;
    intros i v c; simpl; intros H1 H2;
    (destruct (String.eqb_spec i sid) as [->|Hi];
     [ rewrite mget_mupd, String.eqb_refl, Hu in H1; simpl in H1;
       injection H1 as <-; discriminate
     | rewrite Hclr in H1 by exact Hi;
       rewrite ajoined_aleave_other by exact Hi; eapply Hall; eauto ]).
Qed.

Lemma adapterOk_but (sid : string) (st : State) :
  adapterOk st -> adapterOkBut sid st.
Proof. intros H i u c _. apply H. Qed.

(** [joinRoom] keeps the table right. *)
Lemma joinRoom_adapter (tl tj : Z) (sid rid : string) (pinArg : option string)
      (st st' : State) (out : list Notification) :
  joinRoom tl tj sid rid pinArg st = Some (st', out) ->
  adapterOk st -> adapterOk st'.
Proof.
  unfold joinRoom. intros Hrun Hok.
  destruct (mget sid (users st)) as [u|] eqn:Hu;
    [| now injection Hrun as <- <-].
  destruct (negb (truthy (username u))); [now injection Hrun as <- <- |].
  destruct (mget rid (rooms st)) as [room|]; [| now injection Hrun as <- <-].
  destruct (_ && _ && _); [now injection Hrun as <- <- |].
  destruct (seq _ _); [now injection Hrun as <- <- |].
  assert (Hmid : exists st1 out1,
             (if truthy (currentRoomId u)
              then leaveRoom tl sid (show "" (currentRoomId u)) false st
              else Some (st, [])) = Some (st1, out1)
             /\ adapterOk st1).
  { destruct (truthy (currentRoomId u)) eqn:Ht.
    - destruct (leaveRoom tl sid _ false st) as [[st1 out1]|] eqn:Hl;
        [| discriminate].
      exists st1, out1. split; [reflexivity |].
      apply truthy_some in Ht.
      eapply (leaveRoom_adapter _ _ _ _ _ _ _ Hl); auto.
      + intros u' Hu'. congruence.
      + now apply adapterOk_but.
    - exists st, []. auto. }
  destruct Hmid as (st1 & out1 & Heq & Hok1). rewrite Heq in Hrun.
  destruct (mget sid (userSocketRooms st1)); [| discriminate].
  injection Hrun as <- <-. intros i v c. simpl.
  rewrite mget_mupd, ajoined_ajoin.
  destruct (String.eqb_spec i sid) as [->|Hi].
  - destruct (mget sid (users st1)); [| discriminate].
    simpl. intros [= <-]. simpl. intros [= <-].
    now rewrite !String.eqb_refl, orb_true_r.
  - intros H1 H2. now rewrite (Hok1 i v c H1 H2).
Qed.

Lemma adapterOk_handle (clk : Clock) (e : Event) (st st' : State)
      (out : list Notification) :
  adapterOk st -> handle clk e st = Some (st', out) -> adapterOk st'.
Proof.
  intros Hok. destruct e; simpl.
  - unfold connection. intros [= <- <-] i u c. simpl. rewrite mget_mset.
    destruct (i =? sid); [intros [= <-]; discriminate | apply Hok].
  - unfold setInitialUsername. cbv zeta.
    step_if; [same_state |]. step_if; [same_state |].
    destruct (mget sid (users st)) as [user|] eqn:Hu; [| discriminate].
    step_opt; [| same_state]. intros [= <- <-].
    eapply joinRoom_adapter; [eassumption |].
    intros i u c. simpl. rewrite mget_mset.
    destruct (String.eqb_spec i sid) as [->|]; [| apply Hok].
    intros [= <-]. simpl. now apply Hok.
  - unfold changeUsername. cbv zeta.
    step_if; [same_state |]. step_if; [same_state |].
    step_if; [same_state |].
    destruct (mget sid (users st)) as [user|] eqn:Hu; [| same_state].
    assert (Hset : forall i u c,
               mget i (mset sid {| username := Some (trim newUsername);
                                   currentRoomId := currentRoomId user |}
                            (users st)) = Some u ->
               currentRoomId u = Some c ->
               ajoined (sio st) i c = true).
    { intros i u c. rewrite mget_mset.
      destruct (String.eqb_spec i sid) as [->|]; [| apply Hok].
      intros [= <-]. simpl. now apply Hok. }
    step_if; [| intros [= <- <-]; exact Hset].
    step_get; intros [= <- <-]; exact Hset.
  - unfold createRoom. cbv zeta.
    step_if; [same_state |]. step_if; [same_state |].
    step_opt; [| same_state]. intros [= <- <-].
    eapply joinRoom_adapter; [eassumption | exact Hok].
  - unfold joinRoomByPin. cbv zeta.
    step_if; [same_state |]. step_if; [| same_state].
    intros Hj. eapply joinRoom_adapter; eauto.
  - unfold switchRoom. intros Hj. eapply joinRoom_adapter; eauto.
  - unfold leaveCurrentRoom.
    destruct (mget sid (users st)) as [u|] eqn:Hu; [| same_state].
    step_if.
    + step_opt; [| same_state]. step_opt; [| same_state].
      intros [= <- <-]. eapply joinRoom_adapter; [eassumption |].
      match goal with
      | H : truthy _ && _ = true |- _ =>
          apply andb_true_iff in H; destruct H as [Ht _];
          apply truthy_some in Ht
      end.
      eapply (leaveRoom_adapter _ _ _ _ _ _ _ Hrun); auto.
      * intros u' Hu'. congruence.
      * now apply adapterOk_but.
    + step_if; same_state.
  - unfold chatMessage, post. cbv zeta.
    step_if; [| same_state]. step_get; same_state.
  - unfold chatAction, post. cbv zeta.
    step_if; [| same_state]. step_get; same_state.
  - unfold typing, typingSignal.
    step_get; [| same_state]. step_if; same_state.
  - unfold stopTyping, typingSignal.
    step_get; [| same_state]. step_if; same_state.
  - unfold disconnect. cbv zeta. simpl users.
    assert (H0 : adapterOkBut sid
                   {| users := users st; rooms := rooms st;
                      userSocketRooms := userSocketRooms st;
                      sio := aleaveAll sid (sio st) |}).
    { intros i u c Hi. simpl. rewrite ajoined_aleaveAll_other by exact Hi.
      apply Hok. }
    assert (Hfin : forall st1, adapterOkBut sid st1 ->
               adapterOk {| users := mdel sid (users st1);
                            rooms := rooms st1;
                            userSocketRooms := mdel sid (userSocketRooms st1);
                            sio := sio st1 |}).
    { intros st1 H1 i u c. simpl.
      destruct (String.eqb_spec i sid) as [->|Hi].
      - rewrite mget_mdel_same. discriminate.
      - rewrite mget_mdel_other by exact Hi. now apply H1. }
    destruct (mget sid (users st)) as [u|] eqn:Hu.
    + destruct (truthy (currentRoomId u)) eqn:Ht.
      * step_opt; [| same_state]. intros [= <- <-]. apply Hfin.
        apply truthy_some in Ht.
        eapply (leaveRoom_adapter _ _ _ _ _ _ _ Hrun); auto.
        intros u' Hu'. simpl in Hu'. congruence.
      * intros [= <- <-]. exact (Hfin _ H0).
    + intros [= <- <-]. exact (Hfin _ H0).
Qed.

Lemma serverReachable_adapter (st : State) : serverReachable st -> adapterOk st.
Proof.
  induction 1 as [|st st' clk e out _ IH Hh].
  - intros i u c. discriminate.
  - eapply adapterOk_handle; eauto.
Qed.

Lemma server_run_reachable (es : list (Clock * Event)) :
  forall st st', serverReachable st -> run es st = Some st' ->
                 serverReachable st'.
Proof.
  induction es as [|[clk e] es IH]; simpl; intros st st' Hr.
  - now intros [= <-].
  - destruct (handle clk e st) as [[st1 out]|] eqn:Hh; [| discriminate].
    apply IH. eapply server_handle; eauto.
Qed.

End ServerFacts.

(** * Facts about [src/unnamed/part_000] *)

Module LobbyFacts.
Import Lobby.

Lemma usernamesOf_live (socks : Map Sock) (ids : list string) :
  forallb (fun i => mhas i socks) ids = true ->
  exists names, usernamesOf socks ids = Some names.
Proof.
  induction ids as [|i ids IH]; simpl.
  - eauto.
  - rewrite andb_true_iff. intros [Hi Hr].
    destruct (IH Hr) as [names ->].
    unfold mhas in Hi. destruct (mget i socks); [eauto | discriminate].
Qed.

Lemma membersLive_room (st : State) (k : string) (r : Room) :
  membersLive st = true -> mget k (rooms st) = Some r ->
  forallb (fun i => mhas i (sockets st)) (room_users r) = true.
Proof.
  unfold membersLive. rewrite forallb_forall. intros H Hk.
  apply (H (k, r)). now apply mget_In.
Qed.

(** The leave block never throws on a state whose members are live; it
    touches only the current room, and only its member set. *)
Lemma leaveOld_spec (now : Z) (sid : string) (sock : Sock) (st : State) :
  membersLive st = true ->
  exists st1 out1,
    leaveOld now sid sock st = Some (st1, out1)
    /\ users st1 = users st
    /\ sockets st1 = sockets st
    /\ mkeys (rooms st1) = mkeys (rooms st)
    /\ (forall k, currentRoomId sock <> Some k ->
                  mget k (rooms st1) = mget k (rooms st))
    /\ (forall t pl, In (t, pl) out1 ->
                     exists c, currentRoomId sock = Some c /\ t = ToRoom c)
    /\ (forall t ev, In (t, Chat_message ev) out1 -> ev_type ev = None).
Proof.
  intros Hlive. unfold leaveOld.
  destruct (truthy (currentRoomId sock)) eqn:Ht; simpl.
  2:{ exists st, []. repeat split; auto; intros t pl []. }
  apply truthy_some in Ht. set (cur := show "" (currentRoomId sock)) in *.
  destruct (mhas cur (rooms st)) eqn:Hh.
  2:{ exists st, []. repeat split; auto; intros t pl []. }
  unfold mhas in Hh. destruct (mget cur (rooms st)) as [r|] eqn:Hr;
    [clear Hh | discriminate].
  rewrite mget_mupd, String.eqb_refl, Hr. simpl.
  pose proof (membersLive_room st cur r Hlive Hr) as Hroom.
  destruct (usernamesOf_live (sockets st) (sdel sid (room_users r))
              (forallb_sdel _ sid _ Hroom)) as [names ->].
  eexists _, _. split; [reflexivity |]. simpl.
  repeat split; auto.
  - apply mkeys_mupd.
  - intros k Hk. rewrite mget_mupd.
    destruct (String.eqb_spec k cur) as [->|]; [congruence | reflexivity].
  - intros t pl [E|[E|[]]]; inversion E; subst; exists cur; auto.
  - intros t ev [E|[E|[]]]; inversion E; subst; reflexivity.
Qed.


Lemma renameTaken_heldByOther (st : State) (sid n : string) :
  existsb (fun u => (ue_username u =? n) && negb (ue_id u =? sid))
          (users st) = true
  <-> heldByOther st sid n.
Proof.
  rewrite existsb_exists. unfold heldByOther.
  split; intros (u & Hin & H); exists u; (split; [exact Hin |]).
  - apply andb_true_iff in H. destruct H as [H1 H2].
    apply String.eqb_eq in H1. apply negb_true_iff, String.eqb_neq in H2. auto.
  - destruct H as [H1 H2]. apply andb_true_iff.
    split; [now apply String.eqb_eq | now apply negb_true_iff, String.eqb_neq].
Qed.

(** The loop of 'change username' does not throw when the members of the
    rooms are live sockets. *)
Lemma renameInRooms_live (clk : Clock) (sid text : string) (socks : Map Sock)
      (rs : Map Room) :
  forallb (fun e => forallb (fun i => mhas i socks) (room_users (snd e))) rs
  = true ->
  forall i, exists rs' out, renameInRooms clk i sid text socks rs
                            = Some (rs', out).
Proof.
  induction rs as [|[k r] rs IH]; simpl; intros H i.
  - eauto.
  - apply andb_true_iff in H. destruct H as [Hr Hrs].
    destruct (IH Hrs (S i)) as (rs' & out & ->).
    destruct (shas sid (room_users r)); [| eauto].
    destruct (usernamesOf_live socks (room_users r) Hr) as [names ->].
    eauto.
Qed.

(** 'create room' by a named session, with a non-empty name and PIN, and a
    PIN that is not yet a key: it registers the room under the trimmed
    PIN, after the rooms that were there. *)
Lemma createRoom_registers (clk : Clock) (sid nm p : string) (sock : Sock)
      (st : State) :
  mget sid (sockets st) = Some sock ->
  truthy (username sock) = true ->
  membersLive st = true ->
  trim nm <> "" -> trim p <> "" ->
  mhas (trim p) (rooms st) = false ->
  exists st' out ev,
    createRoom clk sid nm (Some p) st = Some (st', out)
    /\ mkeys (rooms st') = mkeys (rooms st) ++ [trim p]
    /\ mget (trim p) (rooms st')
       = Some {| id := trim p; name := trim nm; pin := Some (trim p);
                 history := [ev]; room_users := [sid] |}
    /\ In {| id := trim p; name := trim nm; pin := Some (trim p);
             history := [ev]; room_users := [sid] |}
          (mvalues (rooms st')).
Proof.
  intros Hs Hn Hlive Hnm Hp Hnew.
  destruct (leaveOld_spec (clk 0%nat) sid sock st Hlive)
    as (st1 & out1 & Hleave & Hu & Hso & Hk & _ & _ & _).
  assert (Hnew1 : mhas (trim p) (rooms st1) = false).
  { apply mhas_mkeys. rewrite Hk. now apply mhas_mkeys. }
  pose proof (trim_nonempty p Hp) as Hpe. simpl in Hpe.
  apply String.eqb_neq in Hnm, Hp.
  unfold createRoom. rewrite Hs, Hn. simpl.
  rewrite Hpe. simpl. rewrite Hnm, Hp. simpl.
  rewrite Hnew, Hleave. simpl.
  rewrite mget_mupd, String.eqb_refl, Hso, Hs. simpl.
  eexists _, _, _. split; [reflexivity |]. simpl.
  split; [rewrite mkeys_mset_new, Hk; auto |].
  split; [rewrite mget_mset, String.eqb_refl; reflexivity |].
  apply In_mset_value.
Qed.

(** The leave block followed by the join, as 'join room by pin' and
    'switch room' run it once their tests have passed. *)
Lemma enterRoom_spec (tl tj : Z) (sid : string) (sock : Sock) (key : string)
      (room : Room) (st : State) :
  mget sid (sockets st) = Some sock ->
  mget key (rooms st) = Some room ->
  currentRoomId sock <> Some key ->
  membersLive st = true ->
  exists st' outLeave names,
    enterRoom tl tj sid sock key room st
    = Some (st',
            outLeave
            ++ [(ToSocket sid,
                 Room_joined_success
                   {| j_roomName := name room; j_roomId := id room;
                      j_history := history room
                                   ++ [joinEntryL (username sock) tj];
                      j_usersInRoom := names |});
                (ToRoom key, Update_user_list names)])
    /\ mget key (rooms st') = Some (joinedRoomL (username sock) sid tj room)
    /\ mget sid (sockets st')
       = Some {| username := username sock; currentRoomId := Some key |}
    /\ (forall t ev, In (t, Chat_message ev) outLeave -> ev_type ev = None).
Proof.
  intros Hs Hr Hcur Hlive. unfold enterRoom.
  destruct (leaveOld_spec tl sid sock st Hlive)
    as (st1 & out1 & -> & Hu & Hso & Hk & Hother & _ & Hty).
  pose proof (membersLive_room st key room Hlive Hr) as Hroom.
  set (socks2 := mupd sid (fun _ => {| username := username sock;
                                       currentRoomId := Some key |})
                      (sockets st1)).
  assert (Hl2 : forallb (fun i => mhas i socks2)
                        (sadd sid (room_users room)) = true).
  { apply forallb_sadd.
    - unfold socks2. rewrite mhas_mupd, Hso. unfold mhas. now rewrite Hs.
    - rewrite forallb_forall in *. intros i Hi.
      unfold socks2. rewrite mhas_mupd, Hso. now apply Hroom. }
  destruct (usernamesOf_live _ _ Hl2) as [names Hnames].
  simpl. fold socks2. rewrite Hnames.
  eexists _, out1, names. split; [reflexivity |]. simpl.
  split; [rewrite mget_mupd, String.eqb_refl, (Hother key Hcur), Hr;
          reflexivity |].
  split; [fold socks2; unfold socks2;
          now rewrite mget_mupd, String.eqb_refl, Hso, Hs |].
  exact Hty.
Qed.

Lemma renameInRooms_keys (clk : Clock) (sid text : string) (socks : Map Sock)
      (rs : Map Room) :
  forall i rs' out,
    renameInRooms clk i sid text socks rs = Some (rs', out) ->
    mkeys rs' = mkeys rs.
Proof.
  induction rs as [|[k r] rs IH]; simpl; intros i rs' out.
  - now intros [= <- <-].
  - destruct (shas sid (room_users r)).
    + destruct (usernamesOf socks (room_users r)); [| discriminate].
      destruct (renameInRooms clk (S i) sid text socks rs) as [[rs2 o2]|] eqn:E;
        [| discriminate].
      intros [= <- <-]. simpl. f_equal. eapply IH; eauto.
    + destruct (renameInRooms clk (S i) sid text socks rs) as [[rs2 o2]|] eqn:E;
        [| discriminate].
      intros [= <- <-]. simpl. f_equal. eapply IH; eauto.
Qed.

Lemma leaveOld_keys (now : Z) (sid : string) (sock : Sock) (st st' : State)
      (out : list Notification) :
  leaveOld now sid sock st = Some (st', out) ->
  mkeys (rooms st') = mkeys (rooms st).
Proof.
  unfold leaveOld. cbv zeta. step_if; [| now intros [= <- <-]].
  step_get; [| same_state]. step_get; [| same_state].
  intros [= <- <-]. simpl. apply mkeys_mupd.
Qed.

(** No handler of [src/unnamed/part_000] deletes 'general'. *)
Lemma lobby_keeps_general (clk : Clock) (e : Event) (st st' : State)
      (out : list Notification) :
  mhas "general" (rooms st) = true ->
  handle clk e st = Some (st', out) ->
  mhas "general" (rooms st') = true.
Proof.
  intros Hg. destruct e; simpl.
  - unfold connection. same_state.
  - unfold setInitialUsername. cbv zeta.
    step_get; [| same_state]. step_if; same_state.
  - unfold changeUsername. cbv zeta.
    step_get; [| same_state]. step_if; [same_state |].
    step_if; [same_state |]. step_if; [| same_state].
    step_opt; [| same_state]. intros [= <- <-]. simpl.
    erewrite mhas_of_mkeys; [exact Hg |]. eapply renameInRooms_keys; eauto.
  - unfold createRoom. cbv zeta.
    step_get; [| same_state]. step_if; [same_state |].
    step_if; [same_state |]. step_if; [same_state |].
    step_opt; [| same_state]. step_get; [| same_state].
    intros [= <- <-]. simpl. rewrite mhas_mset.
    erewrite mhas_of_mkeys; [rewrite Hg; apply orb_true_r |].
    eapply leaveOld_keys; eauto.
  - unfold joinRoomByPin, enterRoom. cbv zeta.
    step_get; [| same_state]. step_if; [same_state |].
    step_if; [same_state |]. step_get; [| same_state].
    step_if; [same_state |]. step_opt; [| same_state].
    step_get; [| same_state]. intros [= <- <-]. simpl. rewrite mhas_mupd.
    erewrite mhas_of_mkeys; [exact Hg |]. eapply leaveOld_keys; eauto.
  - unfold switchRoom, enterRoom. cbv zeta.
    step_get; [| same_state]. step_if; [same_state |].
    step_get; [| same_state].
    step_if; [same_state |]. step_opt; [| same_state].
    step_get; [| same_state]. intros [= <- <-]. simpl. rewrite mhas_mupd.
    erewrite mhas_of_mkeys; [exact Hg |]. eapply leaveOld_keys; eauto.
  - unfold leaveCurrentRoom.
    step_get; [| same_state]. step_if; [| same_state].
    step_opt; [| same_state]. intros [= <- <-]. simpl.
    erewrite mhas_of_mkeys; [exact Hg |]. eapply leaveOld_keys; eauto.
  - unfold chatMessage, post. cbv zeta.
    step_get; [| same_state]. step_if; same_state.
    simpl. now rewrite mhas_mupd.
  - unfold chatAction, post. cbv zeta.
    step_get; [| same_state]. step_if; same_state.
    simpl. now rewrite mhas_mupd.
  - unfold typing, typingSignal.
    step_get; [| same_state]. step_if; same_state.
  - unfold stopTyping, typingSignal.
    step_get; [| same_state]. step_if; same_state.
  - unfold disconnect. cbv zeta.
    step_get; [| same_state]. simpl rooms. step_if; [| same_state].
    step_get; [| same_state]. step_get; [| same_state].
    step_if; intros [= <- <-]; simpl.
    + match goal with
      | H : _ && negb (id ?r =? "general") = true |- _ =>
          apply andb_true_iff in H; destruct H as [_ H];
          apply negb_true_iff, String.eqb_neq in H
      end.
      rewrite mhas_mdel_other by congruence. now rewrite mhas_mupd.
    + now rewrite mhas_mupd.
Qed.

(** ** The membership invariant of [src/unnamed/part_000] *)

Lemma lobbyInv_initial : lobbyInv initial.
Proof.
  split; [| split].
  - intros k r i. simpl. destruct (k =? "general"); [| discriminate].
    intros [= <-]. simpl. split; [tauto | intros (s & H & _); discriminate].
  - intros i s k. discriminate.
  - intros k r. simpl. destruct (String.eqb_spec k "general");
      [| discriminate].
    intros [= <-]. subst. split; [discriminate | reflexivity].
Qed.

(** A handler that changes neither the members or ids of the rooms nor
    the current room of any socket keeps the invariant. *)
Lemma lobbyInv_frame (st st' : State) :
  (forall k, option_map (fun r => (id r, room_users r)) (mget k (rooms st'))
             = option_map (fun r => (id r, room_users r)) (mget k (rooms st))) ->
  (forall i, option_map currentRoomId (mget i (sockets st'))
             = option_map currentRoomId (mget i (sockets st))) ->
  lobbyInv st -> lobbyInv st'.
Proof.
  intros Hr Hs (Hm & Hc & Hk).
  assert (Hr' : forall k r', mget k (rooms st') = Some r' ->
                  exists r, mget k (rooms st) = Some r
                            /\ id r' = id r /\ room_users r' = room_users r).
  { intros k r' E. specialize (Hr k). rewrite E in Hr. simpl in Hr.
    destruct (mget k (rooms st)) as [r|]; [| discriminate].
    injection Hr as E1 E2. eauto. }
  assert (Hs1 : forall i s k, mget i (sockets st) = Some s ->
                  currentRoomId s = Some k ->
                  exists s', mget i (sockets st') = Some s'
                             /\ currentRoomId s' = Some k).
  { intros i s k E Ek. specialize (Hs i). rewrite E in Hs. simpl in Hs.
    destruct (mget i (sockets st')) as [s'|]; [| discriminate].
    injection Hs as Hs. exists s'. split; congruence. }
  assert (Hs2 : forall i s' k, mget i (sockets st') = Some s' ->
                  currentRoomId s' = Some k ->
                  exists s, mget i (sockets st) = Some s
                            /\ currentRoomId s = Some k).
  { intros i s' k E Ek. specialize (Hs i). rewrite E in Hs. simpl in Hs.
    destruct (mget i (sockets st)) as [s|]; [| discriminate].
    injection Hs as Hs. exists s. split; congruence. }
  split; [| split].
  - intros k r' i E. destruct (Hr' k r' E) as (r & Er & _ & Eu).
    rewrite Eu, (Hm k r i Er). split.
    + intros (s & H1 & H2). eauto.
    + intros (s' & H1 & H2). eauto.
  - intros i s' k E Ek. destruct (Hs2 i s' k E Ek) as (s & H1 & H2).
    pose proof (Hc i s k H1 H2) as Hh. unfold mhas in *.
    specialize (Hr k). destruct (mget k (rooms st)); [| discriminate].
    destruct (mget k (rooms st')); [reflexivity | discriminate].
  - intros k r' E. destruct (Hr' k r' E) as (r & Er & Ei & _).
    rewrite Ei. exact (Hk k r Er).
Qed.

Lemma leaveOld_rooms (now : Z) (sid : string) (sock : Sock) (st st1 : State)
      (out1 : list Notification) :
  leaveOld now sid sock st = Some (st1, out1) ->
  rooms st1 = leftRooms sid sock (rooms st) /\ sockets st1 = sockets st.
Proof.
  unfold leaveOld, leftRooms. cbv zeta. step_if; [| now intros [= <- <-]].
  step_get; [| same_state]. step_get; [| same_state].
  now intros [= <- <-].
Qed.

Lemma lobbyInv_left (sid : string) (sock : Sock) (st st1 : State) :
  lobbyInv st ->
  mget sid (sockets st) = Some sock ->
  rooms st1 = leftRooms sid sock (rooms st) ->
  sockets st1 = sockets st ->
  lobbyInvBut sid st1.
Proof.
  intros (Hm & Hc & Hk) Hs Er Es. unfold leftRooms in Er.
  destruct (truthy (currentRoomId sock) && mhas _ (rooms st)) eqn:Hcond.
  - apply andb_true_iff in Hcond. destruct Hcond as [Ht Hh].
    apply truthy_some in Ht. set (cur := show "" (currentRoomId sock)) in *.
    split; [| split].
    + intros k r1 i. rewrite Er, Es, mget_mupd.
      destruct (String.eqb_spec k cur) as [->|Hne].
      * destruct (mget cur (rooms st)) as [r|] eqn:E; [| discriminate].
        intros [= <-]. simpl. rewrite In_sdel, (Hm cur r i E). tauto.
      * intros E. rewrite (Hm k r1 i E). split; [| tauto].
        intros (s & H1 & H2). split; [| eauto].
        intros ->. rewrite Hs in H1. injection H1 as <-. congruence.
    + intros i s k _. rewrite Er, Es, mhas_mupd. apply Hc.
    + intros k r1. rewrite Er, mget_mupd.
      destruct (k =? cur).
      * destruct (mget k (rooms st)) as [r|] eqn:E; [| discriminate].
        intros [= <-]. simpl. exact (Hk k r E).
      * apply Hk.
  - assert (Hnone : forall k r, mget k (rooms st) = Some r ->
                                currentRoomId sock <> Some k).
    { intros k r E Ek. destruct (Hk k r E) as [Hne _].
      rewrite Ek in Hcond. simpl in Hcond.
      apply String.eqb_neq in Hne. rewrite Hne in Hcond. simpl in Hcond.
      unfold mhas in Hcond. rewrite E in Hcond. discriminate. }
    split; [| split].
    + intros k r i. rewrite Er, Es. intros E. rewrite (Hm k r i E).
      split; [| tauto]. intros (s & H1 & H2). split; [| eauto].
      intros ->. rewrite Hs in H1. injection H1 as <-.
      exact (Hnone k r E H2).
    + intros i s k _. rewrite Er, Es. apply Hc.
    + intros k r. rewrite Er. apply Hk.
Qed.

(** Socket [sid], in no member set, enters the room stored under [key]. *)
Lemma lobbyInv_entered (sid key : string) (room room' : Room) (uname : option string)
      (st1 st2 : State) :
  lobbyInvBut sid st1 ->
  mhas sid (sockets st1) = true ->
  mget key (rooms st1) = Some room ->
  id room' = id room ->
  room_users room' = sadd sid (room_users room) ->
  rooms st2 = mupd key (fun _ => room') (rooms st1) ->
  sockets st2 = mupd sid (fun _ => {| username := uname;
                                      currentRoomId := Some key |})
                     (sockets st1) ->
  lobbyInv st2.
Proof.
  intros (Hm & Hc & Hk) Hlive Hr Hid Hu Er Es.
  unfold mhas in Hlive.
  destruct (mget sid (sockets st1)) as [s0|] eqn:Hs0; [clear Hlive | discriminate].
  split; [| split].
  - intros k r2 i. rewrite Er, Es, !mget_mupd.
    destruct (String.eqb_spec k key) as [->|Hne].
    + rewrite Hr. intros [= <-]. rewrite Hu, In_sadd, (Hm key room i Hr).
      destruct (String.eqb_spec i sid) as [->|Hi].
      * rewrite Hs0. simpl. split; [eauto | tauto].
      * split; [intros [(_ & H)| ->]; [exact H | contradiction] | tauto].
    + intros E. rewrite (Hm k r2 i E).
      destruct (String.eqb_spec i sid) as [->|Hi].
      * rewrite Hs0. simpl. split; [tauto |].
        intros (s & [= <-] & H2). simpl in H2. congruence.
      * tauto.
  - intros i s k. rewrite Er, Es, mhas_mupd, mget_mupd.
    destruct (String.eqb_spec i sid) as [->|Hi].
    + rewrite Hs0. simpl. intros [= <-]. simpl. intros [= <-].
      unfold mhas. now rewrite Hr.
    + now apply Hc.
  - intros k r2. rewrite Er, mget_mupd.
    destruct (String.eqb_spec k key) as [->|Hne].
    + rewrite Hr. intros [= <-]. rewrite Hid. exact (Hk key room Hr).
    + apply Hk.
Qed.

(** Socket [sid], in no member set, creates the room [key]. *)
Lemma lobbyInv_created (sid key : string) (room' : Room) (uname : option string)
      (st1 st2 : State) :
  lobbyInvBut sid st1 ->
  mhas sid (sockets st1) = true ->
  mhas key (rooms st1) = false ->
  key <> "" ->
  id room' = key ->
  room_users room' = [sid] ->
  rooms st2 = mset key room' (rooms st1) ->
  sockets st2 = mupd sid (fun _ => {| username := uname;
                                      currentRoomId := Some key |})
                     (sockets st1) ->
  lobbyInv st2.
Proof.
  intros (Hm & Hc & Hk) Hlive Hnew Hne Hid Hu Er Es.
  unfold mhas in Hlive.
  destruct (mget sid (sockets st1)) as [s0|] eqn:Hs0; [clear Hlive | discriminate].
  split; [| split].
  - intros k r2 i. rewrite Er, Es, mget_mset, mget_mupd.
    destruct (String.eqb_spec k key) as [->|Hnk].
    + intros [= <-]. rewrite Hu. simpl.
      destruct (String.eqb_spec i sid) as [->|Hi].
      * rewrite Hs0. simpl. split; [eauto | tauto].
      * split; [intros [E|[]]; congruence |].
        intros (s & H1 & H2). pose proof (Hc i s key Hi H1 H2). congruence.
    + intros E. rewrite (Hm k r2 i E).
      destruct (String.eqb_spec i sid) as [->|Hi].
      * rewrite Hs0. simpl. split; [tauto |].
        intros (s & [= <-] & H2). simpl in H2. congruence.
      * tauto.
  - intros i s k. rewrite Er, Es, mhas_mset, mget_mupd.
    destruct (String.eqb_spec i sid) as [->|Hi].
    + rewrite Hs0. simpl. intros [= <-]. simpl. intros [= <-].
      now rewrite String.eqb_refl.
    + intros H1 H2. rewrite (Hc i s k Hi H1 H2). apply orb_true_r.
  - intros k r2. rewrite Er, mget_mset.
    destruct (String.eqb_spec k key) as [->|Hnk].
    + intros [= <-]. auto.
    + apply Hk.
Qed.

(** Socket [sid], in no member set, goes to the lobby. *)
Lemma lobbyInv_lobby (sid : string) (uname : option string) (st1 st2 : State) :
  lobbyInvBut sid st1 ->
  rooms st2 = rooms st1 ->
  sockets st2 = mupd sid (fun _ => {| username := uname;
                                      currentRoomId := None |})
                     (sockets st1) ->
  lobbyInv st2.
Proof.
  intros (Hm & Hc & Hk) Er Es.
  split; [| split].
  - intros k r i. rewrite Er, Es, mget_mupd. intros E. rewrite (Hm k r i E).
    destruct (String.eqb_spec i sid) as [->|Hi].
    + split; [tauto |]. intros (s & H1 & H2).
      destruct (mget sid (sockets st1)); [| discriminate].
      injection H1 as <-. discriminate.
    + tauto.
  - intros i s k. rewrite Er, Es, mget_mupd.
    destruct (String.eqb_spec i sid) as [->|Hi].
    + destruct (mget sid (sockets st1)); [| discriminate].
      intros [= <-]. discriminate.
    + now apply Hc.
  - intros k r. rewrite Er. apply Hk.
Qed.

(** Socket [sid], in no member set, is closed. *)
Lemma lobbyInv_closed (sid : string) (st1 st2 : State) :
  lobbyInvBut sid st1 ->
  rooms st2 = rooms st1 ->
  sockets st2 = mdel sid (sockets st1) ->
  lobbyInv st2.
Proof.
  intros (Hm & Hc & Hk) Er Es.
  split; [| split].
  - intros k r i. rewrite Er, Es. intros E. rewrite (Hm k r i E).
    destruct (String.eqb_spec i sid) as [->|Hi].
    + rewrite mget_mdel_same. split; [tauto | intros (s & H & _); discriminate].
    + rewrite mget_mdel_other by exact Hi. tauto.
  - intros i s k. rewrite Er, Es.
    destruct (String.eqb_spec i sid) as [->|Hi].
    + rewrite mget_mdel_same. discriminate.
    + rewrite mget_mdel_other by exact Hi. now apply Hc.
  - intros k r. rewrite Er. apply Hk.
Qed.

(** A room without members is deleted. *)
Lemma lobbyInv_deleted (key : string) (room : Room) (st1 st2 : State) :
  lobbyInv st1 ->
  mget key (rooms st1) = Some room ->
  room_users room = [] ->
  rooms st2 = mdel key (rooms st1) ->
  sockets st2 = sockets st1 ->
  lobbyInv st2.
Proof.
  intros (Hm & Hc & Hk) Hr He Er Es.
  split; [| split].
  - intros k r i. rewrite Er, Es.
    destruct (String.eqb_spec k key) as [->|Hne].
    + rewrite mget_mdel_same. discriminate.
    + rewrite mget_mdel_other by exact Hne. apply Hm.
  - intros i s k. rewrite Er, Es. intros H1 H2.
    destruct (String.eqb_spec k key) as [->|Hne].
    + exfalso. assert (Hin : In i (room_users room))
        by (apply (Hm key room i Hr); eauto).
      rewrite He in Hin. exact Hin.
    + rewrite mhas_mdel_other by exact Hne. eapply Hc; eauto.
  - intros k r. rewrite Er.
    destruct (String.eqb_spec k key) as [->|Hne].
    + rewrite mget_mdel_same. discriminate.
    + rewrite mget_mdel_other by exact Hne. apply Hk.
Qed.

(** A fresh socket connects. *)
Lemma lobbyInv_connected (sid : string) (st st' : State) :
  lobbyInv st ->
  mhas sid (sockets st) = false ->
  rooms st' = rooms st ->
  sockets st' = mset sid {| username := None; currentRoomId := None |}
                     (sockets st) ->
  lobbyInv st'.
Proof.
  intros (Hm & Hc & Hk) Hfresh Er Es. unfold mhas in Hfresh.
  destruct (mget sid (sockets st)) eqn:Hs; [discriminate | clear Hfresh].
  split; [| split].
  - intros k r i. rewrite Er, Es, mget_mset. intros E. rewrite (Hm k r i E).
    destruct (String.eqb_spec i sid) as [->|Hi]; [| tauto].
    rewrite Hs. split; intros (s & H & H'); [discriminate |].
    injection H as <-. discriminate.
  - intros i s k. rewrite Er, Es, mget_mset.
    destruct (String.eqb_spec i sid) as [->|Hi].
    + intros [= <-]. discriminate.
    + apply Hc.
  - intros k r. rewrite Er. apply Hk.
Qed.

Lemma renameInRooms_members (clk : Clock) (sid text : string)
      (socks : Map Sock) (rs : Map Room) :
  forall i rs' out,
    renameInRooms clk i sid text socks rs = Some (rs', out) ->
    forall k, option_map (fun r => (id r, room_users r)) (mget k rs')
              = option_map (fun r => (id r, room_users r)) (mget k rs).
Proof.
  induction rs as [|[k0 r0] rs IH]; simpl; intros i rs' out.
  - now intros [= <- <-].
  - destruct (shas sid (room_users r0)).
    + destruct (usernamesOf socks (room_users r0)); [| discriminate].
      destruct (renameInRooms clk (S i) sid text socks rs) as [[rs2 o2]|] eqn:E;
        [| discriminate].
      intros [= <- <-] k. simpl.
      destruct (k =? k0); [reflexivity | eapply IH; eauto].
    + destruct (renameInRooms clk (S i) sid text socks rs) as [[rs2 o2]|] eqn:E;
        [| discriminate].
      intros [= <- <-] k. simpl.
      destruct (k =? k0); [reflexivity | eapply IH; eauto].
Qed.

Lemma current_mupd (sid : string) (sock : Sock) (uname : option string)
      (socks : Map Sock) :
  mget sid socks = Some sock ->
  forall i,
    option_map currentRoomId
      (mget i (mupd sid (fun _ => {| username := uname;
                                     currentRoomId := currentRoomId sock |})
                    socks))
    = option_map currentRoomId (mget i socks).
Proof.
  intros Hs i. rewrite mget_mupd.
  destruct (String.eqb_spec i sid) as [->|]; [now rewrite Hs | reflexivity].
Qed.

Lemma members_addHistory (cur : string) (ev : ChatEvent) (rs : Map Room) :
  forall k,
    option_map (fun r => (id r, room_users r))
               (mget k (mupd cur (addHistory ev) rs))
    = option_map (fun r => (id r, room_users r)) (mget k rs).
Proof.
  intros k. rewrite mget_mupd.
  destruct (k =? cur); [destruct (mget k rs); reflexivity | reflexivity].
Qed.

Lemma leftRooms_other (sid key : string) (sock : Sock) (rs : Map Room) :
  currentRoomId sock <> Some key ->
  mget key (leftRooms sid sock rs) = mget key rs.
Proof.
  intros Hne. unfold leftRooms.
  destruct (truthy (currentRoomId sock)) eqn:Ht; [| reflexivity].
  destruct (mhas _ rs); [| reflexivity]. simpl.
  rewrite mget_mupd. apply truthy_some in Ht.
  destruct (String.eqb_spec key (show "" (currentRoomId sock))) as [->|];
    [congruence | reflexivity].
Qed.

Lemma leftRooms_mhas (sid k : string) (sock : Sock) (rs : Map Room) :
  mhas k (leftRooms sid sock rs) = mhas k rs.
Proof.
  unfold leftRooms. destruct (_ && _); [apply mhas_mupd | reflexivity].
Qed.

(** Every handler keeps the invariant. *)
Lemma lobbyInv_handle (clk : Clock) (e : Event) (st st' : State)
      (out : list Notification) :
  lobbyInv st ->
  freshConnection e st ->
  handle clk e st = Some (st', out) ->
  lobbyInv st'.
Proof.
  intros Hinv Hfresh. destruct e; simpl in *.
  - unfold connection. intros [= <- <-].
    eapply lobbyInv_connected; eauto.
  - unfold setInitialUsername. cbv zeta.
    step_get; [| same_state]. step_if; [| same_state].
    intros [= <- <-]. eapply lobbyInv_frame; [| | exact Hinv]; simpl.
    + reflexivity.
    + now apply current_mupd.
  - unfold changeUsername. cbv zeta.
    step_get; [| same_state]. step_if; [same_state |].
    step_if; [same_state |]. step_if; [| same_state].
    step_opt; [| same_state]. intros [= <- <-].
    eapply lobbyInv_frame; [| | exact Hinv]; simpl.
    + eapply renameInRooms_members; eauto.
    + now apply current_mupd.
  - unfold createRoom. cbv zeta.
    step_get; [| same_state]. step_if; [same_state |].
    step_if; [same_state |]. step_if; [same_state |].
    step_opt; [| same_state]. step_get; [| same_state].
    intros [= <- <-].
    destruct (leaveOld_rooms _ _ _ _ _ _ Hrun) as [Er Es].
    match goal with
    | H : (_ || negb (truthy ?tp)) = false |- _ =>
        apply orb_false_iff in H; destruct H as [_ Htp];
        apply negb_false_iff in Htp; destruct tp as [key|] eqn:Ekey;
        [| discriminate]
    end.
    simpl show in *. simpl in Htp.
    apply negb_true_iff, String.eqb_neq in Htp.
    eapply lobbyInv_created with (sid := sid) (key := key); cycle 6;
      [ reflexivity
      | reflexivity
      | eapply lobbyInv_left; eauto
      | rewrite Es; unfold mhas;
        match goal with H : mget sid (sockets st) = Some _ |- _ =>
          now rewrite H end
      | rewrite Er, leftRooms_mhas; assumption
      | exact Htp
      | reflexivity
      | reflexivity ].
  - unfold joinRoomByPin, enterRoom. cbv zeta.
    step_get; [| same_state]. step_if; [same_state |].
    step_if; [same_state |]. step_get; [| same_state].
    step_if; [same_state |]. step_opt; [| same_state].
    step_get; [| same_state]. intros [= <- <-].
    destruct (leaveOld_rooms _ _ _ _ _ _ Hrun) as [Er Es].
    match goal with H : seq _ _ = false |- _ => apply seq_neq in H end.
    eapply lobbyInv_entered with (sid := sid); cycle 5;
      [ reflexivity
      | reflexivity
      | eapply lobbyInv_left; eauto
      | rewrite Es; unfold mhas;
        match goal with H : mget sid (sockets st) = Some _ |- _ =>
          now rewrite H end
      | rewrite Er, leftRooms_other by assumption; eassumption
      | reflexivity
      | reflexivity ].
  - unfold switchRoom, enterRoom. cbv zeta.
    step_get; [| same_state]. step_if; [same_state |].
    step_get; [| same_state].
    step_if; [same_state |]. step_opt; [| same_state].
    step_get; [| same_state]. intros [= <- <-].
    destruct (leaveOld_rooms _ _ _ _ _ _ Hrun) as [Er Es].
    match goal with H : seq _ _ = false |- _ => apply seq_neq in H end.
    eapply lobbyInv_entered with (sid := sid); cycle 5;
      [ reflexivity
      | reflexivity
      | eapply lobbyInv_left; eauto
      | rewrite Es; unfold mhas;
        match goal with H : mget sid (sockets st) = Some _ |- _ =>
          now rewrite H end
      | rewrite Er, leftRooms_other by assumption; eassumption
      | reflexivity
      | reflexivity ].
  - unfold leaveCurrentRoom.
    step_get; [| same_state]. step_if; [| same_state].
    step_opt; [| same_state]. intros [= <- <-].
    destruct (leaveOld_rooms _ _ _ _ _ _ Hrun) as [Er Es].
    eapply lobbyInv_lobby with (sid := sid);
      [ eapply lobbyInv_left; eauto | reflexivity | reflexivity ].
  - unfold chatMessage, post. cbv zeta.
    step_get; [| same_state]. step_if; [| same_state].
    intros [= <- <-]. eapply lobbyInv_frame; [| | exact Hinv]; simpl.
    + apply members_addHistory.
    + reflexivity.
  - unfold chatAction, post. cbv zeta.
    step_get; [| same_state]. step_if; [| same_state].
    intros [= <- <-]. eapply lobbyInv_frame; [| | exact Hinv]; simpl.
    + apply members_addHistory.
    + reflexivity.
  - unfold typing, typingSignal.
    step_get; [| same_state]. step_if; same_state.
  - unfold stopTyping, typingSignal.
    step_get; [| same_state]. step_if; same_state.
  - unfold disconnect. cbv zeta.
    destruct (mget sid (sockets st)) as [sock|] eqn:Hs; [| discriminate].
    simpl rooms. simpl sockets. simpl users. simpl sio.
    assert (Hmid : forall us a,
               lobbyInv {| users := us;
                           rooms := leftRooms sid sock (rooms st);
                           sockets := mdel sid (sockets st); sio := a |}).
    { intros us a.
      eapply lobbyInv_closed with (sid := sid)
                                  (st1 := {| users := us;
                                             rooms := leftRooms sid sock (rooms st);
                                             sockets := sockets st; sio := a |});
        [ eapply lobbyInv_left; eauto | reflexivity | reflexivity ]. }
    unfold leftRooms in Hmid.
    destruct (truthy (currentRoomId sock) && mhas _ (rooms st)) eqn:Hcond.
    + step_get; [| same_state]. step_get; [| same_state].
      step_if; intros [= <- <-]; [| apply Hmid].
      match goal with
      | H : mget ?c (mupd _ _ _) = Some ?r |- _ =>
          pose proof (Hmid (removeFirst sid (users st))
                           (aleaveAll sid (sio st))) as Hi;
          destruct Hi as (_ & _ & Hkeys);
          destruct (Hkeys c r H) as [_ Hid]
      end.
      match goal with
      | H : Nat.eqb (length (room_users ?r)) 0 && _ = true |- _ =>
          apply andb_true_iff in H; destruct H as [Hlen _];
          apply Nat.eqb_eq in Hlen;
          assert (He : room_users r = [])
            by (destruct (room_users r); [reflexivity | discriminate])
      end.
      eapply lobbyInv_deleted;
        [ apply (Hmid (removeFirst sid (users st)) (aleaveAll sid (sio st)))
        | simpl; eassumption
        | exact He
        | simpl; now rewrite Hid
        | reflexivity ].
    + intros [= <- <-]. apply Hmid.
Qed.

(** In every reachable state of [src/unnamed/part_000] the member set of
    a room holds exactly the live sockets whose current room it is. *)
Lemma lobbyReachable_inv (st : State) : lobbyReachable st -> lobbyInv st.
Proof.
  induction 1 as [|st st' clk e out _ IH Hf Hh].
  - apply lobbyInv_initial.
  - eapply lobbyInv_handle; eauto.
Qed.

(** ** Rejections in [src/unnamed/part_000] *)

Lemma leaveOld_no_rejection (now : Z) (sid : string) (sock : Sock)
      (st st1 : State) (out1 : list Notification) :
  leaveOld now sid sock st = Some (st1, out1) ->
  existsb isRejection out1 = false.
Proof.
  unfold leaveOld. cbv zeta. step_if; [| now intros [= <- <-]].
  step_get; [| same_state]. step_get; [| same_state].
  now intros [= <- <-].
Qed.

Lemma renameInRooms_no_rejection (clk : Clock) (sid text : string)
      (socks : Map Sock) (rs : Map Room) :
  forall i rs' out,
    renameInRooms clk i sid text socks rs = Some (rs', out) ->
    existsb isRejection out = false.
Proof.
  induction rs as [|[k0 r0] rs IH]; simpl; intros i rs' out.
  - now intros [= <- <-].
  - destruct (shas sid (room_users r0)).
    + destruct (usernamesOf socks (room_users r0)); [| discriminate].
      destruct (renameInRooms clk (S i) sid text socks rs) as [[rs2 o2]|] eqn:E;
        [| discriminate].
      intros [= <- <-]. simpl. eapply IH; eauto.
    + destruct (renameInRooms clk (S i) sid text socks rs) as [[rs2 o2]|] eqn:E;
        [| discriminate].
      intros [= <- <-]. eapply IH; eauto.
Qed.

Ltac no_rejection :=
  intros [= <- <-] Hrej; exfalso;
  rewrite ?existsb_app in Hrej; simpl in Hrej;
  repeat match goal with
         | H : leaveOld _ _ _ _ = Some (_, ?o) |- _ =>
             rewrite (leaveOld_no_rejection _ _ _ _ _ _ H) in Hrej; clear H
         | H : renameInRooms _ _ _ _ _ _ = Some (_, ?o) |- _ =>
             rewrite (renameInRooms_no_rejection _ _ _ _ _ _ _ _ H) in Hrej;
             clear H
         end;
  simpl in Hrej; discriminate.

Ltac rejected := intros [= <- <-] _; reflexivity.

(** A handler run that tells the client its request was turned down has
    changed nothing. *)
Lemma lobby_rejection_changes_nothing (clk : Clock) (e : Event)
      (st st' : State) (out : list Notification) :
  handle clk e st = Some (st', out) ->
  existsb isRejection out = true ->
  st' = st.
Proof.
  destruct e; simpl.
  - unfold connection. no_rejection.
  - unfold setInitialUsername. cbv zeta.
    step_get; [| discriminate]. step_if; [no_rejection | rejected].
  - unfold changeUsername. cbv zeta.
    step_get; [| discriminate]. step_if; [rejected |].
    step_if; [rejected |]. step_if; [| rejected].
    step_opt; [| discriminate]. no_rejection.
  - unfold createRoom. cbv zeta.
    step_get; [| discriminate]. step_if; [rejected |].
    step_if; [rejected |]. step_if; [rejected |].
    step_opt; [| discriminate]. step_get; [| discriminate]. no_rejection.
  - unfold joinRoomByPin, enterRoom. cbv zeta.
    step_get; [| discriminate]. step_if; [rejected |].
    step_if; [rejected |]. step_get; [| rejected].
    step_if; [rejected |]. step_opt; [| discriminate].
    step_get; [| discriminate]. no_rejection.
  - unfold switchRoom, enterRoom. cbv zeta.
    step_get; [| discriminate]. step_if; [rejected |].
    step_get; [| rejected].
    step_if; [rejected |]. step_opt; [| discriminate].
    step_get; [| discriminate]. no_rejection.
  - unfold leaveCurrentRoom.
    step_get; [| discriminate]. step_if; [| rejected].
    step_opt; [| discriminate]. no_rejection.
  - unfold chatMessage, post. cbv zeta.
    step_get; [| discriminate]. step_if; [no_rejection | rejected].
  - unfold chatAction, post. cbv zeta.
    step_get; [| discriminate]. step_if; [no_rejection | rejected].
  - unfold typing, typingSignal.
    step_get; [| discriminate]. step_if; rejected.
  - unfold stopTyping, typingSignal.
    step_get; [| discriminate]. step_if; rejected.
  - unfold disconnect. cbv zeta.
    step_get; [| discriminate]. simpl rooms. step_if.
    + step_get; [| discriminate]. step_get; [| discriminate].
      step_if; no_rejection.
    + no_rejection.
Qed.

Lemma lobby_run_reachable (es : list (Clock * Event)) :
  forall st st', lobbyReachable st -> freshRun es st = true ->
                 run es st = Some st' -> lobbyReachable st'.
Proof.
  induction es as [|[clk e] es IH]; simpl; intros st st' Hr Hf.
  - now intros [= <-].
  - apply andb_true_iff in Hf. destruct Hf as [Hf1 Hf2].
    destruct (handle clk e st) as [[st1 out]|] eqn:Hh; [| discriminate].
    apply IH; [| exact Hf2]. eapply lobby_handle; eauto.
    destruct e; simpl; auto. now apply negb_true_iff.
Qed.

End LobbyFacts.

(** * More facts about the containers and the transport's table *)

Module MapFacts.

Lemma Forall_mupd {V} (P : string * V -> Prop) (k : string) (f : V -> V) (m : Map V) :
  Forall P m ->
  (forall v, mget k m = Some v -> P (k, v) -> P (k, f v)) ->
  Forall P (mupd k f m).
Proof.
  induction m as [|[k0 v0] m IH]; simpl; intros H Hf.
  - constructor.
  - inversion H as [|? ? H0 Hm]; subst.
    destruct (String.eqb_spec k k0) as [->|Hn].
    + constructor; [| exact Hm]. apply Hf; [reflexivity | exact H0].
    + constructor; [exact H0 |]. apply IH; [exact Hm | exact Hf].
Qed.

Lemma Forall_mset {V} (P : string * V -> Prop) (k : string) (v : V) (m : Map V) :
  Forall P m -> P (k, v) -> Forall P (mset k v m).
Proof.
  induction m as [|[k0 v0] m IH]; simpl; intros H Hv.
  - constructor; [exact Hv | constructor].
  - inversion H as [|? ? H0 Hm]; subst.
    destruct (k =? k0); constructor; auto.
Qed.

Lemma Forall_mdel {V} (P : string * V -> Prop) (k : string) (m : Map V) :
  Forall P m -> Forall P (mdel k m).
Proof.
  induction m as [|[k0 v0] m IH]; simpl; intros H.
  - constructor.
  - inversion H as [|? ? H0 Hm]; subst.
    destruct (k =? k0); [auto | constructor; auto].
Qed.

Lemma In_mkeys_mdel {V} (i k : string) (m : Map V) :
  In i (mkeys (mdel k m)) -> In i (mkeys m).
Proof.
  unfold mkeys. induction m as [|[k0 v0] m IH]; simpl; [tauto |].
  destruct (k =? k0); simpl; tauto.
Qed.

Lemma NoDup_mkeys_mdel {V} (k : string) (m : Map V) :
  NoDup (mkeys m) -> NoDup (mkeys (mdel k m)).
Proof.
  induction m as [|[k0 v0] m IH]; simpl; intros H.
  - constructor.
  - inversion H as [|? ? Hn Hm]; subst.
    destruct (k =? k0); [auto |].
    simpl. constructor; [| auto].
    intros Hin. apply Hn. eapply In_mkeys_mdel; eauto.
Qed.

Lemma mkeys_mset_old {V} (k : string) (v : V) (m : Map V) :
  mhas k m = true -> mkeys (mset k v m) = mkeys m.
Proof.
  unfold mhas, mkeys. induction m as [|[k0 v0] m IH]; simpl.
  - discriminate.
  - destruct (String.eqb_spec k k0) as [->|Hn]; simpl; [reflexivity |].
    intros H. now rewrite IH.
Qed.

Lemma NoDup_mkeys_mset {V} (k : string) (v : V) (m : Map V) :
  NoDup (mkeys m) -> NoDup (mkeys (mset k v m)).
Proof.
  intros H. destruct (mhas k m) eqn:E.
  - now rewrite mkeys_mset_old.
  - rewrite mkeys_mset_new by exact E.
    apply NoDup_app; [exact H | repeat constructor; intros [] |].
    intros x Hx [<-|[]]. apply mhas_mkeys in E. contradiction.
Qed.

Lemma mget_of_In {V} (k : string) (v : V) (m : Map V) :
  NoDup (mkeys m) -> In (k, v) m -> mget k m = Some v.
Proof.
  induction m as [|[k0 v0] m IH]; simpl; [tauto |].
  intros H [E|Hin].
  - injection E as -> ->. now rewrite String.eqb_refl.
  - inversion H as [|? ? Hn Hm]; subst.
    destruct (String.eqb_spec k k0) as [->|]; [| auto].
    exfalso. apply Hn. change k0 with (fst (k0, v)). now apply in_map.
Qed.

Lemma sdel_only (sid : string) (l : StrSet) :
  (forall i, In i l -> i = sid) -> sdel sid l = [].
Proof.
  induction l as [|y l IH]; simpl; intros H; [reflexivity |].
  rewrite (H y (or_introl eq_refl)), String.eqb_refl.
  apply IH. intros i Hi. apply H. now right.
Qed.

End MapFacts.
Import MapFacts.

Module AdapterFacts.

Lemma ajoined_aleave (a : Adapter) (i c sid r : string) :
  ajoined (aleave sid r a) i c
  = ajoined a i c && negb ((i =? sid) && (c =? r)).
Proof.
  unfold ajoined, aleave.
  induction a as [|[s0 r0] a IH]; simpl; [reflexivity |].
  destruct (String.eqb_spec s0 sid) as [->|Hs];
    destruct (String.eqb_spec r0 r) as [->|Hr]; simpl; rewrite IH;
    destruct (String.eqb_spec sid i) as [<-|Hi];
    destruct (String.eqb_spec r c) as [<-|Hc];
    rewrite ?String.eqb_refl; simpl;
    repeat match goal with
           | |- context [?x =? ?y] =>
               destruct (String.eqb_spec x y); try congruence; simpl
           end;
    rewrite ?andb_true_r, ?andb_false_r, ?orb_false_r; reflexivity.
Qed.

Lemma ajoined_aleaveAll (a : Adapter) (i c sid : string) :
  ajoined (aleaveAll sid a) i c = ajoined a i c && negb (i =? sid).
Proof.
  unfold ajoined, aleaveAll.
  induction a as [|[s0 r0] a IH]; simpl; [reflexivity |].
  destruct (String.eqb_spec s0 sid) as [->|Hs]; simpl; rewrite IH;
    destruct (String.eqb_spec i sid) as [->|Hi]; simpl;
    repeat match goal with
           | |- context [?x =? ?y] =>
               destruct (String.eqb_spec x y); try congruence; simpl
           end;
    rewrite ?andb_true_r, ?andb_false_r, ?orb_false_r; reflexivity.
Qed.

Lemma In_amembers (a : Adapter) (i c : string) :
  In i (amembers a c) <-> ajoined a i c = true.
Proof.
  split; [| apply ServerFacts.amembers_ajoined].
  unfold amembers, ajoined. rewrite in_map_iff, existsb_exists.
  intros ([s0 r0] & E & Hin). simpl in E. subst s0.
  apply filter_In in Hin. destruct Hin as [Hin Hr]. simpl in Hr.
  exists (i, r0). split; [exact Hin |]. simpl.
  now rewrite String.eqb_refl, Hr.
Qed.

Lemma In_recipients_except (conns : list string) (a : Adapter)
      (rid sid i : string) :
  In i (recipients conns a (ToRoomExcept rid sid))
  <-> i <> sid /\ ajoined a i rid = true.
Proof.
  simpl. rewrite filter_In, In_amembers, negb_true_iff,
           String.eqb_neq. tauto.
Qed.

End AdapterFacts.

(** * The invariant of [src/server.js]

    [joinRoom] is never handed a PIN, so its PIN test turns every caller
    away from every room that has one: the sessions stay in 'general'. *)

Module ServerInvariant.
Import Server ServerFacts.

Lemma pinsOk_get (rs : Map Room) (k : string) (r : Room) :
  pinsOk rs -> mget k rs = Some r ->
  if k =? GENERAL_ROOM_ID then pin r = None
  else truthy (pin r) = true /\ usersInRoom r = [] /\ history r = [].
Proof.
  intros H Hr. unfold pinsOk in H. rewrite Forall_forall in H.
  exact (proj2 (H (k, r) (mget_In _ _ _ Hr))).
Qed.

(** An update of 'general' that keeps its PIN keeps [pinsOk]. *)
Lemma pinsOk_mupd (rs : Map Room) (f : Room -> Room) :
  pinsOk rs ->
  (forall r, mget GENERAL_ROOM_ID rs = Some r -> pin (f r) = pin r) ->
  pinsOk (mupd GENERAL_ROOM_ID f rs).
Proof.
  intros H Hf. apply Forall_mupd; [exact H |].
  intros v Hv. simpl. rewrite (Hf v Hv). tauto.
Qed.

Lemma serverInv_initial : serverInv initial.
Proof.
  split; [| split; [| split; [| split]]].
  - constructor; [| constructor]. split; [discriminate | reflexivity].
  - repeat constructor. intros [].
  - reflexivity.
  - intros i u c. discriminate.
  - intros i u. discriminate.
Qed.

(** The PIN test of [joinRoom], run without a PIN, lets only 'general'
    through. *)
Lemma pinGate_only_general (rs : Map Room) (rid : string) (room : Room) :
  pinsOk rs -> mget rid rs = Some room ->
  pinGate room None rid = false -> rid = GENERAL_ROOM_ID.
Proof.
  intros Hp Hr Hg. pose proof (pinsOk_get rs rid room Hp Hr) as H.
  rewrite pinGate_no_pin in Hg.
  destruct (String.eqb_spec rid GENERAL_ROOM_ID) as [E|_]; [exact E |].
  destruct H as [H _]. rewrite H in Hg. discriminate.
Qed.

(** What [joinRoom] does in a state that satisfies the invariant: it turns
    the caller away and changes nothing, or it takes a session that is in
    no room into 'general'. *)
Lemma joinRoom_cases (tl tj : Z) (sid rid : string) (st st' : State)
      (out : list Notification) :
  serverInv st ->
  joinRoom tl tj sid rid None st = Some (st', out) ->
  (st' = st /\ exists msg, out = [feedback sid msg])
  \/ (rid = GENERAL_ROOM_ID
      /\ exists u room,
          mget sid (users st) = Some u
          /\ currentRoomId u = None
          /\ mget rid (rooms st) = Some room
          /\ st' = {| users := mupd sid (fun u => {| username := username u;
                                                     currentRoomId := Some rid |})
                                    (users st);
                      rooms := mupd rid (fun _ => joinedRoom (username u) rid tj room)
                                    (rooms st);
                      userSocketRooms := mupd sid (sadd rid) (userSocketRooms st);
                      sio := ajoin sid rid (sio st) |}).
Proof.
  intros (Hp & Hnd & Hg & Hon & Hsr). unfold joinRoom.
  destruct (mget sid (users st)) as [u|] eqn:Hu; [| intros [= <- <-]; eauto].
  destruct (negb (truthy (username u))); [intros [= <- <-]; eauto |].
  destruct (mget rid (rooms st)) as [room|] eqn:Hr; [| intros [= <- <-]; eauto].
  destruct (truthy (pin room) && negb (seq (pin room) None)
            && negb (rid =? GENERAL_ROOM_ID)) eqn:Hgate;
    [intros [= <- <-]; eauto |].
  destruct (seq (currentRoomId u) (Some rid)) eqn:Hcur;
    [intros [= <- <-]; eauto |].
  assert (Hrid : rid = GENERAL_ROOM_ID)
    by (eapply pinGate_only_general; eauto).
  destruct (currentRoomId u) as [c|] eqn:Hc.
  { pose proof (Hon sid u c Hu Hc) as ->. subst rid.
    simpl in Hcur. discriminate. }
  simpl truthy. cbv iota.
  pose proof (Hsr sid u Hu) as Hset. rewrite Hc in Hset. rewrite Hset.
  intros [= <- <-]. right. split; [exact Hrid |].
  exists u, room. repeat split; auto.
Qed.

Lemma joinRoom_inv (tl tj : Z) (sid rid : string) (st st' : State)
      (out : list Notification) :
  serverInv st ->
  joinRoom tl tj sid rid None st = Some (st', out) ->
  serverInv st' /\ mkeys (rooms st') = mkeys (rooms st).
Proof.
  intros Hinv Hj.
  destruct (joinRoom_cases tl tj sid rid st st' out Hinv Hj)
    as [[-> _]|(-> & u & room & Hu & Hc & Hr & ->)]; [auto |].
  destruct Hinv as (Hp & Hnd & Hg & Hon & Hsr). simpl.
  split; [| apply mkeys_mupd].
  split; [| split; [| split; [| split]]]; simpl.
  - apply pinsOk_mupd; [exact Hp |]. intros r Hr'.
    rewrite Hr in Hr'. now injection Hr' as <-.
  - now rewrite mkeys_mupd.
  - now rewrite mhas_mupd.
  - intros i v c. simpl. rewrite mget_mupd.
    destruct (String.eqb_spec i sid) as [->|Hi]; [| apply Hon].
    rewrite Hu. simpl. intros [= <-]. simpl. congruence.
  - intros i v. simpl. rewrite !mget_mupd.
    destruct (String.eqb_spec i sid) as [->|Hi]; [| apply Hsr].
    rewrite Hu, (Hsr sid u Hu), Hc. simpl. now intros [= <-].
Qed.

(** A session's current room is 'general' or none: the 'leave current
    room' handler never gets to its leave. *)
Lemma leaveCurrentRoom_rejected (clk : Clock) (sid : string) (st : State) :
  serverInv st ->
  exists msg, leaveCurrentRoom clk sid st = Some (st, [feedback sid msg]).
Proof.
  intros (Hp & Hnd & Hg & Hon & Hsr). unfold leaveCurrentRoom.
  destruct (mget sid (users st)) as [u|] eqn:Hu; [| eauto].
  destruct (currentRoomId u) as [c|] eqn:Hc.
  - pose proof (Hon sid u c Hu Hc) as ->. simpl. eauto.
  - simpl. eauto.
Qed.

Lemma disconnect_inv (clk : Clock) (sid : string) (st st' : State)
      (out : list Notification) :
  serverInv st ->
  disconnect clk sid st = Some (st', out) ->
  serverInv st' /\ mkeys (rooms st') = mkeys (rooms st).
Proof.
  intros (Hp & Hnd & Hg & Hon & Hsr). unfold disconnect. cbv zeta. simpl users.
  assert (Hfin : forall rs usr a,
             pinsOk rs -> NoDup (mkeys rs) -> mhas GENERAL_ROOM_ID rs = true ->
             (forall i, i <> sid -> mget i usr = mget i (userSocketRooms st)) ->
             serverInv {| users := mdel sid (users st); rooms := rs;
                          userSocketRooms := mdel sid usr; sio := a |}).
  { intros rs usr a H1 H2 H3 H4.
    split; [exact H1 |]. split; [exact H2 |]. split; [exact H3 |]. split.
    - intros i u c. simpl.
      destruct (String.eqb_spec i sid) as [->|Hi].
      + rewrite mget_mdel_same. discriminate.
      + rewrite mget_mdel_other by exact Hi. apply Hon.
    - intros i u. simpl.
      destruct (String.eqb_spec i sid) as [->|Hi].
      + rewrite mget_mdel_same. discriminate.
      + rewrite !mget_mdel_other by exact Hi. rewrite (H4 i Hi). apply Hsr. }
  destruct (mget sid (users st)) as [u|] eqn:Hu.
  2:{ intros [= <- <-]. simpl. split; [| reflexivity]. now apply Hfin. }
  destruct (currentRoomId u) as [c|] eqn:Hc.
  2:{ simpl. intros [= <- <-]. simpl. split; [| reflexivity]. now apply Hfin. }
  pose proof (Hon sid u c Hu Hc) as ->. simpl truthy. cbv iota. simpl show.
  unfold leaveRoom. simpl users. simpl rooms. simpl userSocketRooms.
  rewrite Hu. destruct (mhas_some _ _ Hg) as [room Hr]. rewrite Hr.
  pose proof (Hsr sid u Hu) as Hset. rewrite Hc in Hset. rewrite Hset.
  rewrite String.eqb_refl. simpl negb. rewrite andb_false_r.
  intros [= <- <-]. simpl. split; [| apply mkeys_mupd].
  apply Hfin.
  - apply pinsOk_mupd; [exact Hp |]. intros r Hr'.
    rewrite Hr in Hr'. now injection Hr' as <-.
  - now rewrite mkeys_mupd.
  - now rewrite mhas_mupd.
  - intros i Hi. rewrite mget_mupd.
    destruct (String.eqb_spec i sid); [contradiction | reflexivity].
Qed.

Lemma users_mset_inv (sid : string) (n : option string) (u : User) (st : State) :
  serverInv st ->
  mget sid (users st) = Some u ->
  serverInv (setUsers st (mset sid {| username := n;
                                      currentRoomId := currentRoomId u |}
                               (users st))).
Proof.
  intros (Hp & Hnd & Hg & Hon & Hsr) Hu.
  split; [exact Hp |]. split; [exact Hnd |]. split; [exact Hg |]. split.
  - intros i v c. simpl. rewrite mget_mset.
    destruct (String.eqb_spec i sid) as [->|Hi]; [| apply Hon].
    intros [= <-]. simpl. exact (Hon sid u c Hu).
  - intros i v. simpl. rewrite mget_mset.
    destruct (String.eqb_spec i sid) as [->|Hi]; [| apply Hsr].
    intros [= <-]. simpl. exact (Hsr sid u Hu).
Qed.

Lemma rooms_mupd_inv (f : Room -> Room) (st : State) :
  serverInv st ->
  (forall r, mget GENERAL_ROOM_ID (rooms st) = Some r -> pin (f r) = pin r) ->
  serverInv (setRooms st (mupd GENERAL_ROOM_ID f (rooms st))).
Proof.
  intros (Hp & Hnd & Hg & Hon & Hsr) Hf.
  split; [apply pinsOk_mupd; auto |].
  split; [simpl; now rewrite mkeys_mupd |].
  split; [simpl; now rewrite mhas_mupd |].
  split; [exact Hon | exact Hsr].
Qed.

(** The room a session is in, read the way the handlers read it. *)
Lemma current_general (st : State) (sid : string) (u : User) :
  serverInv st ->
  mget sid (users st) = Some u ->
  truthy (currentRoomId u) = true ->
  show "" (currentRoomId u) = GENERAL_ROOM_ID.
Proof.
  intros (_ & _ & _ & Hon & _) Hu Ht.
  destruct (currentRoomId u) as [c|] eqn:Hc; [| discriminate].
  simpl. exact (Hon sid u c Hu Hc).
Qed.

Lemma post_inv (ty : MsgType) (wire : ChatEvent -> Payload)
      (sid text : string) (ts : Z) (st st' : State) (out : list Notification) :
  serverInv st ->
  post ty wire sid text ts st = Some (st', out) ->
  serverInv st' /\ mkeys (rooms st') = mkeys (rooms st).
Proof.
  intros Hinv. unfold post. cbv zeta.
  destruct (mget sid (users st)) as [u|] eqn:Hu; [| now intros [= <- <-]].
  step_if; [| now intros [= <- <-]].
  match goal with
  | H : truthy (currentRoomId u) && _ = true |- _ =>
      apply andb_true_iff in H; destruct H as [Ht _];
      rewrite (current_general st sid u Hinv Hu Ht)
  end.
  step_get; intros [= <- <-]; [| auto].
  split; [| apply mkeys_mupd].
  apply (rooms_mupd_inv _ _ Hinv). reflexivity.
Qed.

(** Every handler keeps the invariant, and removes no room. *)
Lemma serverInv_handle (clk : Clock) (e : Event) (st st' : State)
      (out : list Notification) :
  serverInv st ->
  handle clk e st = Some (st', out) ->
  serverInv st'
  /\ (forall k, mhas k (rooms st) = true -> mhas k (rooms st') = true).
Proof.
  intros Hinv.
  assert (Hsame : serverInv st
                  /\ (forall k, mhas k (rooms st) = true ->
                                mhas k (rooms st) = true)) by auto.
  assert (Hkeys : forall st1 st2,
             mkeys (rooms st2) = mkeys (rooms st1) ->
             forall k, mhas k (rooms st1) = true -> mhas k (rooms st2) = true).
  { intros st1 st2 E k H. now rewrite (mhas_of_mkeys k _ _ E). }
  destruct e; simpl.
  - unfold connection. intros [= <- <-]. split; [| auto].
    destruct Hinv as (Hp & Hnd & Hg & Hon & Hsr).
    split; [exact Hp |]. split; [exact Hnd |]. split; [exact Hg |]. split.
    + intros i u c. simpl. rewrite mget_mset.
      destruct (i =? sid); [intros [= <-]; discriminate | apply Hon].
    + intros i u. simpl. rewrite !mget_mset.
      destruct (i =? sid); [now intros [= <-] | apply Hsr].
  - unfold setInitialUsername. cbv zeta.
    step_if; [same_state |]. step_if; [same_state |].
    destruct (mget sid (users st)) as [user|] eqn:Hu; [| discriminate].
    step_opt; [| same_state]. intros [= <- <-].
    destruct (joinRoom_inv _ _ _ _ _ _ _
                (users_mset_inv sid (Some (trim newUsername)) user st Hinv Hu)
                Hrun) as [H1 H2].
    split; [exact H1 |]. intros k. now rewrite (mhas_of_mkeys k _ _ H2).
  - unfold changeUsername. cbv zeta.
    step_if; [same_state |]. step_if; [same_state |].
    step_if; [same_state |].
    destruct (mget sid (users st)) as [user|] eqn:Hu; [| same_state].
    pose proof (users_mset_inv sid (Some (trim newUsername)) user st Hinv Hu)
      as H1.
    step_if; [| intros [= <- <-]; auto].
    match goal with
    | H : truthy (currentRoomId user) = true |- _ =>
        rewrite (current_general st sid user Hinv Hu H)
    end.
    step_get; intros [= <- <-]; [| auto].
    split.
    + apply (rooms_mupd_inv _ _ H1). intros r' Hr'.
      match goal with
      | H : mget _ _ = Some r |- _ =>
          simpl in H, Hr'; rewrite H in Hr'; now injection Hr' as <-
      end.
    + intros k. simpl. now rewrite mhas_mupd.
  - unfold createRoom. cbv zeta.
    step_if; [same_state |]. step_if; [same_state |].
    step_opt; [| same_state]. intros [= <- <-].
    match goal with
    | H : (_ =? "") || (?p =? "") = false |- _ =>
        apply orb_false_iff in H; destruct H as [_ Hpin]
    end.
    assert (H1 : serverInv
                   (setRooms st
                      (mset (tpl ["room-"; showZ (clk 0%nat)])
                            {| name := trim roomName;
                               pin := Some (trim roomPin);
                               history := []; usersInRoom := [] |}
                            (rooms st)))).
    { destruct Hinv as (Hp & Hnd & Hg & Hon & Hsr).
      split; [| split; [| split; [| split]]]; simpl; auto.
      - apply Forall_mset; [exact Hp |]. cbn [fst snd].
        rewrite room_id_not_general. cbn [pin truthy]. now rewrite Hpin.
      - now apply NoDup_mkeys_mset.
      - rewrite mhas_mset, Hg. apply orb_true_r. }
    destruct (joinRoom_inv _ _ _ _ _ _ _ H1 Hrun) as [H2 H3].
    split; [exact H2 |]. intros k Hk.
    rewrite (mhas_of_mkeys k _ _ H3). simpl. rewrite mhas_mset, Hk.
    apply orb_true_r.
  - unfold joinRoomByPin. cbv zeta.
    step_if; [same_state |]. step_if; [| same_state].
    intros Hj. destruct (joinRoom_inv _ _ _ _ _ _ _ Hinv Hj) as [H1 H2].
    split; [exact H1 | now apply Hkeys].
  - unfold switchRoom.
    intros Hj. destruct (joinRoom_inv _ _ _ _ _ _ _ Hinv Hj) as [H1 H2].
    split; [exact H1 | now apply Hkeys].
  - destruct (leaveCurrentRoom_rejected clk sid st Hinv) as [msg ->].
    now intros [= <- <-].
  - unfold chatMessage. intros Hp.
    destruct (post_inv _ _ _ _ _ _ _ _ Hinv Hp) as [H1 H2].
    split; [exact H1 | now apply Hkeys].
  - unfold chatAction. intros Hp.
    destruct (post_inv _ _ _ _ _ _ _ _ Hinv Hp) as [H1 H2].
    split; [exact H1 | now apply Hkeys].
  - unfold typing, typingSignal.
    step_get; [| same_state]. step_if; same_state.
  - unfold stopTyping, typingSignal.
    step_get; [| same_state]. step_if; same_state.
  - intros Hd. destruct (disconnect_inv _ _ _ _ _ Hinv Hd) as [H1 H2].
    split; [exact H1 | now apply Hkeys].
Qed.

Lemma serverReachable_inv (st : State) : serverReachable st -> serverInv st.
Proof.
  induction 1 as [|st st' clk e out _ IH Hh].
  - apply serverInv_initial.
  - eapply serverInv_handle; eauto.
Qed.

End ServerInvariant.

(** ** Rooms over time in [src/server.js] *)

Module ServerHistory.
Import Server ServerFacts.

Lemma keptRoom_refl (r : Room) : keptRoom r r.
Proof. repeat split. exists []. now rewrite app_nil_r. Qed.

Lemma keptRoom_trans (r1 r2 r3 : Room) :
  keptRoom r1 r2 -> keptRoom r2 r3 -> keptRoom r1 r3.
Proof.
  intros (N1 & P1 & m1 & H1) (N2 & P2 & m2 & H2).
  split; [congruence |]. split; [congruence |].
  exists (m1 ++ m2). now rewrite H2, H1, app_assoc.
Qed.

(** An update that appends to the history of the room under [k]. *)
Lemma mupd_kept (k : string) (f : Room -> Room) (rs : Map Room) :
  (forall r, mget k rs = Some r -> keptRoom r (f r)) ->
  forall k' r', mget k' (mupd k f rs) = Some r' ->
                exists r, mget k' rs = Some r /\ keptRoom r r'.
Proof.
  intros Hf k' r'. rewrite mget_mupd.
  destruct (String.eqb_spec k' k) as [->|Hn].
  - destruct (mget k rs) as [r|] eqn:E; [| discriminate].
    intros [= <-]. eauto.
  - intros E. exists r'. split; [exact E | apply keptRoom_refl].
Qed.

Lemma mdel_kept (k : string) (rs : Map Room) :
  forall k' r', mget k' (mdel k rs) = Some r' ->
                exists r, mget k' rs = Some r /\ keptRoom r r'.
Proof.
  intros k' r'. destruct (String.eqb_spec k' k) as [->|Hn].
  - rewrite mget_mdel_same. discriminate.
  - rewrite mget_mdel_other by exact Hn. intros E.
    exists r'. split; [exact E | apply keptRoom_refl].
Qed.

(** [leaveRoom] adds no room, and appends to the history of the one it
    leaves. *)
Lemma leaveRoom_kept (now : Z) (sid rid : string) (d : bool) (st st' : State)
      (out : list Notification) :
  leaveRoom now sid rid d st = Some (st', out) ->
  forall k r', mget k (rooms st') = Some r' ->
               exists r, mget k (rooms st) = Some r /\ keptRoom r r'.
Proof.
  assert (Hsame : forall k r', mget k (rooms st) = Some r' ->
                    exists r, mget k (rooms st) = Some r /\ keptRoom r r').
  { intros k r' E. exists r'. split; [exact E | apply keptRoom_refl]. }
  unfold leaveRoom.
  destruct (mget sid (users st)) as [u|]; [| now intros [= <- <-]].
  destruct (mget rid (rooms st)) as [room|] eqn:Hr; [| now intros [= <- <-]].
  destruct (mget sid (userSocketRooms st)); [| discriminate].
  cbv zeta.
  set (f := fun _ : Room => _).
  assert (Hf : forall k r', mget k (mupd rid f (rooms st)) = Some r' ->
                 exists r, mget k (rooms st) = Some r /\ keptRoom r r').
  { apply mupd_kept. intros r E. rewrite Hr in E. injection E as <-.
    unfold f. repeat split. simpl. eauto. }
  destruct (Nat.eqb _ 0 && _); destruct d; intros [= <- <-]; simpl;
    try exact Hf;
    intros k r' E; apply mdel_kept in E; destruct E as (r1 & E1 & K1);
    destruct (Hf k r1 E1) as (r & E & K); exists r;
    (split; [exact E | eapply keptRoom_trans; eauto]).
Qed.

Lemma joinRoom_kept (tl tj : Z) (sid rid : string) (pinArg : option string)
      (st st' : State) (out : list Notification) :
  joinRoom tl tj sid rid pinArg st = Some (st', out) ->
  forall k r', mget k (rooms st') = Some r' ->
               exists r, mget k (rooms st) = Some r /\ keptRoom r r'.
Proof.
  assert (Hsame : forall k r', mget k (rooms st) = Some r' ->
                    exists r, mget k (rooms st) = Some r /\ keptRoom r r').
  { intros k r' E. exists r'. split; [exact E | apply keptRoom_refl]. }
  unfold joinRoom.
  destruct (mget sid (users st)) as [u|]; [| now intros [= <- <-]].
  destruct (negb (truthy (username u))); [now intros [= <- <-] |].
  destruct (mget rid (rooms st)) as [room|] eqn:Hr; [| now intros [= <- <-]].
  destruct (_ && _ && _); [now intros [= <- <-] |].
  destruct (seq _ _); [now intros [= <- <-] |].
  assert (Hmid : forall st1 out1,
             (if truthy (currentRoomId u)
              then leaveRoom tl sid (show "" (currentRoomId u)) false st
              else Some (st, [])) = Some (st1, out1) ->
             forall k r', mget k (rooms st1) = Some r' ->
                          exists r, mget k (rooms st) = Some r /\ keptRoom r r').
  { intros st1 out1. destruct (truthy (currentRoomId u)).
    - apply leaveRoom_kept.
    - now intros [= <- <-]. }
  destruct (if truthy (currentRoomId u) then _ else _) as [[st1 out1]|];
    [| discriminate].
  specialize (Hmid st1 out1 eq_refl).
  destruct (mget sid (userSocketRooms st1)); [| discriminate].
  intros [= <- <-] k r'. simpl. rewrite mget_mupd.
  destruct (String.eqb_spec k rid) as [->|Hn]; [| apply Hmid].
  destruct (mget rid (rooms st1)) as [r1|] eqn:E1; [| discriminate].
  intros [= <-]. exists room. split; [exact Hr |].
  repeat split. simpl. eauto.
Qed.

(** No handler rewrites a room that stays registered: its name and PIN
    stay, and its history only grows. *)
Lemma handle_kept (clk : Clock) (e : Event) (st st' : State)
      (out : list Notification) :
  handle clk e st = Some (st', out) ->
  forall k r r', mget k (rooms st) = Some r ->
                 mget k (rooms st') = Some r' -> keptRoom r r'.
Proof.
  assert (Hfrom : forall st1,
             (forall k r', mget k (rooms st1) = Some r' ->
                           exists r, mget k (rooms st) = Some r /\ keptRoom r r') ->
             forall k r r', mget k (rooms st) = Some r ->
                            mget k (rooms st1) = Some r' -> keptRoom r r').
  { intros st1 H k r r' E E'. destruct (H k r' E') as (r0 & E0 & K).
    congruence. }
  assert (Hsame : forall k r r', mget k (rooms st) = Some r ->
                                 mget k (rooms st) = Some r' -> keptRoom r r').
  { intros k r r' E E'. assert (r' = r) by congruence. subst.
    apply keptRoom_refl. }
  destruct e; simpl.
  - unfold connection. now intros [= <- <-].
  - unfold setInitialUsername. cbv zeta.
    step_if; [same_state |]. step_if; [same_state |].
    step_get; [| same_state]. step_opt; [| same_state].
    intros [= <- <-]. apply Hfrom.
    apply (joinRoom_kept _ _ _ _ _ _ _ _ Hrun).
  - unfold changeUsername. cbv zeta.
    step_if; [same_state |]. step_if; [same_state |].
    step_if; [same_state |]. step_get; [| same_state].
    step_if; [| now intros [= <- <-]].
    step_get; intros [= <- <-]; [| exact Hsame].
    apply Hfrom. simpl. apply mupd_kept. intros r0 E.
    match goal with
    | H : mget _ _ = Some r |- _ =>
        simpl in H; rewrite H in E; injection E as <-
    end.
    repeat split. simpl. eauto.
  - unfold createRoom. cbv zeta.
    step_if; [same_state |]. step_if; [same_state |].
    step_opt; [| same_state]. intros [= <- <-] k r r' E E'.
    destruct (joinRoom_kept _ _ _ _ _ _ _ _ Hrun k r' E') as (r1 & E1 & K).
    simpl in E1. rewrite mget_mset in E1.
    destruct (String.eqb_spec k (tpl ["room-"; showZ (clk 0%nat)])) as [->|].
    + match goal with
      | H : mhas _ (rooms st) = false |- _ =>
          unfold mhas in H; rewrite E in H; discriminate
      end.
    + congruence.
  - unfold joinRoomByPin. cbv zeta.
    step_if; [same_state |]. step_if; [| same_state].
    intros Hj. apply Hfrom. apply (joinRoom_kept _ _ _ _ _ _ _ _ Hj).
  - unfold switchRoom.
    intros Hj. apply Hfrom. apply (joinRoom_kept _ _ _ _ _ _ _ _ Hj).
  - unfold leaveCurrentRoom.
    step_get; [| same_state]. step_if.
    + step_opt; [| same_state]. step_opt; [| same_state].
      intros [= <- <-]. apply Hfrom. intros k r' E'.
      destruct (joinRoom_kept _ _ _ _ _ _ _ _ Hrun0 k r' E') as (r1 & E1 & K1).
      destruct (leaveRoom_kept _ _ _ _ _ _ _ Hrun k r1 E1) as (r & E & K).
      exists r. split; [exact E | eapply keptRoom_trans; eauto].
    + step_if; same_state.
  - unfold chatMessage, post. cbv zeta.
    step_if; [| same_state]. step_get; intros [= <- <-]; [| exact Hsame].
    apply Hfrom. simpl. apply mupd_kept. intros r0 _.
    repeat split. simpl. eauto.
  - unfold chatAction, post. cbv zeta.
    step_if; [| same_state]. step_get; intros [= <- <-]; [| exact Hsame].
    apply Hfrom. simpl. apply mupd_kept. intros r0 _.
    repeat split. simpl. eauto.
  - unfold typing, typingSignal.
    step_get; [| same_state]. step_if; same_state.
  - unfold stopTyping, typingSignal.
    step_get; [| same_state]. step_if; same_state.
  - unfold disconnect. cbv zeta. simpl users.
    destruct (mget sid (users st)) as [u|].
    + destruct (truthy (currentRoomId u)).
      * step_opt; [| same_state]. intros [= <- <-]. simpl.
        apply Hfrom. apply (leaveRoom_kept _ _ _ _ _ _ _ Hrun).
      * now intros [= <- <-].
    + now intros [= <- <-].
Qed.

End ServerHistory.

(** ** Runs of [src/server.js] *)

Module ServerRuns.
Import Server ServerFacts ServerInvariant ServerHistory.

Lemma findByPin_In (p : string) (rs : Map Room) (k : string) :
  findByPin p rs = Some k -> exists room, In (k, room) rs /\ pin room = Some p.
Proof.
  induction rs as [|[k0 r0] rs IH]; simpl; [discriminate |].
  destruct (seq (pin r0) (Some p)) eqn:E.
  - intros [= <-]. apply seq_eq in E. exists r0. auto.
  - intros H. destruct (IH H) as (room & Hin & Hp). eauto.
Qed.

Lemma findByPin_some (p : string) (rs : Map Room) (k : string) (room : Room) :
  mget k rs = Some room -> pin room = Some p ->
  exists k', findByPin p rs = Some k'.
Proof.
  induction rs as [|[k0 r0] rs IH]; simpl; [discriminate |].
  intros Hk Hp. destruct (seq (pin r0) (Some p)) eqn:E; [eauto |].
  destruct (k =? k0); [| now apply IH].
  injection Hk as ->. apply seq_neq in E. contradiction.
Qed.

(** The room the scan of 'join room by pin' finds is registered under an
    id that is neither empty nor 'general', and has the PIN. *)
Lemma findByPin_found (p : string) (st : State) (k : string) :
  serverInv st ->
  findByPin p (rooms st) = Some k ->
  truthy (Some k) = true
  /\ (k =? GENERAL_ROOM_ID) = false
  /\ exists room, mget k (rooms st) = Some room /\ pin room = Some p.
Proof.
  intros (Hp & Hnd & _) Hf.
  destruct (findByPin_In _ _ _ Hf) as (room & Hin & Hpin).
  unfold pinsOk in Hp. rewrite Forall_forall in Hp.
  destruct (Hp _ Hin) as [Hne Hk]. simpl in Hne, Hk.
  split; [simpl; apply String.eqb_neq in Hne; now rewrite Hne |].
  split; [destruct (k =? GENERAL_ROOM_ID); [congruence | reflexivity] |].
  exists room. split; [now apply mget_of_In | exact Hpin].
Qed.

(** In a state that satisfies the invariant [joinRoom] does not throw. *)
Lemma joinRoom_returns (tl tj : Z) (sid rid : string) (st : State) :
  serverInv st ->
  exists st' out, joinRoom tl tj sid rid None st = Some (st', out).
Proof.
  intros (_ & _ & _ & _ & Hsr).
  destruct (mget sid (users st)) as [u|] eqn:Hu.
  - destruct (joinRoom_total tl tj sid rid None st) as (st' & out & H & _);
      [| eauto].
    unfold mhas. now rewrite (Hsr sid u Hu).
  - unfold joinRoom. rewrite Hu. eauto.
Qed.

Lemma joinRoomByPin_rejected (clk : Clock) (sid p : string) (st : State) :
  serverInv st ->
  exists msg, joinRoomByPin clk sid p st = Some (st, [feedback sid msg]).
Proof.
  intros Hinv. unfold joinRoomByPin. cbv zeta.
  destruct (trim p =? ""); [eauto |].
  destruct (findByPin (trim p) (rooms st)) as [k|] eqn:Hf; [| simpl; eauto].
  destruct (truthy (Some k)); [| eauto]. simpl show.
  destruct (joinRoom_returns (clk 0%nat) (clk 1%nat) sid k st Hinv)
    as (st' & out & Hj).
  rewrite Hj.
  destruct (joinRoom_cases _ _ _ _ _ _ _ Hinv Hj)
    as [[-> [msg ->]]|(-> & _)]; [eauto |].
  exfalso. destruct (findByPin_found _ _ _ Hinv Hf) as (_ & Hk & _).
  discriminate.
Qed.

Lemma handle_returns (clk : Clock) (e : Event) (st : State) :
  serverInv st -> serverLive e st ->
  exists st' out, handle clk e st = Some (st', out).
Proof.
  intros Hinv Hlive.
  assert (Hsock : forall sid, mhas sid (users st) = true ->
                              mhas sid (userSocketRooms st) = true).
  { intros sid H. destruct (mhas_some _ _ H) as [u Hu].
    destruct Hinv as (_ & _ & _ & _ & Hsr).
    unfold mhas. now rewrite (Hsr sid u Hu). }
  destruct e; simpl in *.
  - unfold connection. eauto.
  - unfold setInitialUsername. cbv zeta.
    destruct (trim newUsername =? ""); [eauto |].
    destruct (existsb _ _); [eauto |].
    destruct (mhas_some _ _ Hlive) as [u Hu]. rewrite Hu.
    destruct (joinRoom_returns (clk 0%nat) (clk 1%nat) sid GENERAL_ROOM_ID _
                (users_mset_inv sid (Some (trim newUsername)) u st Hinv Hu))
      as (st' & out & ->).
    eauto.
  - unfold changeUsername. cbv zeta.
    destruct (trim newUsername =? ""); [eauto |].
    destruct (seq _ _); [eauto |].
    destruct (existsb _ _); [eauto |].
    destruct (mget sid (users st)) as [u|]; [| eauto].
    destruct (truthy (currentRoomId u)); [| eauto].
    destruct (mget _ _); eauto.
  - unfold createRoom. cbv zeta.
    destruct (_ || _); [eauto |].
    destruct (mhas _ (rooms st)); [eauto |].
    match goal with
    | |- context [joinRoom ?a ?b ?c ?d None ?s] =>
        destruct (joinRoom_total a b c d None s) as (st' & out & -> & _);
          [apply (Hsock _ Hlive) | eauto]
    end.
  - destruct (joinRoomByPin_rejected clk sid roomPin st Hinv) as [msg ->].
    eauto.
  - unfold switchRoom. now apply joinRoom_returns.
  - destruct (leaveCurrentRoom_rejected clk sid st Hinv) as [msg ->]. eauto.
  - unfold chatMessage, post. cbv zeta.
    destruct (_ && _); [| eauto]. destruct (mget _ (rooms st)); eauto.
  - unfold chatAction, post. cbv zeta.
    destruct (_ && _); [| eauto]. destruct (mget _ (rooms st)); eauto.
  - unfold typing, typingSignal.
    destruct (mget sid (users st)); [| eauto]. destruct (_ && _); eauto.
  - unfold stopTyping, typingSignal.
    destruct (mget sid (users st)); [| eauto]. destruct (_ && _); eauto.
  - unfold disconnect. cbv zeta. simpl users.
    destruct (mhas_some _ _ Hlive) as [u Hu]. rewrite Hu.
    destruct (truthy (currentRoomId u)); [| eauto].
    match goal with
    | |- context [leaveRoom ?a ?b ?c ?d ?s] =>
        destruct (leaveRoom_spec a b c d s) as (st1 & out1 & -> & _);
          [apply (Hsock _ Hlive) | eauto]
    end.
Qed.

Lemma roomList_ids (st : State) : map rs_id (roomList st) = mkeys (rooms st).
Proof. unfold roomList, mkeys. now rewrite map_map. Qed.

(** Along a run from a state that satisfies the invariant, a room stays
    registered, with its name and PIN, and its history only grows. *)
Lemma run_kept (es : list (Clock * Event)) :
  forall st st' k r,
    serverInv st -> run es st = Some st' ->
    mget k (rooms st) = Some r ->
    exists r', mget k (rooms st') = Some r' /\ keptRoom r r'.
Proof.
  induction es as [|[clk e] es IH]; simpl; intros st st' k r Hinv.
  - intros [= <-] Hk. exists r. split; [exact Hk | apply keptRoom_refl].
  - destruct (handle clk e st) as [[st1 out]|] eqn:Hh; [| discriminate].
    intros Hrun Hk.
    destruct (serverInv_handle _ _ _ _ _ Hinv Hh) as [H1 H2].
    assert (Hk1 : mhas k (rooms st1) = true)
      by (apply H2; unfold mhas; now rewrite Hk).
    destruct (mhas_some _ _ Hk1) as [r1 Hr1].
    destruct (IH st1 st' k r1 H1 Hrun Hr1) as (r' & Hr' & K').
    exists r'. split; [exact Hr' |].
    eapply keptRoom_trans; [| exact K'].
    eapply handle_kept; eauto.
Qed.

(** Every registered room has its entry in the room list. *)
Lemma roomList_entry (st : State) (k : string) (r : Room) :
  mget k (rooms st) = Some r ->
  In {| rs_id := k; rs_name := name r; rs_hasPin := notNull (pin r) |}
     (roomList st).
Proof.
  intros H. unfold roomList.
  exact (in_map (fun e => {| rs_id := fst e; rs_name := name (snd e);
                              rs_hasPin := notNull (pin (snd e)) |})
                _ _ (mget_In _ _ _ H)).
Qed.

(** [leaveRoom] and [joinRoom] on socket [sid] leave the records of the
    other sessions as they are. *)
Lemma leaveRoom_others (now : Z) (sid rid : string) (d : bool)
      (st st' : State) (out : list Notification) (i : string) :
  leaveRoom now sid rid d st = Some (st', out) ->
  i <> sid ->
  mget i (users st') = mget i (users st).
Proof.
  unfold leaveRoom. intros Hrun Hi.
  destruct (mget sid (users st)); [| now injection Hrun as <- <-].
  destruct (mget rid (rooms st)); [| now injection Hrun as <- <-].
  destruct (mget sid (userSocketRooms st)); [| discriminate].
  destruct (Nat.eqb _ 0 && _); destruct d; injection Hrun as <- <-; simpl;
    try reflexivity;
    rewrite mget_mupd;
    (destruct (String.eqb_spec i sid); [contradiction | reflexivity]).
Qed.

Lemma joinRoom_others (tl tj : Z) (sid rid : string) (pinArg : option string)
      (st st' : State) (out : list Notification) (i : string) :
  joinRoom tl tj sid rid pinArg st = Some (st', out) ->
  i <> sid ->
  mget i (users st') = mget i (users st).
Proof.
  unfold joinRoom. intros Hrun Hi.
  destruct (mget sid (users st)) as [u|]; [| now injection Hrun as <- <-].
  destruct (negb (truthy (username u))); [now injection Hrun as <- <- |].
  destruct (mget rid (rooms st)) as [room|]; [| now injection Hrun as <- <-].
  destruct (_ && _ && _); [now injection Hrun as <- <- |].
  destruct (seq _ _); [now injection Hrun as <- <- |].
  assert (Hmid : exists st1 out1,
             (if truthy (currentRoomId u)
              then leaveRoom tl sid (show "" (currentRoomId u)) false st
              else Some (st, [])) = Some (st1, out1)
             /\ mget i (users st1) = mget i (users st)).
  { destruct (truthy (currentRoomId u)).
    - destruct (leaveRoom tl sid _ false st) as [[st1 out1]|] eqn:Hl;
        [| discriminate].
      exists st1, out1. split; [reflexivity |].
      eapply leaveRoom_others; eauto.
    - exists st, []. auto. }
  destruct Hmid as (st1 & out1 & Heq & H1). rewrite Heq in Hrun.
  destruct (mget sid (userSocketRooms st1)); [| discriminate].
  injection Hrun as <- <-. simpl. rewrite mget_mupd.
  destruct (String.eqb_spec i sid); [contradiction | exact H1].
Qed.

End ServerRuns.

(** * More invariants of [src/unnamed/part_000] *)

(** ** Rooms over time *)

Module LobbyHistory.
Import Lobby LobbyFacts.

Lemma keptRoomL_refl (r : Room) : keptRoomL r r.
Proof. repeat split. exists []. now rewrite app_nil_r. Qed.

Lemma keptRoomL_trans (r1 r2 r3 : Room) :
  keptRoomL r1 r2 -> keptRoomL r2 r3 -> keptRoomL r1 r3.
Proof.
  intros (I1 & N1 & P1 & m1 & H1) (I2 & N2 & P2 & m2 & H2).
  split; [congruence |]. split; [congruence |]. split; [congruence |].
  exists (m1 ++ m2). now rewrite H2, H1, app_assoc.
Qed.

Lemma mupd_keptL (k : string) (f : Room -> Room) (rs : Map Room) :
  (forall r, mget k rs = Some r -> keptRoomL r (f r)) ->
  forall k' r', mget k' (mupd k f rs) = Some r' ->
                exists r, mget k' rs = Some r /\ keptRoomL r r'.
Proof.
  intros Hf k' r'. rewrite mget_mupd.
  destruct (String.eqb_spec k' k) as [->|Hn].
  - destruct (mget k rs) as [r|] eqn:E; [| discriminate].
    intros [= <-]. eauto.
  - intros E. exists r'. split; [exact E | apply keptRoomL_refl].
Qed.

Lemma mdel_keptL (k : string) (rs : Map Room) :
  forall k' r', mget k' (mdel k rs) = Some r' ->
                exists r, mget k' rs = Some r /\ keptRoomL r r'.
Proof.
  intros k' r'. destruct (String.eqb_spec k' k) as [->|Hn].
  - rewrite mget_mdel_same. discriminate.
  - rewrite mget_mdel_other by exact Hn. intros E.
    exists r'. split; [exact E | apply keptRoomL_refl].
Qed.

Lemma leftRooms_kept (sid : string) (sock : Sock) (rs : Map Room) :
  forall k r', mget k (leftRooms sid sock rs) = Some r' ->
               exists r, mget k rs = Some r /\ keptRoomL r r'.
Proof.
  unfold leftRooms. destruct (_ && _).
  - apply mupd_keptL. intros r _. repeat split. exists [].
    simpl. now rewrite app_nil_r.
  - intros k r' E. exists r'. split; [exact E | apply keptRoomL_refl].
Qed.

Lemma renameInRooms_kept (clk : Clock) (sid text : string) (socks : Map Sock)
      (rs : Map Room) :
  forall i rs' out,
    renameInRooms clk i sid text socks rs = Some (rs', out) ->
    forall k r', mget k rs' = Some r' ->
                 exists r, mget k rs = Some r /\ keptRoomL r r'.
Proof.
  induction rs as [|[k0 r0] rs IH]; simpl; intros i rs' out.
  - intros [= <- <-] k r'. discriminate.
  - destruct (shas sid (room_users r0)).
    + destruct (usernamesOf socks (room_users r0)); [| discriminate].
      destruct (renameInRooms clk (S i) sid text socks rs) as [[rs2 o2]|] eqn:E;
        [| discriminate].
      intros [= <- <-] k r'. simpl.
      destruct (k =? k0); [| eapply IH; eauto].
      intros [= <-]. exists r0. split; [reflexivity |].
      repeat split. simpl. eauto.
    + destruct (renameInRooms clk (S i) sid text socks rs) as [[rs2 o2]|] eqn:E;
        [| discriminate].
      intros [= <- <-] k r'. simpl.
      destruct (k =? k0); [| eapply IH; eauto].
      intros [= <-]. exists r0. split; [reflexivity | apply keptRoomL_refl].
Qed.

Lemma enterRoom_kept (tl tj : Z) (sid : string) (sock : Sock) (key : string)
      (room : Room) (st st' : State) (out : list Notification) :
  mget key (rooms st) = Some room ->
  enterRoom tl tj sid sock key room st = Some (st', out) ->
  forall k r', mget k (rooms st') = Some r' ->
               exists r, mget k (rooms st) = Some r /\ keptRoomL r r'.
Proof.
  intros Hr. unfold enterRoom. cbv zeta.
  step_opt; [| same_state]. step_get; [| same_state].
  intros [= <- <-] k r'. simpl.
  destruct (leaveOld_rooms _ _ _ _ _ _ Hrun) as [Er _]. rewrite Er.
  rewrite mget_mupd. destruct (String.eqb_spec k key) as [->|Hn].
  - destruct (mget key (leftRooms sid sock (rooms st))); [| discriminate].
    intros [= <-]. exists room. split; [exact Hr |].
    repeat split. simpl. eauto.
  - apply leftRooms_kept.
Qed.

(** No handler rewrites a room that stays registered: its id, name and
    PIN stay, and its history only grows. *)
Lemma handle_keptL (clk : Clock) (e : Event) (st st' : State)
      (out : list Notification) :
  handle clk e st = Some (st', out) ->
  forall k r r', mget k (rooms st) = Some r ->
                 mget k (rooms st') = Some r' -> keptRoomL r r'.
Proof.
  assert (Hfrom : forall rs1,
             (forall k r', mget k rs1 = Some r' ->
                           exists r, mget k (rooms st) = Some r /\ keptRoomL r r') ->
             forall k r r', mget k (rooms st) = Some r ->
                            mget k rs1 = Some r' -> keptRoomL r r').
  { intros rs1 H k r r' E E'. destruct (H k r' E') as (r0 & E0 & K).
    congruence. }
  assert (Hsame : forall k r r', mget k (rooms st) = Some r ->
                                 mget k (rooms st) = Some r' -> keptRoomL r r').
  { intros k r r' E E'. assert (r' = r) by congruence. subst.
    apply keptRoomL_refl. }
  destruct e; simpl.
  - unfold connection. now intros [= <- <-].
  - unfold setInitialUsername. cbv zeta.
    step_get; [| same_state]. step_if; [| same_state].
    now intros [= <- <-].
  - unfold changeUsername. cbv zeta.
    step_get; [| same_state]. step_if; [same_state |].
    step_if; [same_state |]. step_if; [| same_state].
    step_opt; [| same_state]. intros [= <- <-]. simpl.
    apply Hfrom. eapply renameInRooms_kept; eauto.
  - unfold createRoom. cbv zeta.
    step_get; [| same_state]. step_if; [same_state |].
    step_if; [same_state |]. step_if; [same_state |].
    step_opt; [| same_state]. step_get; [| same_state].
    intros [= <- <-] k r r' E. simpl.
    destruct (leaveOld_rooms _ _ _ _ _ _ Hrun) as [Er _]. rewrite Er.
    rewrite mget_mset.
    match goal with
    | |- context [k =? ?key] => destruct (String.eqb_spec k key) as [->|Hn]
    end.
    + match goal with
      | H : mhas _ (rooms st) = false |- _ =>
          unfold mhas in H; rewrite E in H; discriminate
      end.
    + revert E. apply Hfrom. apply leftRooms_kept.
  - unfold joinRoomByPin. cbv zeta.
    step_get; [| same_state]. step_if; [same_state |].
    step_if; [same_state |]. step_get; [| same_state].
    step_if; [same_state |]. intros He. apply Hfrom.
    eapply enterRoom_kept; eauto.
  - unfold switchRoom. cbv zeta.
    step_get; [| same_state]. step_if; [same_state |].
    step_get; [| same_state].
    step_if; [same_state |]. intros He. apply Hfrom.
    eapply enterRoom_kept; eauto.
  - unfold leaveCurrentRoom.
    step_get; [| same_state]. step_if; [| same_state].
    step_opt; [| same_state]. intros [= <- <-]. simpl.
    destruct (leaveOld_rooms _ _ _ _ _ _ Hrun) as [Er _]. rewrite Er.
    apply Hfrom. apply leftRooms_kept.
  - unfold chatMessage, post. cbv zeta.
    step_get; [| same_state]. step_if; [| same_state].
    intros [= <- <-]. simpl. apply Hfrom. apply mupd_keptL.
    intros r0 _. repeat split. simpl. eauto.
  - unfold chatAction, post. cbv zeta.
    step_get; [| same_state]. step_if; [| same_state].
    intros [= <- <-]. simpl. apply Hfrom. apply mupd_keptL.
    intros r0 _. repeat split. simpl. eauto.
  - unfold typing, typingSignal.
    step_get; [| same_state]. step_if; same_state.
  - unfold stopTyping, typingSignal.
    step_get; [| same_state]. step_if; same_state.
  - unfold disconnect. cbv zeta.
    step_get; [| same_state]. simpl rooms. step_if; [| now intros [= <- <-]].
    step_get; [| same_state]. step_get; [| same_state].
    assert (Hm : forall k r',
               mget k (mupd (show "" (currentRoomId s))
                            (fun r => setRoomUsers (sdel sid (room_users r)) r)
                            (rooms st)) = Some r' ->
               exists r, mget k (rooms st) = Some r /\ keptRoomL r r').
    { apply mupd_keptL. intros r0 _. repeat split. exists [].
      simpl. now rewrite app_nil_r. }
    step_if; intros [= <- <-]; simpl; apply Hfrom; [| exact Hm].
    intros k r' E. apply mdel_keptL in E. destruct E as (r1 & E1 & K1).
    destruct (Hm k r1 E1) as (r0 & E0 & K0). exists r0.
    split; [exact E0 | eapply keptRoomL_trans; eauto].
Qed.

End LobbyHistory.

(** ** The registry *)

Module LobbyRegistry.
Import Lobby LobbyFacts.

Lemma registryOk_initial : registryOk (rooms initial).
Proof.
  split; [| split].
  - repeat constructor. intros [].
  - reflexivity.
  - repeat constructor. discriminate.
Qed.

Lemma registryOk_mupd (k : string) (f : Room -> Room) (rs : Map Room) :
  registryOk rs ->
  (forall r, id (f r) = id r /\ pin (f r) = pin r) ->
  registryOk (mupd k f rs).
Proof.
  intros (Hnd & Hg & Hall) Hf.
  split; [now rewrite mkeys_mupd |]. split; [now rewrite mhas_mupd |].
  apply Forall_mupd; [exact Hall |].
  intros v _. simpl. destruct (Hf v) as [-> ->]. auto.
Qed.

Lemma registryOk_leftRooms (sid : string) (sock : Sock) (rs : Map Room) :
  registryOk rs -> registryOk (leftRooms sid sock rs).
Proof.
  intros H. unfold leftRooms. destruct (_ && _); [| exact H].
  apply registryOk_mupd; [exact H |]. intros r. split; reflexivity.
Qed.

Lemma renameInRooms_Forall (P : string * Room -> Prop) (clk : Clock)
      (sid text : string) (socks : Map Sock) (rs : Map Room) :
  (forall k r ev, P (k, r) -> P (k, addHistory ev r)) ->
  Forall P rs ->
  forall i rs' out,
    renameInRooms clk i sid text socks rs = Some (rs', out) -> Forall P rs'.
Proof.
  intros HP. induction rs as [|[k0 r0] rs IH]; simpl; intros Hall i rs' out.
  - now intros [= <- <-].
  - inversion Hall as [|? ? H0 Hrs]; subst.
    destruct (shas sid (room_users r0)).
    + destruct (usernamesOf socks (room_users r0)); [| discriminate].
      destruct (renameInRooms clk (S i) sid text socks rs) as [[rs2 o2]|] eqn:E;
        [| discriminate].
      intros [= <- <-]. constructor; [now apply HP | eapply IH; eauto].
    + destruct (renameInRooms clk (S i) sid text socks rs) as [[rs2 o2]|] eqn:E;
        [| discriminate].
      intros [= <- <-]. constructor; [exact H0 | eapply IH; eauto].
Qed.

Lemma registryOk_created (key : string) (room : Room) (rs : Map Room) :
  registryOk rs ->
  mhas key rs = false -> key <> "" ->
  id room = key -> pin room = Some key ->
  registryOk (mset key room rs).
Proof.
  intros (Hnd & Hg & Hall) Hnew Hne Hid Hpin.
  split; [now apply NoDup_mkeys_mset |].
  split; [rewrite mhas_mset, Hg; apply orb_true_r |].
  apply Forall_mset; [exact Hall |]. simpl.
  destruct (String.eqb_spec key "general") as [->|_]; [congruence | auto].
Qed.

Lemma registryOk_mdel (k : string) (rs : Map Room) :
  registryOk rs -> k <> "general" -> registryOk (mdel k rs).
Proof.
  intros (Hnd & Hg & Hall) Hk.
  split; [now apply NoDup_mkeys_mdel |].
  split; [rewrite mhas_mdel_other; congruence |].
  now apply Forall_mdel.
Qed.

(** Every handler keeps the registry well formed. *)
Lemma registryOk_handle (clk : Clock) (e : Event) (st st' : State)
      (out : list Notification) :
  registryOk (rooms st) ->
  handle clk e st = Some (st', out) ->
  registryOk (rooms st').
Proof.
  intros Hok. destruct e; simpl.
  - unfold connection. now intros [= <- <-].
  - unfold setInitialUsername. cbv zeta.
    step_get; [| same_state]. step_if; [| same_state].
    now intros [= <- <-].
  - unfold changeUsername. cbv zeta.
    step_get; [| same_state]. step_if; [same_state |].
    step_if; [same_state |]. step_if; [| same_state].
    step_opt; [| same_state]. intros [= <- <-]. simpl.
    destruct Hok as (Hnd & Hg & Hall).
    pose proof (renameInRooms_keys _ _ _ _ _ _ _ _ Hrun) as Hk.
    split; [now rewrite Hk |].
    split; [now rewrite (mhas_of_mkeys _ _ _ Hk) |].
    eapply renameInRooms_Forall; [| exact Hall | exact Hrun].
    intros k r ev H. exact H.
  - unfold createRoom. cbv zeta.
    step_get; [| same_state]. step_if; [same_state |].
    step_if; [same_state |]. step_if; [same_state |].
    step_opt; [| same_state]. step_get; [| same_state].
    intros [= <- <-]. simpl.
    destruct (leaveOld_rooms _ _ _ _ _ _ Hrun) as [Er _]. rewrite Er.
    match goal with
    | H : (_ || negb (truthy ?tp)) = false |- _ =>
        apply orb_false_iff in H; destruct H as [_ Htp];
        apply negb_false_iff in Htp; destruct tp as [key|] eqn:Ekey;
        [| discriminate]
    end.
    simpl show in *. simpl in Htp.
    apply negb_true_iff, String.eqb_neq in Htp.
    apply registryOk_created; auto.
    + now apply registryOk_leftRooms.
    + now rewrite leftRooms_mhas.
  - unfold joinRoomByPin, enterRoom. cbv zeta.
    step_get; [| same_state]. step_if; [same_state |].
    step_if; [same_state |]. step_get; [| same_state].
    step_if; [same_state |]. step_opt; [| same_state].
    step_get; [| same_state]. intros [= <- <-]. simpl.
    destruct (leaveOld_rooms _ _ _ _ _ _ Hrun) as [Er _]. rewrite Er.
    destruct (registryOk_leftRooms sid s (rooms st) Hok) as (H1 & H2 & H3).
    split; [now rewrite mkeys_mupd |]. split; [now rewrite mhas_mupd |].
    apply Forall_mupd; [exact H3 |]. intros v Hv _. simpl.
    destruct Hok as (_ & _ & Hall). rewrite Forall_forall in Hall.
    match goal with
    | H : mget (trim roomPin) (rooms st) = Some _ |- _ =>
        exact (Hall _ (mget_In _ _ _ H))
    end.
  - unfold switchRoom, enterRoom. cbv zeta.
    step_get; [| same_state]. step_if; [same_state |].
    step_get; [| same_state].
    step_if; [same_state |]. step_opt; [| same_state].
    step_get; [| same_state]. intros [= <- <-]. simpl.
    destruct (leaveOld_rooms _ _ _ _ _ _ Hrun) as [Er _]. rewrite Er.
    destruct (registryOk_leftRooms sid s (rooms st) Hok) as (H1 & H2 & H3).
    split; [now rewrite mkeys_mupd |]. split; [now rewrite mhas_mupd |].
    apply Forall_mupd; [exact H3 |]. intros v Hv _. simpl.
    destruct Hok as (_ & _ & Hall). rewrite Forall_forall in Hall.
    match goal with
    | H : mget newRoomId (rooms st) = Some _ |- _ =>
        exact (Hall _ (mget_In _ _ _ H))
    end.
  - unfold leaveCurrentRoom.
    step_get; [| same_state]. step_if; [| same_state].
    step_opt; [| same_state]. intros [= <- <-]. simpl.
    destruct (leaveOld_rooms _ _ _ _ _ _ Hrun) as [Er _]. rewrite Er.
    now apply registryOk_leftRooms.
  - unfold chatMessage, post. cbv zeta.
    step_get; [| same_state]. step_if; [| same_state].
    intros [= <- <-]. simpl. apply registryOk_mupd; [exact Hok |].
    intros r. split; reflexivity.
  - unfold chatAction, post. cbv zeta.
    step_get; [| same_state]. step_if; [| same_state].
    intros [= <- <-]. simpl. apply registryOk_mupd; [exact Hok |].
    intros r. split; reflexivity.
  - unfold typing, typingSignal.
    step_get; [| same_state]. step_if; same_state.
  - unfold stopTyping, typingSignal.
    step_get; [| same_state]. step_if; same_state.
  - unfold disconnect. cbv zeta.
    step_get; [| same_state]. simpl rooms. step_if; [| now intros [= <- <-]].
    step_get; [| same_state]. step_get; [| same_state].
    assert (Hm : registryOk
                   (mupd (show "" (currentRoomId s))
                         (fun r => setRoomUsers (sdel sid (room_users r)) r)
                         (rooms st))).
    { apply registryOk_mupd; [exact Hok |]. intros r0. split; reflexivity. }
    step_if; intros [= <- <-]; simpl; [| exact Hm].
    apply registryOk_mdel; [exact Hm |].
    match goal with
    | H : _ && negb (id ?r =? "general") = true |- _ =>
        apply andb_true_iff in H; destruct H as [_ H];
        now apply negb_true_iff, String.eqb_neq in H
    end.
Qed.

Lemma lobbyReachable_registry (st : State) :
  lobbyReachable st -> registryOk (rooms st).
Proof.
  induction 1 as [|st st' clk e out _ IH Hf Hh].
  - apply registryOk_initial.
  - eapply registryOk_handle; eauto.
Qed.

Lemma getRoomList_ids (st : State) :
  registryOk (rooms st) ->
  map rs_id (getRoomList st) = mkeys (rooms st).
Proof.
  intros (_ & _ & Hall). unfold getRoomList, mvalues, mkeys.
  rewrite !map_map. simpl.
  induction Hall as [|[k r] rs (Hid & _) _ IH]; simpl; [reflexivity |].
  simpl in Hid. now rewrite Hid, IH.
Qed.

(** When the keys are distinct, the members of every stored room are live
    sockets. *)
Lemma lobbyInv_membersLive (st : State) :
  lobbyInv st -> NoDup (mkeys (rooms st)) -> membersLive st = true.
Proof.
  intros (Hm & _ & _) Hnd. unfold membersLive.
  apply forallb_forall. intros [k r] Hin. simpl.
  apply forallb_forall. intros i Hi.
  pose proof (mget_of_In k r (rooms st) Hnd Hin) as Hr.
  destruct (proj1 (Hm k r i Hr) Hi) as (s & Hs & _).
  unfold mhas. now rewrite Hs.
Qed.

(** In a state that satisfies the invariants no handler throws, when the
    event is a connection or comes from a live socket. *)
Lemma handle_returnsL (clk : Clock) (e : Event) (st : State) :
  lobbyInv st -> NoDup (mkeys (rooms st)) -> lobbyLive e st ->
  exists st' out, handle clk e st = Some (st', out).
Proof.
  intros Hinv Hnd Hlive.
  pose proof (lobbyInv_membersLive st Hinv Hnd) as Hml.
  destruct e; simpl in *;
    try (destruct (mhas_some _ _ Hlive) as [sock Hs]).
  - unfold connection. eauto.
  - unfold setInitialUsername. rewrite Hs. cbv zeta.
    destruct (_ && _); eauto.
  - unfold changeUsername. rewrite Hs. cbv zeta.
    destruct (trim newUsername =? ""); [eauto |].
    destruct (existsb _ _); [eauto |].
    destruct (truthy (username sock)); [| eauto].
    match goal with
    | |- context [renameInRooms ?c ?i ?s ?t ?so ?rs] =>
        destruct (renameInRooms_live c s t so rs Hml i) as (rs' & o & ->)
    end.
    eauto.
  - unfold createRoom. rewrite Hs. cbv zeta.
    destruct (negb (truthy (username sock))); [eauto |].
    destruct (_ || _); [eauto |].
    destruct (mhas _ (rooms st)); [eauto |].
    destruct (leaveOld_spec (clk 0%nat) sid sock st Hml)
      as (st1 & out1 & -> & _ & Hso & _).
    simpl. rewrite mget_mupd, String.eqb_refl, Hso, Hs. simpl. eauto.
  - unfold joinRoomByPin. rewrite Hs. cbv zeta.
    destruct (negb (truthy (username sock))); [eauto |].
    destruct (trim roomPin =? ""); [eauto |].
    destruct (mget (trim roomPin) (rooms st)) as [room|] eqn:Hr; [| eauto].
    destruct (seq _ _) eqn:Hc; [eauto |]. apply seq_neq in Hc.
    destruct (enterRoom_spec (clk 0%nat) (clk 1%nat) sid sock (trim roomPin)
                room st Hs Hr Hc Hml) as (st' & o & names & -> & _).
    eauto.
  - unfold switchRoom. rewrite Hs. cbv zeta.
    destruct (negb (truthy (username sock))); [eauto |].
    destruct (mget newRoomId (rooms st)) as [room|] eqn:Hr; [| eauto].
    destruct (seq _ _) eqn:Hc; [eauto |]. apply seq_neq in Hc.
    destruct (enterRoom_spec (clk 0%nat) (clk 1%nat) sid sock newRoomId
                room st Hs Hr Hc Hml) as (st' & o & names & -> & _).
    eauto.
  - unfold leaveCurrentRoom. rewrite Hs.
    destruct (_ && _); [| eauto].
    destruct (leaveOld_spec (clk 0%nat) sid sock st Hml)
      as (st1 & out1 & -> & _).
    eauto.
  - unfold chatMessage, post. rewrite Hs. cbv zeta.
    destruct (_ && _); eauto.
  - unfold chatAction, post. rewrite Hs. cbv zeta.
    destruct (_ && _); eauto.
  - unfold typing, typingSignal. rewrite Hs. destruct (_ && _); eauto.
  - unfold stopTyping, typingSignal. rewrite Hs. destruct (_ && _); eauto.
  - unfold disconnect. rewrite Hs. cbv zeta. simpl rooms. simpl sockets.
    destruct (truthy (currentRoomId sock)
              && mhas (show "" (currentRoomId sock)) (rooms st)) eqn:Hcond;
      [| eauto].
    apply andb_true_iff in Hcond. destruct Hcond as [_ Hh].
    destruct (mhas_some _ _ Hh) as [room Hr].
    rewrite mget_mupd, String.eqb_refl, Hr. simpl.
    assert (Hl : forallb (fun i => mhas i (mdel sid (sockets st)))
                         (sdel sid (room_users room)) = true).
    { apply forallb_forall. intros i Hi. apply In_sdel in Hi.
      destruct Hi as [Hi Hne]. rewrite mhas_mdel_other by exact Hne.
      pose proof (membersLive_room st _ room Hml Hr) as Hroom.
      rewrite forallb_forall in Hroom. now apply Hroom. }
    destruct (usernamesOf_live _ _ Hl) as [names ->].
    destruct (_ && _); eauto.
Qed.

(** Every registered room has its entry in the room list, and an entry
    that is marked as needing a PIN shows that PIN as its id. *)
Lemma getRoomList_entry (st : State) (k : string) (r : Room) :
  registryOk (rooms st) ->
  mget k (rooms st) = Some r ->
  In {| rs_id := k; rs_name := name r; rs_hasPin := truthy (pin r) |}
     (getRoomList st).
Proof.
  intros (_ & _ & Hall) H. rewrite Forall_forall in Hall.
  pose proof (mget_In _ _ _ H) as Hin.
  destruct (Hall _ Hin) as (Hid & _). simpl in Hid.
  unfold getRoomList, mvalues. rewrite map_map.
  rewrite <- Hid at 1.
  exact (in_map (fun e => {| rs_id := id (snd e); rs_name := name (snd e);
                              rs_hasPin := truthy (pin (snd e)) |})
                _ _ Hin).
Qed.

Lemma getRoomList_from (st : State) (s : RoomSummary) :
  registryOk (rooms st) ->
  In s (getRoomList st) ->
  exists r, mget (rs_id s) (rooms st) = Some r
            /\ rs_name s = name r
            /\ rs_hasPin s = truthy (pin r)
            /\ pin r = if rs_id s =? "general" then None
                       else Some (rs_id s).
Proof.
  intros (Hnd & _ & Hall) Hin. rewrite Forall_forall in Hall.
  unfold getRoomList, mvalues in Hin. rewrite map_map in Hin.
  apply in_map_iff in Hin. destruct Hin as ([k r] & <- & Hin).
  destruct (Hall _ Hin) as (Hid & _ & Hpin). simpl in *.
  exists r. rewrite Hid.
  split; [now apply mget_of_In |]. auto.
Qed.

End LobbyRegistry.

(** ** Names *)

Module LobbyNames.
Import Lobby LobbyFacts.

Lemma In_renameFirst (sid n : string) (us : list UserEntry) (u : UserEntry) :
  In u (renameFirst sid n us) ->
  In u us \/ u = {| ue_id := sid; ue_username := n |}.
Proof.
  induction us as [|u0 us IH]; simpl; [tauto |].
  destruct (String.eqb_spec (ue_id u0) sid) as [E|Hn]; simpl.
  - intros [<-|H]; [right; now rewrite E | tauto].
  - intros [<-|H]; [tauto |]. destruct (IH H); tauto.
Qed.

Lemma renameFirst_other (sid n : string) (us : list UserEntry) (u : UserEntry) :
  In u us -> ue_id u <> sid -> In u (renameFirst sid n us).
Proof.
  induction us as [|u0 us IH]; simpl; [tauto |].
  intros [<-|H] Hne.
  - destruct (String.eqb_spec (ue_id u0) sid); [contradiction | now left].
  - destruct (ue_id u0 =? sid); right; auto.
Qed.

Lemma renameFirst_self (sid n : string) (us : list UserEntry) :
  (exists u, In u us /\ ue_id u = sid) ->
  In {| ue_id := sid; ue_username := n |} (renameFirst sid n us).
Proof.
  induction us as [|u0 us IH]; simpl; intros (u & Hin & Hid); [contradiction |].
  destruct (String.eqb_spec (ue_id u0) sid) as [E|Hn].
  - left. now rewrite E.
  - right. apply IH. destruct Hin as [<-|Hin]; [contradiction | eauto].
Qed.

Lemma In_removeFirst (sid : string) (us : list UserEntry) (u : UserEntry) :
  In u (removeFirst sid us) -> In u us.
Proof.
  induction us as [|u0 us IH]; simpl; [tauto |].
  destruct (ue_id u0 =? sid); simpl; tauto.
Qed.

Lemma removeFirst_other (sid : string) (us : list UserEntry) (u : UserEntry) :
  In u us -> ue_id u <> sid -> In u (removeFirst sid us).
Proof.
  induction us as [|u0 us IH]; simpl; [tauto |].
  intros [<-|H] Hne.
  - destruct (String.eqb_spec (ue_id u0) sid); [contradiction | now left].
  - destruct (ue_id u0 =? sid); [exact H | right; auto].
Qed.

Lemma leaveOld_spec_users (now : Z) (sid : string) (sock : Sock)
      (st st1 : State) (out1 : list Notification) :
  leaveOld now sid sock st = Some (st1, out1) ->
  users st1 = users st /\ sockets st1 = sockets st.
Proof.
  unfold leaveOld. cbv zeta. step_if; [| now intros [= <- <-]].
  step_get; [| same_state]. step_get; [| same_state].
  now intros [= <- <-].
Qed.

Lemma namesOk_initial : namesOk initial.
Proof. split; [intros u v [] | intros i s n; discriminate]. Qed.

(** A handler that leaves [users] and the name of every socket alone keeps
    the names right. *)
Lemma namesOk_frame (st st' : State) :
  users st' = users st ->
  (forall i s', mget i (sockets st') = Some s' ->
                exists s, mget i (sockets st) = Some s
                          /\ username s' = username s) ->
  namesOk st -> namesOk st'.
Proof.
  intros Eu Hs (H1 & H2). split; rewrite Eu; [exact H1 |].
  intros i s' n E En. destruct (Hs i s' E) as (s & Es & En').
  apply (H2 i s n Es). congruence.
Qed.

Lemma username_kept (sid : string) (sock : Sock) (c : option string)
      (socks : Map Sock) :
  mget sid socks = Some sock ->
  forall i s', mget i (mupd sid (fun _ => {| username := username sock;
                                             currentRoomId := c |}) socks)
               = Some s' ->
               exists s, mget i socks = Some s /\ username s' = username s.
Proof.
  intros Hs i s'. rewrite mget_mupd.
  destruct (String.eqb_spec i sid) as [->|]; [| eauto].
  rewrite Hs. simpl. intros [= <-]. eauto.
Qed.

(** Every handler keeps the names right. *)
Lemma namesOk_handle (clk : Clock) (e : Event) (st st' : State)
      (out : list Notification) :
  namesOk st ->
  handle clk e st = Some (st', out) ->
  namesOk st'.
Proof.
  intros Hok. destruct e; simpl.
  - unfold connection. intros [= <- <-].
    destruct Hok as (H1 & H2). split; [exact H1 |].
    intros i s n. simpl. rewrite mget_mset.
    destruct (i =? sid); [intros [= <-]; discriminate | apply H2].
  - unfold setInitialUsername. cbv zeta.
    destruct (mget sid (sockets st)) as [sock|] eqn:Hs; [| discriminate].
    step_if; [| same_state]. intros [= <- <-].
    match goal with
    | H : negb _ && negb (existsb _ _) = true |- _ =>
        apply andb_true_iff in H; destruct H as [_ Hfree];
        apply negb_true_iff in Hfree
    end.
    assert (Hnew : forall u, In u (users st) ->
                             ue_username u <> trim newUsername).
    { intros u Hin E.
      assert (Ht : existsb (fun u => ue_username u =? trim newUsername)
                           (users st) = true).
      { apply existsb_exists. exists u. split; [exact Hin |].
        now apply String.eqb_eq. }
      congruence. }
    destruct Hok as (H1 & H2). split; simpl.
    + intros u v Hu Hv E. apply in_app_iff in Hu, Hv. simpl in Hu, Hv.
      destruct Hu as [Hu|[<-|[]]], Hv as [Hv|[<-|[]]]; simpl in *.
      * now apply H1.
      * elim (Hnew u Hu). exact E.
      * elim (Hnew v Hv). now rewrite E.
      * reflexivity.
    + intros i s n. rewrite mget_mupd, in_app_iff.
      destruct (String.eqb_spec i sid) as [->|Hi].
      * rewrite Hs. simpl. intros [= <-]. simpl. intros [= <-].
        right. now left.
      * intros E En. left. eapply H2; eauto.
  - unfold changeUsername. cbv zeta.
    destruct (mget sid (sockets st)) as [sock|] eqn:Hs; [| discriminate].
    step_if; [same_state |].
    destruct (existsb _ (users st)) eqn:Htaken; [same_state |].
    destruct (truthy (username sock)) eqn:Hn; [| same_state].
    step_opt; [| same_state]. intros [= <- <-].
    assert (Hfree : forall u, In u (users st) ->
                              ue_username u = trim newUsername ->
                              ue_id u = sid).
    { intros u Hin E.
      destruct (String.eqb_spec (ue_id u) sid) as [Hid|Hid]; [exact Hid |].
      assert (Ht : existsb (fun u => (ue_username u =? trim newUsername)
                                     && negb (ue_id u =? sid))
                           (users st) = true).
      { apply existsb_exists. exists u. split; [exact Hin |].
        apply andb_true_iff. split; [now apply String.eqb_eq |].
        now apply negb_true_iff, String.eqb_neq. }
      congruence. }
    destruct Hok as (H1 & H2). split; simpl.
    + intros u v Hu Hv E.
      apply In_renameFirst in Hu, Hv.
      destruct Hu as [Hu| ->], Hv as [Hv| ->]; simpl in *.
      * now apply H1.
      * now apply Hfree.
      * symmetry. now apply Hfree.
      * reflexivity.
    + intros i s n. rewrite mget_mupd.
      destruct (String.eqb_spec i sid) as [->|Hi].
      * rewrite Hs. simpl. intros [= <-]. simpl. intros [= <-].
        apply renameFirst_self.
        destruct (username sock) as [old|] eqn:Eold; [| discriminate].
        exists {| ue_id := sid; ue_username := old |}.
        split; [eapply H2; eauto | reflexivity].
      * intros E En. apply renameFirst_other; [eapply H2; eauto | exact Hi].
  - unfold createRoom. cbv zeta.
    destruct (mget sid (sockets st)) as [sock|] eqn:Hs; [| discriminate].
    step_if; [same_state |].
    step_if; [same_state |]. step_if; [same_state |].
    step_opt; [| same_state]. step_get; [| same_state].
    intros [= <- <-].
    destruct (leaveOld_spec_users _ _ _ _ _ _ Hrun) as [Eu Es].
    eapply namesOk_frame; [| | exact Hok]; simpl.
    + exact Eu.
    + rewrite Es. now apply username_kept.
  - unfold joinRoomByPin, enterRoom. cbv zeta.
    destruct (mget sid (sockets st)) as [sock|] eqn:Hs; [| discriminate].
    step_if; [same_state |].
    step_if; [same_state |]. step_get; [| same_state].
    step_if; [same_state |]. step_opt; [| same_state].
    step_get; [| same_state]. intros [= <- <-].
    destruct (leaveOld_spec_users _ _ _ _ _ _ Hrun) as [Eu Es].
    eapply namesOk_frame; [| | exact Hok]; simpl.
    + exact Eu.
    + rewrite Es. now apply username_kept.
  - unfold switchRoom, enterRoom. cbv zeta.
    destruct (mget sid (sockets st)) as [sock|] eqn:Hs; [| discriminate].
    step_if; [same_state |].
    step_get; [| same_state].
    step_if; [same_state |]. step_opt; [| same_state].
    step_get; [| same_state]. intros [= <- <-].
    destruct (leaveOld_spec_users _ _ _ _ _ _ Hrun) as [Eu Es].
    eapply namesOk_frame; [| | exact Hok]; simpl.
    + exact Eu.
    + rewrite Es. now apply username_kept.
  - unfold leaveCurrentRoom.
    destruct (mget sid (sockets st)) as [sock|] eqn:Hs; [| discriminate].
    step_if; [| same_state].
    step_opt; [| same_state]. intros [= <- <-].
    destruct (leaveOld_spec_users _ _ _ _ _ _ Hrun) as [Eu Es].
    eapply namesOk_frame; [| | exact Hok]; simpl.
    + exact Eu.
    + rewrite Es. now apply username_kept.
  - unfold chatMessage, post. cbv zeta.
    step_get; [| same_state]. step_if; [| same_state].
    intros [= <- <-]. eapply namesOk_frame; [| | exact Hok]; simpl; eauto.
  - unfold chatAction, post. cbv zeta.
    step_get; [| same_state]. step_if; [| same_state].
    intros [= <- <-]. eapply namesOk_frame; [| | exact Hok]; simpl; eauto.
  - unfold typing, typingSignal.
    step_get; [| same_state]. step_if; same_state.
  - unfold stopTyping, typingSignal.
    step_get; [| same_state]. step_if; same_state.
  - unfold disconnect. cbv zeta.
    destruct (mget sid (sockets st)) as [sock|] eqn:Hs; [| discriminate].
    simpl rooms. simpl sockets. simpl users. simpl sio.
    assert (Hfin : forall rs a,
               namesOk {| users := removeFirst sid (users st); rooms := rs;
                          sockets := mdel sid (sockets st); sio := a |}).
    { intros rs a. destruct Hok as (H1 & H2). split; simpl.
      - intros u v Hu Hv. apply In_removeFirst in Hu, Hv. now apply H1.
      - intros i s n.
        destruct (String.eqb_spec i sid) as [->|Hi].
        + rewrite mget_mdel_same. discriminate.
        + rewrite mget_mdel_other by exact Hi. intros E En.
          apply removeFirst_other; [eapply H2; eauto | exact Hi]. }
    step_if; [| intros [= <- <-]; apply Hfin].
    step_get; [| same_state]. step_get; [| same_state].
    step_if; intros [= <- <-]; apply Hfin.
Qed.

Lemma lobbyReachable_names (st : State) : lobbyReachable st -> namesOk st.
Proof.
  induction 1 as [|st st' clk e out _ IH Hf Hh].
  - apply namesOk_initial.
  - eapply namesOk_handle; eauto.
Qed.

End LobbyNames.

(** ** The transport's room table *)

Module LobbyAdapter.
Import Lobby LobbyFacts AdapterFacts.

Lemma adapterExact_initial : adapterExact initial.
Proof.
  intros i k. simpl. split; [discriminate | intros (s & H & _); discriminate].
Qed.

(** A handler that changes neither the room table nor the current room of
    any socket keeps the table right. *)
Lemma adapterExact_frame (st st' : State) :
  sio st' = sio st ->
  (forall i, option_map currentRoomId (mget i (sockets st'))
             = option_map currentRoomId (mget i (sockets st))) ->
  adapterExact st -> adapterExact st'.
Proof.
  intros Ea Hs Hok i k. rewrite Ea, (Hok i k). specialize (Hs i).
  split; intros (s & E & Ek).
  - rewrite E in Hs. simpl in Hs.
    destruct (mget i (sockets st')) as [s'|]; [| discriminate].
    injection Hs as Hs. exists s'. split; congruence.
  - rewrite E in Hs. simpl in Hs.
    destruct (mget i (sockets st)) as [s'|]; [| discriminate].
    injection Hs as Hs. exists s'. split; congruence.
Qed.

(** The leave block takes the socket out of the room it is in. *)
Lemma leaveOld_adapter (now : Z) (sid : string) (sock : Sock)
      (st st1 : State) (out1 : list Notification) :
  lobbyInv st -> adapterExact st ->
  mget sid (sockets st) = Some sock ->
  leaveOld now sid sock st = Some (st1, out1) ->
  sockets st1 = sockets st
  /\ adapterExactBut sid (sockets st) (sio st1).
Proof.
  intros (_ & Hc & Hk) Hok Hs. unfold leaveOld. cbv zeta.
  destruct (truthy (currentRoomId sock)
            && mhas (show "" (currentRoomId sock)) (rooms st)) eqn:Hcond.
  - step_get; [| same_state]. step_get; [| same_state].
    intros [= <- <-]. simpl. split; [reflexivity |].
    apply andb_true_iff in Hcond. destruct Hcond as [Ht _].
    apply truthy_some in Ht.
    intros i k. rewrite ajoined_aleave, andb_true_iff, (Hok i k). split.
    + intros [(s & E & Ek) Hn]. split; [| eauto].
      intros ->. rewrite Hs in E. injection E as <-.
      rewrite Ht in Ek. injection Ek as <-.
      now rewrite !String.eqb_refl in Hn.
    + intros [Hi H]. split; [exact H |].
      apply String.eqb_neq in Hi. now rewrite Hi.
  - intros [= <- <-]. split; [reflexivity |].
    intros i k. rewrite (Hok i k). split; [| tauto].
    intros (s & E & Ek). split; [| eauto].
    intros ->. rewrite Hs in E. injection E as <-.
    pose proof (Hc sid sock k Hs Ek) as Hh.
    destruct (mhas_some _ _ Hh) as [r Hr].
    destruct (Hk k r Hr) as [Hne _].
    rewrite Ek in Hcond. simpl in Hcond. rewrite Hh in Hcond.
    apply String.eqb_neq in Hne. rewrite Hne in Hcond. discriminate.
Qed.

(** Socket [sid], out of every room, joins [key]. *)
Lemma adapterExact_entered (sid key : string) (uname : option string)
      (socks : Map Sock) (a : Adapter) (st2 : State) :
  adapterExactBut sid socks a ->
  mhas sid socks = true ->
  sio st2 = ajoin sid key a ->
  sockets st2 = mupd sid (fun _ => {| username := uname;
                                      currentRoomId := Some key |}) socks ->
  adapterExact st2.
Proof.
  intros Hbut Hlive Ea Es i k. rewrite Ea, Es, ServerFacts.ajoined_ajoin, mget_mupd.
  destruct (mhas_some _ _ Hlive) as [s0 Hs0].
  rewrite orb_true_iff, (Hbut i k).
  destruct (String.eqb_spec i sid) as [->|Hi].
  - rewrite Hs0, String.eqb_refl. simpl. split.
    + intros [[H _]|H]; [now elim H |].
      apply String.eqb_eq in H. subst. eauto.
    + intros (s & [= <-] & [= ->]). right. apply String.eqb_refl.
  - split.
    + intros [[_ H]|H]; [exact H |].
      apply andb_true_iff in H. destruct H as [H _].
      apply String.eqb_eq in H. congruence.
    + intros H. left. auto.
Qed.

(** Socket [sid], out of every room, stays in the lobby. *)
Lemma adapterExact_lobby (sid : string) (uname : option string)
      (socks : Map Sock) (a : Adapter) (st2 : State) :
  adapterExactBut sid socks a ->
  sio st2 = a ->
  sockets st2 = mupd sid (fun _ => {| username := uname;
                                      currentRoomId := None |}) socks ->
  adapterExact st2.
Proof.
  intros Hbut Ea Es i k. rewrite Ea, Es, mget_mupd, (Hbut i k).
  destruct (String.eqb_spec i sid) as [->|Hi].
  - split; [intros [H _]; now elim H |].
    intros (s & E & Ek). destruct (mget sid socks); [| discriminate].
    injection E as <-. discriminate.
  - tauto.
Qed.

(** Every handler keeps the room table right. *)
Lemma adapterExact_handle (clk : Clock) (e : Event) (st st' : State)
      (out : list Notification) :
  lobbyInv st -> adapterExact st ->
  freshConnection e st ->
  handle clk e st = Some (st', out) ->
  adapterExact st'.
Proof.
  intros Hinv Hok Hfresh. destruct e; simpl in *.
  - unfold connection. intros [= <- <-] i k. simpl.
    rewrite mget_mset, (Hok i k).
    unfold mhas in Hfresh.
    destruct (String.eqb_spec i sid) as [->|Hi]; [| tauto].
    destruct (mget sid (sockets st)); [discriminate |].
    split; intros (s & E & Ek); [discriminate |].
    injection E as <-. discriminate.
  - unfold setInitialUsername. cbv zeta.
    destruct (mget sid (sockets st)) as [sock|] eqn:Hs; [| discriminate].
    step_if; [| same_state]. intros [= <- <-].
    eapply adapterExact_frame; [| | exact Hok]; simpl;
      [reflexivity | now apply current_mupd].
  - unfold changeUsername. cbv zeta.
    destruct (mget sid (sockets st)) as [sock|] eqn:Hs; [| discriminate].
    step_if; [same_state |].
    step_if; [same_state |]. step_if; [| same_state].
    step_opt; [| same_state]. intros [= <- <-].
    eapply adapterExact_frame; [| | exact Hok]; simpl;
      [reflexivity | now apply current_mupd].
  - unfold createRoom. cbv zeta.
    destruct (mget sid (sockets st)) as [sock|] eqn:Hs; [| discriminate].
    step_if; [same_state |].
    step_if; [same_state |]. step_if; [same_state |].
    step_opt; [| same_state]. step_get; [| same_state].
    intros [= <- <-].
    destruct (leaveOld_adapter _ _ _ _ _ _ Hinv Hok Hs Hrun) as [Es Hbut].
    eapply adapterExact_entered; [exact Hbut | | reflexivity |].
    + unfold mhas. now rewrite Hs.
    + simpl. now rewrite Es.
  - unfold joinRoomByPin, enterRoom. cbv zeta.
    destruct (mget sid (sockets st)) as [sock|] eqn:Hs; [| discriminate].
    step_if; [same_state |].
    step_if; [same_state |]. step_get; [| same_state].
    step_if; [same_state |]. step_opt; [| same_state].
    step_get; [| same_state]. intros [= <- <-].
    destruct (leaveOld_adapter _ _ _ _ _ _ Hinv Hok Hs Hrun) as [Es Hbut].
    eapply adapterExact_entered; [exact Hbut | | reflexivity |].
    + unfold mhas. now rewrite Hs.
    + simpl. now rewrite Es.
  - unfold switchRoom, enterRoom. cbv zeta.
    destruct (mget sid (sockets st)) as [sock|] eqn:Hs; [| discriminate].
    step_if; [same_state |].
    step_get; [| same_state].
    step_if; [same_state |]. step_opt; [| same_state].
    step_get; [| same_state]. intros [= <- <-].
    destruct (leaveOld_adapter _ _ _ _ _ _ Hinv Hok Hs Hrun) as [Es Hbut].
    eapply adapterExact_entered; [exact Hbut | | reflexivity |].
    + unfold mhas. now rewrite Hs.
    + simpl. now rewrite Es.
  - unfold leaveCurrentRoom.
    destruct (mget sid (sockets st)) as [sock|] eqn:Hs; [| discriminate].
    step_if; [| same_state].
    step_opt; [| same_state]. intros [= <- <-].
    destruct (leaveOld_adapter _ _ _ _ _ _ Hinv Hok Hs Hrun) as [Es Hbut].
    eapply adapterExact_lobby; [exact Hbut | reflexivity |].
    simpl. now rewrite Es.
  - unfold chatMessage, post. cbv zeta.
    step_get; [| same_state]. step_if; [| same_state].
    intros [= <- <-]. eapply adapterExact_frame; [| | exact Hok]; reflexivity.
  - unfold chatAction, post. cbv zeta.
    step_get; [| same_state]. step_if; [| same_state].
    intros [= <- <-]. eapply adapterExact_frame; [| | exact Hok]; reflexivity.
  - unfold typing, typingSignal.
    step_get; [| same_state]. step_if; same_state.
  - unfold stopTyping, typingSignal.
    step_get; [| same_state]. step_if; same_state.
  - unfold disconnect. cbv zeta.
    destruct (mget sid (sockets st)) as [sock|] eqn:Hs; [| discriminate].
    simpl rooms. simpl sockets. simpl users. simpl sio.
    assert (Hfin : forall us rs,
               adapterExact {| users := us; rooms := rs;
                               sockets := mdel sid (sockets st);
                               sio := aleaveAll sid (sio st) |}).
    { intros us rs i k. simpl.
      rewrite ajoined_aleaveAll, andb_true_iff, (Hok i k).
      destruct (String.eqb_spec i sid) as [->|Hi].
      - rewrite mget_mdel_same. simpl.
        split; [intros [_ H]; discriminate | intros (s & H & _); discriminate].
      - rewrite mget_mdel_other by exact Hi. simpl. tauto. }
    step_if; [| intros [= <- <-]; apply Hfin].
    step_get; [| same_state]. step_get; [| same_state].
    step_if; intros [= <- <-]; apply Hfin.
Qed.

Lemma lobbyReachable_adapter (st : State) :
  lobbyReachable st -> adapterExact st.
Proof.
  induction 1 as [|st st' clk e out Hr IH Hf Hh].
  - apply adapterExact_initial.
  - eapply adapterExact_handle; eauto. now apply lobbyReachable_inv.
Qed.

End LobbyAdapter.

(** ** The loop of 'change username' *)

Module LobbyRename.
Import Lobby LobbyFacts.

(** The loop of 'change username' leaves alone the rooms the socket is not
    a member of. *)
Lemma renameInRooms_none (clk : Clock) (sid text : string) (socks : Map Sock)
      (rs : Map Room) :
  (forall k r, In (k, r) rs -> shas sid (room_users r) = false) ->
  forall i, renameInRooms clk i sid text socks rs = Some (rs, []).
Proof.
  induction rs as [|[k0 r0] rs IH]; simpl; intros H i; [reflexivity |].
  rewrite (H k0 r0 (or_introl eq_refl)).
  rewrite IH; [reflexivity |]. intros k r Hin. apply (H k r). now right.
Qed.

(** When the socket is a member of the room under [k] and of no other, the
    loop appends its entry to that room and speaks to that room. *)
Lemma renameInRooms_one (clk : Clock) (sid text : string) (socks : Map Sock)
      (k : string) (r : Room) (names : list (option string)) (rs : Map Room) :
  NoDup (mkeys rs) ->
  mget k rs = Some r ->
  (forall k' r', In (k', r') rs ->
                 (shas sid (room_users r') = true <-> k' = k)) ->
  usernamesOf socks (room_users r) = Some names ->
  forall i, exists j,
    renameInRooms clk i sid text socks rs
    = Some (mupd k (addHistory {| ev_type := Some TSystem; ev_user := None;
                                  ev_text := text;
                                  ev_timestamp := clk (2 * j)%nat;
                                  ev_room := None |}) rs,
            [(ToRoom k,
              Chat_message {| ev_type := None; ev_user := Some "System";
                              ev_text := text;
                              ev_timestamp := clk (2 * j + 1)%nat;
                              ev_room := Some k |});
             (ToRoom k, Update_user_list names)]).
Proof.
  induction rs as [|[k0 r0] rs IH]; simpl; intros Hnd Hk Hmem Hnames i;
    [discriminate |].
  inversion Hnd as [|? ? Hn0 Hnd']; subst.
  destruct (String.eqb_spec k k0) as [->|Hne].
  - injection Hk as ->.
    rewrite (proj2 (Hmem k0 r (or_introl eq_refl)) eq_refl), Hnames.
    rewrite renameInRooms_none; [exists i; reflexivity |].
    intros k' r' Hin. apply not_true_is_false. intros Ht.
    apply (Hmem k' r' (or_intror Hin)) in Ht. subst k'.
    apply Hn0. change k0 with (fst (k0, r')). now apply in_map.
  - assert (Hs0 : shas sid (room_users r0) = false).
    { apply not_true_is_false. intros Ht.
      apply (Hmem k0 r0 (or_introl eq_refl)) in Ht. congruence. }
    rewrite Hs0.
    destruct (IH Hnd' Hk (fun k' r' Hin => Hmem k' r' (or_intror Hin))
                 Hnames (S i)) as [j ->].
    exists j. reflexivity.
Qed.

End LobbyRename.

(** * Properties *)

(** C1.  The member set of a room in [src/server.js] does not stay equal
    to the names of the sessions whose current room it is.  After a
    session in 'general' claims a second name the set still holds the
    first one; and when one of two sessions that share a name leaves
    'general', the set is empty although the other is still there. *)
Theorem C1_members_differ_from_sessions :
  (exists st, Server.run reclaimInRoom Server.initial = Some st
     /\ Server.getUsersInRoom st "general" = ["alice"]
     /\ Server.namesInRoom st "general" = [Some "bob"])
  /\ (exists st, Server.run sameNameLeaves Server.initial = Some st
        /\ Server.getUsersInRoom st "general" = []
        /\ Server.namesInRoom st "general" = [Some "bob"]).
Proof.
  split; eexists; (split; [vm_compute; reflexivity | split; reflexivity]).
Qed.

(** C2.  In [src/unnamed/part_000] the creator of "1234", its only member,
    leaves it with 'leave current room' (or switches to 'general'): the
    room stays registered, with no member, and is still in the room
    list. *)
Theorem C2_emptied_room_survives_leave :
  (exists st, Lobby.run (lobbyAliceCreates
                         ++ [(at1000, Lobby.On_leave_current_room "s1")])
                        Lobby.initial = Some st
     /\ option_map Lobby.room_users (mget "1234" (Lobby.rooms st)) = Some []
     /\ In {| rs_id := "1234"; rs_name := "Plans"; rs_hasPin := true |}
           (Lobby.getRoomList st))
  /\ (exists st, Lobby.run (lobbyAliceCreates
                            ++ [(at1000, Lobby.On_switch_room "s1" "general")])
                           Lobby.initial = Some st
        /\ option_map Lobby.room_users (mget "1234" (Lobby.rooms st)) = Some []
        /\ In {| rs_id := "1234"; rs_name := "Plans"; rs_hasPin := true |}
              (Lobby.getRoomList st)).
Proof.
  split; eexists;
    (split; [vm_compute; reflexivity
            | split; [reflexivity | right; left; reflexivity]]).
Qed.

(** C3.  In [src/server.js] a session with no name sends 'create room': it
    is told to set its name first, and yet the room has been registered. *)
Theorem C3_rejected_create_registers_room :
  exists st st' out,
    Server.run [(at1000, Server.On_connection "s1")] Server.initial = Some st
    /\ Server.createRoom at1000 "s1" "Plans" "1234" st = Some (st', out)
    /\ In (Server.feedback "s1" "Please set your username first.") out
    /\ mhas "room-1000" (Server.rooms st) = false
    /\ mget "room-1000" (Server.rooms st')
       = Some {| Server.name := "Plans"; Server.pin := Some "1234";
                 Server.history := []; Server.usersInRoom := [] |}.
Proof.
  do 3 eexists.
  split; [vm_compute; reflexivity |].
  split; [vm_compute; reflexivity |].
  split; [right; right; left; reflexivity |].
  split; reflexivity.
Qed.




(** C5 (as stated, refuted).  In [src/server.js] "alice", in 'general',
    sends 'switch room' for the existing room "room-1000", which has a
    PIN: she is told the PIN is incorrect and nothing changes. *)
Lemma C5_switch_rejected_by_pin_check :
  Server.run aliceCreatesPlans Server.initial = Some serverPlans
  /\ mget "s1" (Server.users serverPlans)
  = Some {| Server.username := Some "alice";
            Server.currentRoomId := Some "general" |}
  /\ option_map Server.pin (mget "room-1000" (Server.rooms serverPlans))
     = Some (Some "1234")
  /\ Server.switchRoom at1000 "s1" "room-1000" serverPlans
     = Some (serverPlans,
             [Server.feedback "s1" "Incorrect PIN for this room."]).
Proof. repeat split; reflexivity. Qed.

(** C5 (amended).  For a session that has a name and is not in the target
    room, 'switch room' to an existing room id succeeds in
    [src/unnamed/part_000], which takes no PIN and reads none.  In
    [src/server.js] it runs the PIN test of [joinRoom] with no PIN: it is
    rejected for every room other than 'general' that has a PIN, and
    succeeds for the others. *)
Theorem C5_switch_room_and_the_pin :
  forall (clk : Clock)
         (sid rid : string)
         (stB : Lobby.State) (sock : Lobby.Sock) (roomB : Lobby.Room)
         (sidA ridA : string)
         (stA : Server.State) (u : Server.User) (roomA : Server.Room),
    mget sid (Lobby.sockets stB) = Some sock ->
    truthy (Lobby.username sock) = true ->
    mget rid (Lobby.rooms stB) = Some roomB ->
    Lobby.currentRoomId sock <> Some rid ->
    membersLive stB = true ->
    mget sidA (Server.users stA) = Some u ->
    truthy (Server.username u) = true ->
    mget ridA (Server.rooms stA) = Some roomA ->
    Server.currentRoomId u <> Some ridA ->
    mhas sidA (Server.userSocketRooms stA) = true ->
    (exists st' out,
        Lobby.switchRoom clk sid rid stB = Some (st', out)
        /\ mget sid (Lobby.sockets st')
           = Some {| Lobby.username := Lobby.username sock;
                     Lobby.currentRoomId := Some rid |}
        /\ option_map Lobby.room_users (mget rid (Lobby.rooms st'))
           = Some (sadd sid (Lobby.room_users roomB))
        /\ option_map Lobby.pin (mget rid (Lobby.rooms st'))
           = Some (Lobby.pin roomB))
    /\ (if truthy (Server.pin roomA) && negb (ridA =? GENERAL_ROOM_ID)
        then Server.switchRoom clk sidA ridA stA
             = Some (stA,
                     [Server.feedback sidA "Incorrect PIN for this room."])
        else exists st' out,
            Server.switchRoom clk sidA ridA stA = Some (st', out)
            /\ mget sidA (Server.users st')
               = Some {| Server.username := Server.username u;
                         Server.currentRoomId := Some ridA |}
            /\ option_map Server.usersInRoom (mget ridA (Server.rooms st'))
               = Some (sadd (show "null" (Server.username u))
                            (Server.usersInRoom roomA))).
Proof.
  intros clk sid rid stB sock roomB sidA ridA stA u roomA
         Hs Hn Hr Hcur Hlive Hu HnA HrA HcurA Hc.
  split.
  - destruct (LobbyFacts.enterRoom_spec (clk 0%nat) (clk 1%nat) sid sock rid
                roomB stB Hs Hr Hcur Hlive)
      as (st' & outLeave & names & He & H1 & H2 & _).
    exists st'. eexists. unfold Lobby.switchRoom.
    rewrite Hs, Hn, Hr. simpl negb. cbv iota.
    apply seq_neq in Hcur. rewrite Hcur.
    split; [exact He |]. split; [exact H2 |]. now rewrite H1.
  - rewrite <- ServerFacts.pinGate_no_pin.
    destruct (pinGate roomA None ridA) eqn:Hg.
    + unfold Server.switchRoom, Server.joinRoom.
      rewrite Hu, HnA, HrA. simpl negb. cbv iota.
      unfold pinGate in Hg. now rewrite Hg.
    + destruct (ServerFacts.joinRoom_success (clk 0%nat) (clk 1%nat) sidA ridA
                  None stA u roomA Hu HnA HrA Hg HcurA Hc)
        as (st' & outLeave & Hj & H1 & H2 & _).
      exists st'. eexists. split; [exact Hj |]. split; [exact H2 |].
      now rewrite H1.
Qed.

(** C5 (amended) at work: "bob" switches to "1234" on the one server, and
    "alice" is kept out of "room-1000" on the other. *)
Lemma C5_switch_room_and_the_pin_witness :
  (exists st' out,
      Lobby.switchRoom at1000 "s2" "1234" lobbyBobNamed = Some (st', out)
      /\ mget "s2" (Lobby.sockets st')
         = Some {| Lobby.username := Some "bob";
                   Lobby.currentRoomId := Some "1234" |}
      /\ option_map Lobby.room_users (mget "1234" (Lobby.rooms st'))
         = Some ["s1"; "s2"]
      /\ option_map Lobby.pin (mget "1234" (Lobby.rooms st'))
         = Some (Some "1234"))
  /\ Server.switchRoom at1000 "s1" "room-1000" serverPlans
     = Some (serverPlans,
             [Server.feedback "s1" "Incorrect PIN for this room."]).
Proof.
  apply (C5_switch_room_and_the_pin at1000 "s2" "1234" lobbyBobNamed
           {| Lobby.username := Some "bob"; Lobby.currentRoomId := None |}
           {| Lobby.id := "1234"; Lobby.name := "Plans";
              Lobby.pin := Some "1234";
              Lobby.history :=
                [{| ev_type := Some TSystem; ev_user := None;
                    ev_text := "alice created and joined the room.";
                    ev_timestamp := 1000; ev_room := None |}];
              Lobby.room_users := ["s1"] |}
           "s1" "room-1000" serverPlans
           {| Server.username := Some "alice";
              Server.currentRoomId := Some "general" |}
           {| Server.name := "Plans"; Server.pin := Some "1234";
              Server.history := []; Server.usersInRoom := [] |});
    solve [reflexivity | discriminate].
Defined.

(** C6 (as stated, refuted).  In [src/unnamed/part_000] two successful
    'create room' transitions generate the same id "1234": the room of
    the first was deleted when its creator disconnected. *)
Lemma C6_same_id_created_twice :
  exists st1 st2 out2 st3 st4 out4,
    Lobby.run (firstn 2 lobbyAliceCreates) Lobby.initial = Some st1
    /\ Lobby.createRoom at1000 "s1" "Plans" (Some "1234") st1
       = Some (st2, out2)
    /\ newKeys (Lobby.rooms st1) (Lobby.rooms st2) = ["1234"]
    /\ Lobby.run [(at1000, Lobby.On_disconnect "s1");
                  (at1000, Lobby.On_connection "s2");
                  (at1000, Lobby.On_set_initial_username "s2" "bob")] st2
       = Some st3
    /\ Lobby.createRoom at1000 "s2" "Other" (Some "1234") st3
       = Some (st4, out4)
    /\ newKeys (Lobby.rooms st3) (Lobby.rooms st4) = ["1234"].
Proof.
  do 6 eexists.
  split; [vm_compute; reflexivity |].
  split; [vm_compute; reflexivity |].
  split; [reflexivity |].
  split; [vm_compute; reflexivity |].
  split; [vm_compute; reflexivity | reflexivity].
Qed.

(** C6 (amended).  A 'create room' whose id is already a key of [rooms] is
    rejected and changes nothing; otherwise the room is registered under
    that id, after the rooms that were there, so the id of a successful
    creation differs from every id present at that time.  The id is
    [room-<Date.now()>] in [src/server.js] and the trimmed PIN in
    [src/unnamed/part_000]. *)
Theorem C6_created_id_not_present :
  forall (clk : Clock) (sid nm p : string)
         (stA : Server.State) (stB : Lobby.State) (sock : Lobby.Sock),
    trim nm <> "" -> trim p <> "" ->
    mget sid (Lobby.sockets stB) = Some sock ->
    truthy (Lobby.username sock) = true ->
    membersLive stB = true ->
    (if mhas (tpl ["room-"; showZ (clk 0%nat)]) (Server.rooms stA)
     then Server.createRoom clk sid nm p stA
          = Some (stA, [Server.feedback sid
                          "Failed to create room: Room ID already exists."])
     else exists st' out,
         Server.createRoom clk sid nm p stA = Some (st', out)
         /\ Server.rooms st'
            = mset (tpl ["room-"; showZ (clk 0%nat)])
                   {| Server.name := trim nm; Server.pin := Some (trim p);
                      Server.history := []; Server.usersInRoom := [] |}
                   (Server.rooms stA)
         /\ mkeys (Server.rooms st')
            = mkeys (Server.rooms stA) ++ [tpl ["room-"; showZ (clk 0%nat)]])
    /\ (if mhas (trim p) (Lobby.rooms stB)
        then Lobby.createRoom clk sid nm (Some p) stB
             = Some (stB, [Lobby.feedback sid
                             (tpl ["Room with PIN "; dquote; trim p; dquote;
                                   " already exists."])])
        else exists st' out,
            Lobby.createRoom clk sid nm (Some p) stB = Some (st', out)
            /\ mkeys (Lobby.rooms st') = mkeys (Lobby.rooms stB) ++ [trim p]).
Proof.
  intros clk sid nm p stA stB sock Hnm Hp Hs Hn Hlive. split.
  - apply ServerFacts.createRoom_cases; assumption.
  - destruct (mhas (trim p) (Lobby.rooms stB)) eqn:Hh.
    + pose proof (trim_nonempty p Hp) as Hpe. simpl in Hpe.
      apply String.eqb_neq in Hnm, Hp.
      unfold Lobby.createRoom. rewrite Hs, Hn. simpl.
      rewrite Hpe. simpl. rewrite Hnm, Hp. simpl. now rewrite Hh.
    + destruct (LobbyFacts.createRoom_registers clk sid nm p sock stB
                  Hs Hn Hlive Hnm Hp Hh) as (st' & out & ev & H1 & H2 & _).
      eauto.
Qed.

(** C6 (amended) at work: "alice" creates "Plans" on either server. *)
Lemma C6_created_id_not_present_witness :
  (exists st' out,
      Server.createRoom at1000 "s1" "Plans" "1234" serverNamed
      = Some (st', out)
      /\ Server.rooms st'
         = mset "room-1000"
                {| Server.name := "Plans"; Server.pin := Some "1234";
                   Server.history := []; Server.usersInRoom := [] |}
                (Server.rooms serverNamed)
      /\ mkeys (Server.rooms st') = ["general"; "room-1000"])
  /\ (exists st' out,
         Lobby.createRoom at1000 "s1" "Plans" (Some "1234") lobbyNamed
         = Some (st', out)
         /\ mkeys (Lobby.rooms st') = ["general"; "1234"]).
Proof.
  apply (C6_created_id_not_present at1000 "s1" "Plans" "1234" serverNamed
           lobbyNamed {| Lobby.username := Some "alice";
                         Lobby.currentRoomId := None |});
    solve [reflexivity | vm_compute; discriminate].
Defined.

(** C7 (as stated, refuted).  In [src/server.js] a session that has no
    name sends 'change username' "bob": the name is set and acknowledged.
    In [src/unnamed/part_000] "alice" changes her name to "alice": the
    change is acknowledged. *)
Lemma C7_rename_unnamed_or_to_same_name :
  (exists st,
      Server.run [(at1000, Server.On_connection "s1")] Server.initial = Some st
      /\ option_map Server.username (mget "s1" (Server.users st)) = Some None
      /\ exists st',
          Server.changeUsername at1000 "s1" "bob" st
          = Some (st', [(ToSocket "s1", Server.Username_updated "bob")])
          /\ option_map Server.username (mget "s1" (Server.users st'))
             = Some (Some "bob"))
  /\ Lobby.run (firstn 2 lobbyAliceCreates) Lobby.initial = Some lobbyNamed
  /\ option_map Lobby.username (mget "s1" (Lobby.sockets lobbyNamed))
     = Some (Some "alice")
  /\ Lobby.changeUsername at1000 "s1" "alice" lobbyNamed
     = Some (lobbyNamed, [(ToSocket "s1", Lobby.Username_updated "alice")]).
Proof.
  split.
  - eexists. split; [vm_compute; reflexivity |]. split; [reflexivity |].
    eexists. split; [vm_compute; reflexivity | reflexivity].
  - repeat split; reflexivity.
Qed.

(** C7 (amended).  'change username' trims its input.  In
    [src/server.js] it fails with "cannot be empty" when the trimmed name
    is empty, with "already your username" when it is the session's
    current name, with "already taken" when some session that occupies a
    room holds it, and otherwise sets the session's name, also for a
    session that had none.  In [src/unnamed/part_000] it fails with
    "cannot be empty" when the trimmed name is empty, else with "already
    taken" when an entry of another socket holds it, else with "set an
    initial username first" when the socket has no name, and otherwise
    sets the socket's name, also when it is the current one. *)
Theorem C7_rename_outcomes :
  forall (clk : Clock) (sid raw : string)
         (stA : Server.State) (u : Server.User)
         (stB : Lobby.State) (sock : Lobby.Sock),
    mget sid (Server.users stA) = Some u ->
    mget sid (Lobby.sockets stB) = Some sock ->
    membersLive stB = true ->
    (trim raw = "" ->
     Server.changeUsername clk sid raw stA
     = Some (stA, [Server.feedback sid "New username cannot be empty."]))
    /\ (trim raw <> "" -> Server.username u = Some (trim raw) ->
        Server.changeUsername clk sid raw stA
        = Some (stA, [Server.feedback sid "That is already your username."]))
    /\ (trim raw <> "" -> Server.username u <> Some (trim raw) ->
        heldInRoom stA (trim raw) ->
        Server.changeUsername clk sid raw stA
        = Some (stA,
                [Server.feedback sid
                   (tpl ["Username '"; trim raw;
                         "' is already taken. Please choose another."])]))
    /\ (trim raw <> "" -> Server.username u <> Some (trim raw) ->
        ~ heldInRoom stA (trim raw) ->
        exists st' out,
          Server.changeUsername clk sid raw stA
          = Some (st', (ToSocket sid, Server.Username_updated (trim raw))
                         :: out)
          /\ mget sid (Server.users st')
             = Some {| Server.username := Some (trim raw);
                       Server.currentRoomId := Server.currentRoomId u |})
    /\ (trim raw = "" ->
        Lobby.changeUsername clk sid raw stB
        = Some (stB, [Lobby.feedback sid "Username cannot be empty."]))
    /\ (trim raw <> "" -> heldByOther stB sid (trim raw) ->
        Lobby.changeUsername clk sid raw stB
        = Some (stB,
                [Lobby.feedback sid
                   (tpl ["Username "; dquote; trim raw; dquote;
                         " is already taken."])]))
    /\ (trim raw <> "" -> ~ heldByOther stB sid (trim raw) ->
        truthy (Lobby.username sock) = false ->
        Lobby.changeUsername clk sid raw stB
        = Some (stB, [Lobby.feedback sid
                        "You must set an initial username first."]))
    /\ (trim raw <> "" -> ~ heldByOther stB sid (trim raw) ->
        truthy (Lobby.username sock) = true ->
        exists st' out,
          Lobby.changeUsername clk sid raw stB
          = Some (st', out ++ [(ToSocket sid,
                                Lobby.Username_updated (trim raw))])
          /\ mget sid (Lobby.sockets st')
             = Some {| Lobby.username := Some (trim raw);
                       Lobby.currentRoomId := Lobby.currentRoomId sock |}).
Proof.
  intros clk sid raw stA u stB sock Hu Hs Hlive.
  repeat match goal with |- _ /\ _ => split end.
  - intros E. unfold Server.changeUsername. now rewrite E.
  - intros E Hsame. unfold Server.changeUsername.
    apply String.eqb_neq in E. rewrite E, Hu, Hsame.
    simpl. now rewrite String.eqb_refl.
  - intros E Hdiff Hh. unfold Server.changeUsername.
    apply String.eqb_neq in E. rewrite E, Hu.
    assert (Hd : seq (Some (trim raw)) (Server.username u) = false)
      by (apply seq_neq; congruence).
    rewrite Hd.
    apply (ServerFacts.renameTaken_heldInRoom stA (trim raw)
             (Server.username u) Hdiff) in Hh.
    now rewrite Hh.
  - intros E Hdiff Hh. unfold Server.changeUsername.
    apply String.eqb_neq in E. rewrite E, Hu.
    assert (Hd : seq (Some (trim raw)) (Server.username u) = false)
      by (apply seq_neq; congruence).
    rewrite Hd.
    rewrite <- (ServerFacts.renameTaken_heldInRoom stA (trim raw)
                  (Server.username u) Hdiff) in Hh.
    apply not_true_is_false in Hh. rewrite Hh.
    destruct (truthy (Server.currentRoomId u));
      [destruct (mget (show "" (Server.currentRoomId u))
                      (Server.rooms (Server.setUsers stA _))) |];
      eexists _, _; (split; [reflexivity |]); simpl;
      now rewrite mget_mset, String.eqb_refl.
  - intros E. unfold Lobby.changeUsername. now rewrite Hs, E.
  - intros E Hh. unfold Lobby.changeUsername.
    apply String.eqb_neq in E. rewrite Hs, E.
    apply LobbyFacts.renameTaken_heldByOther in Hh. now rewrite Hh.
  - intros E Hh Hn. unfold Lobby.changeUsername.
    apply String.eqb_neq in E. rewrite Hs, E.
    rewrite <- LobbyFacts.renameTaken_heldByOther in Hh.
    apply not_true_is_false in Hh. now rewrite Hh, Hn.
  - intros E Hh Hn. unfold Lobby.changeUsername.
    apply String.eqb_neq in E. rewrite Hs, E.
    rewrite <- LobbyFacts.renameTaken_heldByOther in Hh.
    apply not_true_is_false in Hh. rewrite Hh, Hn.
    match goal with
    | |- context [Lobby.renameInRooms ?c ?i ?s ?t ?so ?rs] =>
        destruct (LobbyFacts.renameInRooms_live c s t so rs Hlive i)
          as (rs' & out & ->)
    end.
    eexists _, _. split; [reflexivity |]. simpl.
    now rewrite mget_mupd, String.eqb_refl, Hs.
Qed.

(** C7 (amended) at work: "alice", in 'general', becomes "carol". *)
Lemma C7_rename_outcomes_witness :
  exists st' out,
    Server.changeUsername at1000 "s1" " carol " serverNamed
    = Some (st', (ToSocket "s1", Server.Username_updated "carol") :: out)
    /\ mget "s1" (Server.users st')
       = Some {| Server.username := Some "carol";
                 Server.currentRoomId := Some "general" |}.
Proof.
  refine (proj1 (proj2 (proj2 (proj2
            (C7_rename_outcomes at1000 "s1" " carol " serverNamed
               {| Server.username := Some "alice";
                  Server.currentRoomId := Some "general" |}
               lobbyNamed
               {| Lobby.username := Some "alice";
                  Lobby.currentRoomId := None |}
               eq_refl eq_refl eq_refl)))) _ _ _).
  - vm_compute. discriminate.
  - vm_compute. discriminate.
  - intros (u & Hin & Hn & _). vm_compute in Hin.
    destruct Hin as [<-|[]]. vm_compute in Hn. discriminate.
Defined.

(** C8 (as stated, refuted).  In [src/unnamed/part_000] the id of a
    created room is its PIN, so the room list shows the secret of "Plans"
    in the id field. *)
Lemma C8_room_list_carries_pin :
  exists st,
    Lobby.run lobbyAliceCreates Lobby.initial = Some st
    /\ Lobby.getRoomList st
       = [{| rs_id := "general"; rs_name := "General"; rs_hasPin := false |};
          {| rs_id := "1234"; rs_name := "Plans"; rs_hasPin := true |}]
    /\ option_map Lobby.pin (mget "1234" (Lobby.rooms st))
       = Some (Some "1234").
Proof.
  eexists. split; [vm_compute; reflexivity | split; reflexivity].
Qed.

(** C8 (amended).  The room list has one entry for each registered room,
    in the order of the registry, made of the id, the name and a boolean.
    In [src/server.js] the entries do not depend on what the PINs are,
    only on which rooms have one.  In [src/unnamed/part_000] the same
    holds of the names and of the booleans, but the id of a created room
    is its trimmed PIN: every entry that is marked as needing a PIN shows
    that PIN in its id field. *)
Theorem C8_room_list_fields :
  forall (stA stA' : Server.State) (stB stB' stC : Lobby.State)
         (clk : Clock) (sid nm p : string) (sock : Lobby.Sock),
    sameListing (Server.rooms stA) (Server.rooms stA') ->
    lobbyReachable stB ->
    lobbyReachable stB' ->
    sameNamesL (Lobby.rooms stB) (Lobby.rooms stB') ->
    mget sid (Lobby.sockets stC) = Some sock ->
    truthy (Lobby.username sock) = true ->
    membersLive stC = true ->
    trim nm <> "" -> trim p <> "" ->
    mhas (trim p) (Lobby.rooms stC) = false ->
    Server.roomList stA = Server.roomList stA'
    /\ map rs_id (Server.roomList stA) = mkeys (Server.rooms stA)
    /\ (forall k r,
           mget k (Server.rooms stA) = Some r ->
           In {| rs_id := k; rs_name := Server.name r;
                 rs_hasPin := notNull (Server.pin r) |}
              (Server.roomList stA))
    /\ map rs_id (Lobby.getRoomList stB) = mkeys (Lobby.rooms stB)
    /\ (forall k r,
           mget k (Lobby.rooms stB) = Some r ->
           In {| rs_id := k; rs_name := Lobby.name r;
                 rs_hasPin := truthy (Lobby.pin r) |}
              (Lobby.getRoomList stB))
    /\ map rs_name (Lobby.getRoomList stB)
       = map rs_name (Lobby.getRoomList stB')
    /\ map rs_hasPin (Lobby.getRoomList stB)
       = map rs_hasPin (Lobby.getRoomList stB')
    /\ (forall s,
           In s (Lobby.getRoomList stB) ->
           rs_hasPin s = true ->
           option_map Lobby.pin (mget (rs_id s) (Lobby.rooms stB))
           = Some (Some (rs_id s)))
    /\ exists st' out,
        Lobby.createRoom clk sid nm (Some p) stC = Some (st', out)
        /\ option_map Lobby.pin (mget (trim p) (Lobby.rooms st'))
           = Some (Some (trim p))
        /\ In {| rs_id := trim p; rs_name := trim nm; rs_hasPin := true |}
              (Lobby.getRoomList st').
Proof.
  intros stA stA' stB stB' stC clk sid nm p sock
         HA HrB HrB' HB Hs Hn Hlive Hnm Hp Hnew.
  pose proof (LobbyRegistry.lobbyReachable_registry stB HrB) as Hreg.
  split; [| split; [| split; [| split; [| split; [| split;
    [| split; [| split]]]]]]].
  - unfold Server.roomList. induction HA as [|e1 e2 l1 l2 (E1 & E2 & E3) _ IH];
      simpl; [reflexivity |]. now rewrite E1, E2, E3, IH.
  - apply ServerRuns.roomList_ids.
  - intros k r. apply ServerRuns.roomList_entry.
  - now apply LobbyRegistry.getRoomList_ids.
  - intros k r. now apply LobbyRegistry.getRoomList_entry.
  - clear Hreg. unfold Lobby.getRoomList, mvalues. rewrite !map_map. simpl.
    induction HB as [|e1 e2 l1 l2 (E1 & _) _ IH];
      simpl; [reflexivity |]. now rewrite E1, IH.
  - clear Hreg. unfold Lobby.getRoomList, mvalues. rewrite !map_map. simpl.
    induction HB as [|e1 e2 l1 l2 (_ & E2) _ IH];
      simpl; [reflexivity |]. now rewrite E2, IH.
  - intros s Hin Hpin.
    destruct (LobbyRegistry.getRoomList_from stB s Hreg Hin)
      as (r & Hr & _ & Hb & Hp').
    rewrite Hr. simpl. rewrite Hp'. rewrite Hb, Hp' in Hpin.
    destruct (rs_id s =? "general"); [discriminate | reflexivity].
  - destruct (LobbyFacts.createRoom_registers clk sid nm p sock stC
                Hs Hn Hlive Hnm Hp Hnew) as (st' & out & ev & H1 & _ & H3 & H4).
    exists st', out. split; [exact H1 |]. split; [now rewrite H3 |].
    unfold Lobby.getRoomList.
    apply (in_map (fun room => {| rs_id := Lobby.id room;
                                  rs_name := Lobby.name room;
                                  rs_hasPin := truthy (Lobby.pin room) |}))
      in H4.
    simpl in H4. apply String.eqb_neq in Hp. rewrite Hp in H4. exact H4.
Qed.

(** C8 (amended) at work: another PIN on "Plans" gives the same list in
    [src/server.js]; in [src/unnamed/part_000] it gives the same names
    and booleans under another id, "5678" for "1234", and the room "bob"
    creates is listed under its PIN. *)
Lemma C8_room_list_fields_witness :
  map rs_id (Lobby.getRoomList lobbyPlansOther) = ["general"; "5678"]
  /\ Server.roomList serverPlans = Server.roomList serverPlansRepinned
  /\ map rs_id (Server.roomList serverPlans) = ["general"; "room-1000"]
  /\ (forall k r,
         mget k (Server.rooms serverPlans) = Some r ->
         In {| rs_id := k; rs_name := Server.name r;
               rs_hasPin := notNull (Server.pin r) |}
            (Server.roomList serverPlans))
  /\ map rs_id (Lobby.getRoomList lobbyPlans) = ["general"; "1234"]
  /\ (forall k r,
         mget k (Lobby.rooms lobbyPlans) = Some r ->
         In {| rs_id := k; rs_name := Lobby.name r;
               rs_hasPin := truthy (Lobby.pin r) |}
            (Lobby.getRoomList lobbyPlans))
  /\ map rs_name (Lobby.getRoomList lobbyPlans)
     = map rs_name (Lobby.getRoomList lobbyPlansOther)
  /\ map rs_hasPin (Lobby.getRoomList lobbyPlans)
     = map rs_hasPin (Lobby.getRoomList lobbyPlansOther)
  /\ (forall s,
         In s (Lobby.getRoomList lobbyPlans) ->
         rs_hasPin s = true ->
         option_map Lobby.pin (mget (rs_id s) (Lobby.rooms lobbyPlans))
         = Some (Some (rs_id s)))
  /\ exists st' out,
      Lobby.createRoom at1000 "s2" "Other" (Some "5678") lobbyBobNamed
      = Some (st', out)
      /\ option_map Lobby.pin (mget "5678" (Lobby.rooms st'))
         = Some (Some "5678")
      /\ In {| rs_id := "5678"; rs_name := "Other"; rs_hasPin := true |}
            (Lobby.getRoomList st').
Proof.
  split; [reflexivity |].
  apply (C8_room_list_fields serverPlans serverPlansRepinned
           lobbyPlans lobbyPlansOther lobbyBobNamed at1000 "s2" "Other" "5678"
           {| Lobby.username := Some "bob"; Lobby.currentRoomId := None |}).
  - repeat constructor.
  - apply (LobbyFacts.lobby_run_reachable lobbyAliceCreates
             Lobby.initial lobbyPlans lobby_initial); reflexivity.
  - apply (LobbyFacts.lobby_run_reachable lobbyAliceCreatesOther
             Lobby.initial lobbyPlansOther lobby_initial); reflexivity.
  - repeat constructor.
  - reflexivity.
  - reflexivity.
  - reflexivity.
  - vm_compute. discriminate.
  - vm_compute. discriminate.
  - reflexivity.
Defined.

(** C9.  In [src/unnamed/part_000] "alice", in room "1234", posts a message
    whose payload names the room "general": the entry goes to the history
    of "1234", her current room, but the broadcast goes to 'general', so
    that "bob" there receives it and "alice" herself does not. *)
Theorem C9_message_broadcast_to_named_room :
  exists st st' ev,
    Lobby.run lobbyTwoRooms Lobby.initial = Some st
    /\ Lobby.chatMessage "s1" "general" "hi" 7 st
       = Some (st', [(ToRoom "general", Lobby.Chat_message ev)])
    /\ ev_user ev = Some "alice" /\ ev_timestamp ev = 7%Z
    /\ option_map Lobby.currentRoomId (mget "s1" (Lobby.sockets st))
       = Some (Some "1234")
    /\ option_map (fun r => last (Lobby.history r) ev)
                  (mget "1234" (Lobby.rooms st')) = Some ev
    /\ mget "general" (Lobby.rooms st') = mget "general" (Lobby.rooms st)
    /\ recipients (mkeys (Lobby.sockets st')) (Lobby.sio st')
                  (ToRoom "general") = ["s2"].
Proof.
  do 3 eexists.
  split; [vm_compute; reflexivity |].
  split; [vm_compute; reflexivity |].
  repeat split; reflexivity.
Qed.

(** C10 (as stated, refuted).  In [src/unnamed/part_000] "bob" joins
    "1234", where "alice" is: the handler sends the room state to "bob",
    with his join entry last in the history, and the user list to the
    room, and nothing else; "alice" is not sent the join entry. *)
Lemma C10_join_entry_not_broadcast :
  Lobby.run lobbyBobArrives Lobby.initial = Some lobbyBobNamed
  /\ option_map Lobby.room_users (mget "1234" (Lobby.rooms lobbyBobNamed))
     = Some ["s1"]
  /\ exists st' info,
      Lobby.joinRoomByPin at1000 "s2" "1234" lobbyBobNamed
      = Some (st', [(ToSocket "s2", Lobby.Room_joined_success info);
                    (ToRoom "1234",
                     Lobby.Update_user_list [Some "alice"; Some "bob"])])
      /\ last (Lobby.j_history info) (joinEntryL None 0)
         = joinEntryL (Some "bob") 1000.
Proof.
  split; [reflexivity |]. split; [reflexivity |].
  eexists _, _. split; [vm_compute; reflexivity | reflexivity].
Qed.

(** C10 (amended).  On every successful join the join entry is appended
    to the room's history before the room state is sent, so the history
    sent to the joining connection ends with its own join entry.  In
    [src/server.js] the same entry is then sent once, to the room except
    the joiner, and the notifications of the nested leave do not carry
    it; in a reachable state the transport delivers it to every other
    session whose current room that is, and not to the joiner.  In
    [src/unnamed/part_000] ('switch room', and 'join room by pin', which
    does the same on the trimmed PIN) the entry is not broadcast: after
    the room state only the user list is sent. *)
Theorem C10_join_entry_in_snapshot :
  forall (tl tj : Z) (sidA ridA : string) (pinArg : option string)
         (stA : Server.State) (u : Server.User) (roomA : Server.Room)
         (clk : Clock) (sid raw : string)
         (stB : Lobby.State) (sock : Lobby.Sock) (roomB : Lobby.Room),
    serverReachable stA ->
    mget sidA (Server.users stA) = Some u ->
    truthy (Server.username u) = true ->
    mget ridA (Server.rooms stA) = Some roomA ->
    pinGate roomA pinArg ridA = false ->
    Server.currentRoomId u <> Some ridA ->
    mhas sidA (Server.userSocketRooms stA) = true ->
    mget sid (Lobby.sockets stB) = Some sock ->
    truthy (Lobby.username sock) = true ->
    trim raw <> "" ->
    mget (trim raw) (Lobby.rooms stB) = Some roomB ->
    Lobby.currentRoomId sock <> Some (trim raw) ->
    membersLive stB = true ->
    (exists st' outLeave info names,
        Server.joinRoom tl tj sidA ridA pinArg stA
        = Some (st',
                outLeave
                ++ [(ToSocket sidA, Server.Room_joined_success info);
                    (ToRoomExcept ridA sidA,
                     Server.Chat_message
                       (joinEntry (Server.username u) ridA tj));
                    (ToRoom ridA, Server.Update_user_list ridA names)])
        /\ Server.j_history info
           = Server.history roomA ++ [joinEntry (Server.username u) ridA tj]
        /\ option_map Server.history (mget ridA (Server.rooms st'))
           = Some (Server.j_history info)
        /\ (forall t ev, In (t, Server.Chat_message ev) outLeave ->
                         ev <> joinEntry (Server.username u) ridA tj)
        /\ (forall conns i v,
               i <> sidA ->
               mget i (Server.users stA) = Some v ->
               Server.currentRoomId v = Some ridA ->
               mget i (Server.users st') = Some v
               /\ In i (recipients conns (Server.sio st')
                                   (ToRoomExcept ridA sidA)))
        /\ (forall conns,
               ~ In sidA (recipients conns (Server.sio st')
                                     (ToRoomExcept ridA sidA))))
    /\ (exists st' outLeave info names,
          Lobby.switchRoom clk sid (trim raw) stB
          = Some (st',
                  outLeave
                  ++ [(ToSocket sid, Lobby.Room_joined_success info);
                      (ToRoom (trim raw), Lobby.Update_user_list names)])
          /\ Lobby.j_history info
             = Lobby.history roomB
               ++ [joinEntryL (Lobby.username sock) (clk 1%nat)]
          /\ option_map Lobby.history (mget (trim raw) (Lobby.rooms st'))
             = Some (Lobby.j_history info)
          /\ (forall t ev, In (t, Lobby.Chat_message ev) outLeave ->
                           ev <> joinEntryL (Lobby.username sock) (clk 1%nat)))
    /\ Lobby.joinRoomByPin clk sid raw stB
       = Lobby.switchRoom clk sid (trim raw) stB.
Proof.
  intros tl tj sidA ridA pinArg stA u roomA clk sid raw stB sock roomB
         HrA' Hu HnA HrA Hg HcurA Hc Hs Hn Hraw Hr Hcur Hlive.
  split; [| split].
  - destruct (ServerFacts.joinRoom_success tl tj sidA ridA pinArg stA u roomA
                Hu HnA HrA Hg HcurA Hc)
      as (st' & outLeave & Hj & H1 & _ & H3 & _).
    pose proof (ServerFacts.joinRoom_adapter _ _ _ _ _ _ _ _ Hj
                  (ServerFacts.serverReachable_adapter stA HrA')) as Hok.
    eexists st', outLeave, _, _. split; [exact Hj |]. simpl.
    split; [reflexivity |]. split; [now rewrite H1 |].
    split; [intros t ev Hin E; apply H3 in Hin; subst ev; now apply Hin |].
    split.
    + intros conns i v Hi Hv Hcv.
      assert (Hv' : mget i (Server.users st') = Some v)
        by (rewrite <- Hv; eapply ServerRuns.joinRoom_others; eauto).
      split; [exact Hv' |].
      apply (proj2 (AdapterFacts.In_recipients_except
                      conns (Server.sio st') ridA sidA i)).
      split; [exact Hi |]. exact (Hok i v ridA Hv' Hcv).
    + intros conns H.
      apply (proj1 (AdapterFacts.In_recipients_except
                      conns (Server.sio st') ridA sidA sidA)) in H.
      destruct H as [H _]. now apply H.
  - destruct (LobbyFacts.enterRoom_spec (clk 0%nat) (clk 1%nat) sid sock
                (trim raw) roomB stB Hs Hr Hcur Hlive)
      as (st' & outLeave & names & He & H1 & _ & H3).
    eexists st', outLeave, _, names. unfold Lobby.switchRoom.
    rewrite Hs, Hn, Hr. simpl negb. cbv iota.
    pose proof Hcur as Hcur'. apply seq_neq in Hcur'. rewrite Hcur'.
    split; [exact He |]. simpl. split; [reflexivity |].
    split; [now rewrite H1 |].
    intros t ev Hin E. apply H3 in Hin. subst ev. discriminate.
  - unfold Lobby.joinRoomByPin, Lobby.switchRoom.
    rewrite Hs, Hn, Hr. simpl negb. cbv iota.
    apply String.eqb_neq in Hraw. now rewrite Hraw.
Qed.

(** C10 (amended) at work: "bob" joins 'general', where "alice" is, and
    "alice" is among the sockets his join entry is delivered to. *)
Lemma C10_join_entry_in_snapshot_witness :
  (exists st' outLeave info names,
      Server.joinRoom 1000 1001 "s2" "general" None serverBobNamed
      = Some (st',
              outLeave
              ++ [(ToSocket "s2", Server.Room_joined_success info);
                  (ToRoomExcept "general" "s2",
                   Server.Chat_message (joinEntry (Some "bob") "general" 1001));
                  (ToRoom "general", Server.Update_user_list "general" names)])
      /\ Server.j_history info
         = [joinEntry (Some "alice") "general" 1000;
            joinEntry (Some "bob") "general" 1001]
      /\ option_map Server.history (mget "general" (Server.rooms st'))
         = Some (Server.j_history info)
      /\ (forall t ev, In (t, Server.Chat_message ev) outLeave ->
                       ev <> joinEntry (Some "bob") "general" 1001)
      /\ (forall conns i v,
             i <> "s2" ->
             mget i (Server.users serverBobNamed) = Some v ->
             Server.currentRoomId v = Some "general" ->
             mget i (Server.users st') = Some v
             /\ In i (recipients conns (Server.sio st')
                                 (ToRoomExcept "general" "s2")))
      /\ (forall conns,
             ~ In "s2" (recipients conns (Server.sio st')
                                   (ToRoomExcept "general" "s2"))))
  /\ Lobby.joinRoomByPin at1000 "s2" " 1234 " lobbyBobNamed
     = Lobby.switchRoom at1000 "s2" "1234" lobbyBobNamed.
Proof.
  pose proof
    (C10_join_entry_in_snapshot 1000 1001 "s2" "general" None serverBobNamed
       {| Server.username := Some "bob"; Server.currentRoomId := None |}
       {| Server.name := "General"; Server.pin := None;
          Server.history := [joinEntry (Some "alice") "general" 1000];
          Server.usersInRoom := ["alice"] |}
       at1000 "s2" " 1234 " lobbyBobNamed
       {| Lobby.username := Some "bob"; Lobby.currentRoomId := None |}
       {| Lobby.id := "1234"; Lobby.name := "Plans";
          Lobby.pin := Some "1234";
          Lobby.history :=
            [{| ev_type := Some TSystem; ev_user := None;
                ev_text := "alice created and joined the room.";
                ev_timestamp := 1000; ev_room := None |}];
          Lobby.room_users := ["s1"] |}
       (ServerFacts.server_run_reachable bobRenamesUnnamed
          Server.initial serverBobNamed server_initial eq_refl)
       eq_refl eq_refl eq_refl eq_refl
       ltac:(discriminate) eq_refl eq_refl eq_refl
       ltac:(vm_compute; discriminate) eq_refl
       ltac:(vm_compute; discriminate) eq_refl) as H.
  split; [exact (proj1 H) | exact (proj2 (proj2 H))].
Defined.

(** * Further properties *)

(** X1.  In every reachable state of [src/unnamed/part_000] the member set
    of a room holds exactly the live sockets whose current room it is. *)
Theorem X1_lobby_members_are_sessions_in_room :
  forall (st : Lobby.State) (k : string) (r : Lobby.Room) (i : string),
    lobbyReachable st ->
    mget k (Lobby.rooms st) = Some r ->
    (In i (Lobby.room_users r)
     <-> exists s, mget i (Lobby.sockets st) = Some s
                   /\ Lobby.currentRoomId s = Some k).
Proof.
  intros st k r i Hr. destruct (LobbyFacts.lobbyReachable_inv st Hr) as [Hm _].
  apply Hm.
Qed.

(** X1 at work: "s1" and the room "1234". *)
Lemma X1_lobby_members_are_sessions_in_room_witness :
  In "s1" ["s1"]
  <-> exists s, mget "s1" (Lobby.sockets lobbyBobNamed) = Some s
                /\ Lobby.currentRoomId s = Some "1234".
Proof.
  apply (X1_lobby_members_are_sessions_in_room lobbyBobNamed "1234"
           {| Lobby.id := "1234"; Lobby.name := "Plans";
              Lobby.pin := Some "1234";
              Lobby.history :=
                [{| ev_type := Some TSystem; ev_user := None;
                    ev_text := "alice created and joined the room.";
                    ev_timestamp := 1000; ev_room := None |}];
              Lobby.room_users := ["s1"] |}
           "s1").
  - apply (LobbyFacts.lobby_run_reachable lobbyBobArrives
             Lobby.initial lobbyBobNamed lobby_initial);
      reflexivity.
  - reflexivity.
Defined.

(** X2.  The default room is never deleted: it is registered in every
    reachable state of both servers. *)
Theorem X2_default_room_never_deleted :
  forall (stA : Server.State) (stB : Lobby.State),
    serverReachable stA ->
    lobbyReachable stB ->
    mhas "general" (Server.rooms stA) = true
    /\ mhas "general" (Lobby.rooms stB) = true.
Proof.
  intros stA stB HA HB. split.
  - induction HA as [|st st' clk e out _ IH Hh]; [reflexivity |].
    eapply ServerFacts.server_keeps_general; eauto.
  - induction HB as [|st st' clk e out _ IH _ Hh]; [reflexivity |].
    eapply LobbyFacts.lobby_keeps_general; eauto.
Qed.

(** X2 at work: the states in which "alice" has created "Plans". *)
Lemma X2_default_room_never_deleted_witness :
  mhas "general" (Server.rooms serverPlans) = true
  /\ mhas "general" (Lobby.rooms lobbyPlans) = true.
Proof.
  apply (X2_default_room_never_deleted serverPlans lobbyPlans).
  - apply (ServerFacts.server_run_reachable aliceCreatesPlans
             Server.initial serverPlans server_initial).
    reflexivity.
  - apply (LobbyFacts.lobby_run_reachable lobbyAliceCreates
             Lobby.initial lobbyPlans lobby_initial); reflexivity.
Defined.

(** X4.  In [src/server.js] a 'chat message' from a session without a name
    or without a current room is dropped: nothing is sent and nothing
    changes.  From a named session in a registered room it appends an
    entry with the session's name and the client's timestamp to the
    history of that room and sends the entry to the room; in a reachable
    state every session whose current room it is, the sender included, is
    among the sockets the transport delivers it to. *)
Theorem X4_server_message_reaches_current_room :
  forall (sid text : string) (ts : Z) (st : Server.State) (u : Server.User),
    serverReachable st ->
    mget sid (Server.users st) = Some u ->
    (truthy (Server.currentRoomId u) && truthy (Server.username u) = false ->
     Server.chatMessage sid text ts st = Some (st, []))
    /\ (forall c room,
          truthy (Server.username u) = true ->
          Server.currentRoomId u = Some c -> c <> "" ->
          mget c (Server.rooms st) = Some room ->
          exists st',
            Server.chatMessage sid text ts st
            = Some (st', [(ToRoom c,
                           Server.Chat_message
                             {| ev_type := Some TMessage;
                                ev_user := Server.username u;
                                ev_text := text; ev_timestamp := ts;
                                ev_room := Some c |})])
            /\ option_map Server.history (mget c (Server.rooms st'))
               = Some (Server.history room
                       ++ [{| ev_type := Some TMessage;
                              ev_user := Server.username u;
                              ev_text := text; ev_timestamp := ts;
                              ev_room := Some c |}])
            /\ (forall i v,
                   mget i (Server.users st') = Some v ->
                   Server.currentRoomId v = Some c ->
                   In i (recipients (mkeys (Server.users st'))
                                    (Server.sio st') (ToRoom c)))).
Proof.
  intros sid text ts st u Hreach Hu.
  pose proof (ServerFacts.serverReachable_adapter st Hreach) as Hok.
  unfold Server.chatMessage, Server.post. rewrite Hu. cbv zeta. split.
  - intros ->. reflexivity.
  - intros c room Hn Hc Hne Hr. rewrite Hn, Hc. simpl.
    apply String.eqb_neq in Hne. rewrite Hne. simpl. rewrite Hr.
    eexists. split; [reflexivity |]. simpl.
    split; [now rewrite mget_mupd, String.eqb_refl, Hr |].
    intros i v Hi Hv. apply ServerFacts.amembers_ajoined. eapply Hok; eauto.
Qed.

(** X4 at work: "alice" says "hi" in 'general'. *)
Lemma X4_server_message_reaches_current_room_witness :
  exists st',
    Server.chatMessage "s1" "hi" 7 serverNamed
    = Some (st', [(ToRoom "general",
                   Server.Chat_message
                     {| ev_type := Some TMessage; ev_user := Some "alice";
                        ev_text := "hi"; ev_timestamp := 7;
                        ev_room := Some "general" |})])
    /\ option_map Server.history (mget "general" (Server.rooms st'))
       = Some ([joinEntry (Some "alice") "general" 1000]
               ++ [{| ev_type := Some TMessage; ev_user := Some "alice";
                      ev_text := "hi"; ev_timestamp := 7;
                      ev_room := Some "general" |}])
    /\ (forall i v,
           mget i (Server.users st') = Some v ->
           Server.currentRoomId v = Some "general" ->
           In i (recipients (mkeys (Server.users st'))
                            (Server.sio st') (ToRoom "general"))).
Proof.
  apply (proj2 (X4_server_message_reaches_current_room "s1" "hi" 7 serverNamed
                  {| Server.username := Some "alice";
                     Server.currentRoomId := Some "general" |}
                  (ServerFacts.server_run_reachable aliceInGeneral
                     Server.initial serverNamed server_initial eq_refl)
                  eq_refl)
               "general"
               {| Server.name := "General"; Server.pin := None;
                  Server.history := [joinEntry (Some "alice") "general" 1000];
                  Server.usersInRoom := ["alice"] |});
    solve [reflexivity | discriminate].
Defined.

(** X5.  In [src/unnamed/part_000] a handler run that sends the client a
    rejection ('room action feedback' or 'username rejected') leaves the
    state as it was. *)
Theorem X5_lobby_rejection_changes_nothing :
  forall (clk : Clock) (e : Lobby.Event) (st st' : Lobby.State)
         (out : list Lobby.Notification),
    Lobby.handle clk e st = Some (st', out) ->
    existsb isRejection out = true ->
    st' = st.
Proof. exact LobbyFacts.lobby_rejection_changes_nothing. Qed.

(** X5 at work: a switch to a room that does not exist. *)
Lemma X5_lobby_rejection_changes_nothing_witness :
  exists st' out,
    Lobby.handle at1000 (Lobby.On_switch_room "s1" "nowhere") lobbyNamed
    = Some (st', out)
    /\ existsb isRejection out = true
    /\ st' = lobbyNamed.
Proof.
  eexists _, _. split; [reflexivity |]. split; [reflexivity |].
  apply (X5_lobby_rejection_changes_nothing at1000
           (Lobby.On_switch_room "s1" "nowhere") lobbyNamed lobbyNamed
           [Lobby.feedback "s1" "Room not found."]);
    reflexivity.
Defined.

(** X6.  In every reachable state of [src/server.js] a session that is in
    a room is in 'general', and every other room has no member and an
    empty history: [joinRoom] is always called without a PIN, and every
    room but 'general' has one. *)
Theorem X6_server_sessions_only_in_general :
  forall (st : Server.State),
    serverReachable st ->
    (forall i u c,
        mget i (Server.users st) = Some u ->
        Server.currentRoomId u = Some c -> c = "general")
    /\ (forall k r,
           mget k (Server.rooms st) = Some r -> k <> "general" ->
           Server.usersInRoom r = [] /\ Server.history r = []).
Proof.
  intros st Hr.
  destruct (ServerInvariant.serverReachable_inv st Hr)
    as (Hp & _ & _ & Hon & _).
  split; [exact Hon |].
  intros k r Hk Hne.
  pose proof (ServerInvariant.pinsOk_get _ _ _ Hp Hk) as H.
  apply String.eqb_neq in Hne. unfold GENERAL_ROOM_ID in H.
  rewrite Hne in H. tauto.
Qed.

(** X6 at work: once "alice" has created "Plans" she is still in
    'general', and "room-1000" is empty. *)
Lemma X6_server_sessions_only_in_general_witness :
  (forall i u c,
      mget i (Server.users serverPlans) = Some u ->
      Server.currentRoomId u = Some c -> c = "general")
  /\ (forall k r,
         mget k (Server.rooms serverPlans) = Some r -> k <> "general" ->
         Server.usersInRoom r = [] /\ Server.history r = []).
Proof.
  apply (X6_server_sessions_only_in_general serverPlans).
  apply (ServerFacts.server_run_reachable aliceCreatesPlans
           Server.initial serverPlans server_initial).
  reflexivity.
Defined.

(** X7.  In every reachable state of [src/server.js] 'join room by pin'
    admits nobody: the state stays as it is and the caller gets one of
    four answers.  A named session that sends the PIN of a registered
    room is answered that the PIN is incorrect. *)
Theorem X7_server_join_by_pin_admits_nobody :
  forall (clk : Clock) (sid p : string) (st : Server.State),
    serverReachable st ->
    (exists msg,
        Server.joinRoomByPin clk sid p st
        = Some (st, [Server.feedback sid msg])
        /\ In msg ["PIN cannot be empty.";
                   "No room found with that PIN.";
                   "Please set your username first.";
                   "Incorrect PIN for this room."])
    /\ (forall u k room,
           mget sid (Server.users st) = Some u ->
           truthy (Server.username u) = true ->
           mget k (Server.rooms st) = Some room ->
           Server.pin room = Some (trim p) ->
           Server.joinRoomByPin clk sid p st
           = Some (st, [Server.feedback sid "Incorrect PIN for this room."])).
Proof.
  intros clk sid p st Hr.
  pose proof (ServerInvariant.serverReachable_inv st Hr) as Hinv.
  assert (Hfound : forall k,
             Server.findByPin (trim p) (Server.rooms st) = Some k ->
             (trim p =? "") = false ->
             exists msg,
               Server.joinRoom (clk 0%nat) (clk 1%nat) sid k None st
               = Some (st, [Server.feedback sid msg])
               /\ In msg ["Please set your username first.";
                          "Incorrect PIN for this room."]
               /\ (forall u, mget sid (Server.users st) = Some u ->
                             truthy (Server.username u) = true ->
                             msg = "Incorrect PIN for this room.")).
  { intros k Hf Hne.
    destruct (ServerRuns.findByPin_found _ _ _ Hinv Hf)
      as (_ & Hk & room & Hroom & Hpin).
    unfold Server.joinRoom.
    destruct (mget sid (Server.users st)) as [u|].
    2:{ eexists. split; [reflexivity |]. split; [simpl; tauto |].
        discriminate. }
    destruct (truthy (Server.username u)) eqn:Hn; simpl negb; cbv iota.
    2:{ eexists. split; [reflexivity |]. split; [simpl; tauto |].
        intros u' [= <-]. congruence. }
    rewrite Hroom, Hpin, Hk. simpl. rewrite Hne. simpl.
    eexists. split; [reflexivity |]. split; [simpl; tauto | reflexivity]. }
  split.
  - unfold Server.joinRoomByPin. cbv zeta.
    destruct (trim p =? "") eqn:Hne;
      [eexists; split; [reflexivity | simpl; tauto] |].
    destruct (Server.findByPin (trim p) (Server.rooms st)) as [k|] eqn:Hf;
      [| eexists; split; [reflexivity | simpl; tauto]].
    destruct (truthy (Some k));
      [| eexists; split; [reflexivity | simpl; tauto]].
    simpl show.
    destruct (Hfound k eq_refl eq_refl) as (msg & -> & Hin & _).
    exists msg. split; [reflexivity |]. simpl in *. tauto.
  - intros u k room Hu Hn Hroom Hpin.
    assert (Hne : (trim p =? "") = false).
    { destruct Hinv as (Hp & _). unfold pinsOk in Hp.
      rewrite Forall_forall in Hp.
      destruct (Hp _ (mget_In _ _ _ Hroom)) as [_ Hk]. simpl in Hk.
      destruct (k =? GENERAL_ROOM_ID); [congruence |].
      destruct Hk as [Ht _]. rewrite Hpin in Ht. simpl in Ht.
      now apply negb_true_iff in Ht. }
    destruct (ServerRuns.findByPin_some _ _ _ _ Hroom Hpin) as [k' Hf].
    destruct (ServerRuns.findByPin_found _ _ _ Hinv Hf) as (Ht & _).
    unfold Server.joinRoomByPin. cbv zeta. rewrite Hne, Hf, Ht.
    simpl show.
    destruct (Hfound k' Hf Hne) as (msg & -> & _ & Hmsg).
    now rewrite (Hmsg u Hu Hn).
Qed.

(** X7 at work: "alice" sends the PIN of the room she has created. *)
Lemma X7_server_join_by_pin_admits_nobody_witness :
  Server.joinRoomByPin at1000 "s1" " 1234 " serverPlans
  = Some (serverPlans,
          [Server.feedback "s1" "Incorrect PIN for this room."]).
Proof.
  apply (proj2 (X7_server_join_by_pin_admits_nobody at1000 "s1" " 1234 "
                  serverPlans
                  (ServerFacts.server_run_reachable aliceCreatesPlans
                     Server.initial serverPlans server_initial eq_refl))
               {| Server.username := Some "alice";
                  Server.currentRoomId := Some "general" |}
               "room-1000"
               {| Server.name := "Plans"; Server.pin := Some "1234";
                  Server.history := []; Server.usersInRoom := [] |});
    reflexivity.
Defined.

(** X8.  In a run of [src/server.js] no room is ever deleted: a room that
    is registered stays registered, with the same name and PIN, and with
    a history that has only grown. *)
Theorem X8_server_rooms_are_never_deleted :
  forall (es : list (Clock * Server.Event)) (st st' : Server.State)
         (k : string) (r : Server.Room),
    serverReachable st ->
    Server.run es st = Some st' ->
    mget k (Server.rooms st) = Some r ->
    exists r',
      mget k (Server.rooms st') = Some r'
      /\ Server.name r' = Server.name r
      /\ Server.pin r' = Server.pin r
      /\ exists more, Server.history r' = Server.history r ++ more.
Proof.
  intros es st st' k r Hr Hrun Hk.
  destruct (ServerRuns.run_kept es st st' k r
              (ServerInvariant.serverReachable_inv st Hr) Hrun Hk)
    as (r' & Hr' & K).
  exists r'. split; [exact Hr' | exact K].
Qed.

(** X8 at work: "alice" disconnects after she has created "Plans"; the
    room is still there. *)
Lemma X8_server_rooms_are_never_deleted_witness :
  exists st',
    Server.run [(at1000, Server.On_disconnect "s1")] serverPlans = Some st'
    /\ exists r',
        mget "room-1000" (Server.rooms st') = Some r'
        /\ Server.name r' = "Plans"
        /\ Server.pin r' = Some "1234"
        /\ exists more, Server.history r' = [] ++ more.
Proof.
  eexists. split; [reflexivity |].
  apply (X8_server_rooms_are_never_deleted
           [(at1000, Server.On_disconnect "s1")] serverPlans _ "room-1000"
           {| Server.name := "Plans"; Server.pin := Some "1234";
              Server.history := []; Server.usersInRoom := [] |}).
  - apply (ServerFacts.server_run_reachable aliceCreatesPlans
             Server.initial serverPlans server_initial).
    reflexivity.
  - reflexivity.
  - reflexivity.
Defined.

(** X9.  No handler of [src/server.js] rewrites a room that stays
    registered: its name and PIN stay as they are, and its history keeps
    every entry it had, in order, with the new entries after them. *)
Theorem X9_server_history_only_grows :
  forall (clk : Clock) (e : Server.Event) (st st' : Server.State)
         (out : list Server.Notification) (k : string) (r r' : Server.Room),
    Server.handle clk e st = Some (st', out) ->
    mget k (Server.rooms st) = Some r ->
    mget k (Server.rooms st') = Some r' ->
    Server.name r' = Server.name r
    /\ Server.pin r' = Server.pin r
    /\ exists more, Server.history r' = Server.history r ++ more.
Proof.
  intros clk e st st' out k r r' Hh Hk Hk'.
  exact (ServerHistory.handle_kept clk e st st' out Hh k r r' Hk Hk').
Qed.

(** X9 at work: "alice" waves in 'general'. *)
Lemma X9_server_history_only_grows_witness :
  exists st' out r',
    Server.handle at1000 (Server.On_chat_action "s1" "waves" 7) serverNamed
    = Some (st', out)
    /\ mget "general" (Server.rooms st') = Some r'
    /\ Server.name r' = "General"
    /\ Server.pin r' = None
    /\ exists more,
        Server.history r' = [joinEntry (Some "alice") "general" 1000] ++ more.
Proof.
  eexists _, _, _. split; [reflexivity |]. split; [reflexivity |].
  eapply (X9_server_history_only_grows at1000
           (Server.On_chat_action "s1" "waves" 7) serverNamed _ _ "general"
           {| Server.name := "General"; Server.pin := None;
              Server.history := [joinEntry (Some "alice") "general" 1000];
              Server.usersInRoom := ["alice"] |} _);
    reflexivity.
Defined.

(** X10.  No handler of [src/unnamed/part_000] rewrites a room that stays
    registered: its id, name and PIN stay as they are, and its history
    keeps every entry it had, in order, with the new entries after them. *)
Theorem X10_lobby_history_only_grows :
  forall (clk : Clock) (e : Lobby.Event) (st st' : Lobby.State)
         (out : list Lobby.Notification) (k : string) (r r' : Lobby.Room),
    Lobby.handle clk e st = Some (st', out) ->
    mget k (Lobby.rooms st) = Some r ->
    mget k (Lobby.rooms st') = Some r' ->
    Lobby.id r' = Lobby.id r
    /\ Lobby.name r' = Lobby.name r
    /\ Lobby.pin r' = Lobby.pin r
    /\ exists more, Lobby.history r' = Lobby.history r ++ more.
Proof.
  intros clk e st st' out k r r' Hh Hk Hk'.
  exact (LobbyHistory.handle_keptL clk e st st' out Hh k r r' Hk Hk').
Qed.

(** X10 at work: "bob" switches to the room "1234". *)
Lemma X10_lobby_history_only_grows_witness :
  exists st' out r',
    Lobby.handle at1000 (Lobby.On_switch_room "s2" "1234") lobbyBobNamed
    = Some (st', out)
    /\ mget "1234" (Lobby.rooms st') = Some r'
    /\ Lobby.id r' = "1234"
    /\ Lobby.name r' = "Plans"
    /\ Lobby.pin r' = Some "1234"
    /\ exists more,
        Lobby.history r'
        = [{| ev_type := Some TSystem; ev_user := None;
              ev_text := "alice created and joined the room.";
              ev_timestamp := 1000; ev_room := None |}] ++ more.
Proof.
  eexists _, _, _. split; [reflexivity |]. split; [reflexivity |].
  eapply (X10_lobby_history_only_grows at1000
           (Lobby.On_switch_room "s2" "1234") lobbyBobNamed _ _ "1234"
           {| Lobby.id := "1234"; Lobby.name := "Plans";
              Lobby.pin := Some "1234";
              Lobby.history :=
                [{| ev_type := Some TSystem; ev_user := None;
                    ev_text := "alice created and joined the room.";
                    ev_timestamp := 1000; ev_room := None |}];
              Lobby.room_users := ["s1"] |} _);
    reflexivity.
Defined.

(** X11.  In a reachable state of [src/server.js] no handler throws on an
    event of a connection that is live (or on a new connection), when the
    payload has the shape the handler reads, as every [Event] has: the
    entries it looks up under [socket.id] are there, and it runs to its
    end. *)
Theorem X11_server_handlers_do_not_throw :
  forall (clk : Clock) (e : Server.Event) (st : Server.State),
    serverReachable st ->
    serverLive e st ->
    exists st' out, Server.handle clk e st = Some (st', out).
Proof.
  intros clk e st Hr Hl.
  apply ServerRuns.handle_returns; [| exact Hl].
  now apply ServerInvariant.serverReachable_inv.
Qed.

(** X11 at work: "alice" disconnects. *)
Lemma X11_server_handlers_do_not_throw_witness :
  exists st' out,
    Server.handle at1000 (Server.On_disconnect "s1") serverPlans
    = Some (st', out).
Proof.
  apply (X11_server_handlers_do_not_throw at1000 (Server.On_disconnect "s1")
           serverPlans).
  - apply (ServerFacts.server_run_reachable aliceCreatesPlans
             Server.initial serverPlans server_initial).
    reflexivity.
  - reflexivity.
Defined.

(** X12.  In every reachable state the room list of either server has one
    entry for each registered room and no other: the ids of the list are
    the keys of the registry, in its order and without a repeat, the entry
    of a room carries its id and its name, and it is marked as needing a
    PIN exactly when the room is not 'general'. *)
Theorem X12_room_list_is_well_formed :
  forall (stA : Server.State) (stB : Lobby.State),
    serverReachable stA ->
    lobbyReachable stB ->
    (NoDup (map rs_id (Server.roomList stA))
     /\ forall s, In s (Server.roomList stA) ->
                  rs_hasPin s = negb (rs_id s =? "general"))
    /\ (NoDup (map rs_id (Lobby.getRoomList stB))
        /\ forall s, In s (Lobby.getRoomList stB) ->
                     rs_hasPin s = negb (rs_id s =? "general"))
    /\ (map rs_id (Server.roomList stA) = mkeys (Server.rooms stA)
        /\ (forall k r,
               mget k (Server.rooms stA) = Some r ->
               In {| rs_id := k; rs_name := Server.name r;
                     rs_hasPin := negb (k =? "general") |}
                  (Server.roomList stA))
        /\ (forall s,
               In s (Server.roomList stA) ->
               exists r, mget (rs_id s) (Server.rooms stA) = Some r
                         /\ rs_name s = Server.name r))
    /\ (map rs_id (Lobby.getRoomList stB) = mkeys (Lobby.rooms stB)
        /\ (forall k r,
               mget k (Lobby.rooms stB) = Some r ->
               In {| rs_id := k; rs_name := Lobby.name r;
                     rs_hasPin := negb (k =? "general") |}
                  (Lobby.getRoomList stB))
        /\ (forall s,
               In s (Lobby.getRoomList stB) ->
               exists r, mget (rs_id s) (Lobby.rooms stB) = Some r
                         /\ rs_name s = Lobby.name r)).
Proof.
  intros stA stB HA HB.
  destruct (ServerInvariant.serverReachable_inv stA HA) as (Hp & Hnd & _).
  pose proof (LobbyRegistry.lobbyReachable_registry stB HB) as Hreg.
  assert (HpinA : forall s, In s (Server.roomList stA) ->
                            rs_hasPin s = negb (rs_id s =? "general")).
  { intros s Hin. unfold Server.roomList in Hin. apply in_map_iff in Hin.
    destruct Hin as ([k r] & <- & Hin). simpl.
    unfold pinsOk in Hp. rewrite Forall_forall in Hp.
    destruct (Hp _ Hin) as [_ Hk]. simpl in Hk. unfold GENERAL_ROOM_ID in Hk.
    destruct (k =? "general"); [now rewrite Hk |].
    destruct Hk as [Ht _].
    destruct (Server.pin r); [reflexivity | discriminate]. }
  assert (HpinB : forall s, In s (Lobby.getRoomList stB) ->
                            rs_hasPin s = negb (rs_id s =? "general")).
  { intros s Hin.
    destruct (LobbyRegistry.getRoomList_from stB s Hreg Hin)
      as (r & Hr & _ & Hb & Hpin).
    rewrite Hb, Hpin.
    destruct (String.eqb_spec (rs_id s) "general") as [E|E]; [reflexivity |].
    simpl. apply negb_true_iff, String.eqb_neq. intros E'.
    destruct Hreg as (_ & _ & Hall). rewrite Forall_forall in Hall.
    destruct (Hall _ (mget_In _ _ _ Hr)) as (_ & Hne & _). now apply Hne. }
  split; [| split; [| split]].
  - split; [now rewrite ServerRuns.roomList_ids | exact HpinA].
  - split; [| exact HpinB].
    rewrite LobbyRegistry.getRoomList_ids by exact Hreg. apply Hreg.
  - split; [apply ServerRuns.roomList_ids |]. split.
    + intros k r Hr.
      pose proof (ServerRuns.roomList_entry stA k r Hr) as Hin.
      pose proof (HpinA _ Hin) as E. simpl in E. now rewrite E in Hin.
    + intros s Hin. unfold Server.roomList in Hin. apply in_map_iff in Hin.
      destruct Hin as ([k r] & <- & Hin). simpl.
      exists r. split; [now apply mget_of_In | reflexivity].
  - split; [now apply LobbyRegistry.getRoomList_ids |]. split.
    + intros k r Hr.
      pose proof (LobbyRegistry.getRoomList_entry stB k r Hreg Hr) as Hin.
      pose proof (HpinB _ Hin) as E. simpl in E. now rewrite E in Hin.
    + intros s Hin.
      destruct (LobbyRegistry.getRoomList_from stB s Hreg Hin)
        as (r & Hr & Hn & _).
      exists r. split; [exact Hr | exact Hn].
Qed.

(** X12 at work: the room lists once "alice" has created "Plans". *)
Lemma X12_room_list_is_well_formed_witness :
  (NoDup (map rs_id (Server.roomList serverPlans))
   /\ forall s, In s (Server.roomList serverPlans) ->
                rs_hasPin s = negb (rs_id s =? "general"))
  /\ (NoDup (map rs_id (Lobby.getRoomList lobbyPlans))
      /\ forall s, In s (Lobby.getRoomList lobbyPlans) ->
                   rs_hasPin s = negb (rs_id s =? "general"))
  /\ (map rs_id (Server.roomList serverPlans) = ["general"; "room-1000"]
      /\ (forall k r,
             mget k (Server.rooms serverPlans) = Some r ->
             In {| rs_id := k; rs_name := Server.name r;
                   rs_hasPin := negb (k =? "general") |}
                (Server.roomList serverPlans))
      /\ (forall s,
             In s (Server.roomList serverPlans) ->
             exists r, mget (rs_id s) (Server.rooms serverPlans) = Some r
                       /\ rs_name s = Server.name r))
  /\ (map rs_id (Lobby.getRoomList lobbyPlans) = ["general"; "1234"]
      /\ (forall k r,
             mget k (Lobby.rooms lobbyPlans) = Some r ->
             In {| rs_id := k; rs_name := Lobby.name r;
                   rs_hasPin := negb (k =? "general") |}
                (Lobby.getRoomList lobbyPlans))
      /\ (forall s,
             In s (Lobby.getRoomList lobbyPlans) ->
             exists r, mget (rs_id s) (Lobby.rooms lobbyPlans) = Some r
                       /\ rs_name s = Lobby.name r)).
Proof.
  apply (X12_room_list_is_well_formed serverPlans lobbyPlans).
  - apply (ServerFacts.server_run_reachable aliceCreatesPlans
             Server.initial serverPlans server_initial).
    reflexivity.
  - apply (LobbyFacts.lobby_run_reachable lobbyAliceCreates
             Lobby.initial lobbyPlans lobby_initial); reflexivity.
Defined.

(** X13.  In a reachable state of [src/unnamed/part_000] no handler throws
    on an event of a live socket (or on a new connection), when the
    payload has the shape the handler reads, as every [Event] has: every
    socket id in a member set is live when the user lists are built. *)
Theorem X13_lobby_handlers_do_not_throw :
  forall (clk : Clock) (e : Lobby.Event) (st : Lobby.State),
    lobbyReachable st ->
    lobbyLive e st ->
    exists st' out, Lobby.handle clk e st = Some (st', out).
Proof.
  intros clk e st Hr Hl.
  apply LobbyRegistry.handle_returnsL; [| | exact Hl].
  - now apply LobbyFacts.lobbyReachable_inv.
  - apply (LobbyRegistry.lobbyReachable_registry st Hr).
Qed.

(** X13 at work: "alice" disconnects while "bob" is around. *)
Lemma X13_lobby_handlers_do_not_throw_witness :
  exists st' out,
    Lobby.handle at1000 (Lobby.On_disconnect "s1") lobbyBobNamed
    = Some (st', out).
Proof.
  apply (X13_lobby_handlers_do_not_throw at1000 (Lobby.On_disconnect "s1")
           lobbyBobNamed).
  - apply (LobbyFacts.lobby_run_reachable lobbyBobArrives
             Lobby.initial lobbyBobNamed lobby_initial); reflexivity.
  - reflexivity.
Defined.

(** X14.  In every reachable state of [src/unnamed/part_000] two live
    sockets never have the same name. *)
Theorem X14_lobby_names_are_unique :
  forall (st : Lobby.State) (i j : string) (s t : Lobby.Sock) (n : string),
    lobbyReachable st ->
    mget i (Lobby.sockets st) = Some s ->
    mget j (Lobby.sockets st) = Some t ->
    Lobby.username s = Some n ->
    Lobby.username t = Some n ->
    i = j.
Proof.
  intros st i j s t n Hr Hi Hj Hs Ht.
  destruct (LobbyNames.lobbyReachable_names st Hr) as (H1 & H2).
  exact (H1 _ _ (H2 i s n Hi Hs) (H2 j t n Hj Ht) eq_refl).
Qed.

(** X14 at work: "alice" is "s1". *)
Lemma X14_lobby_names_are_unique_witness : "s1" = "s1".
Proof.
  apply (X14_lobby_names_are_unique lobbyBobNamed "s1" "s1"
           {| Lobby.username := Some "alice";
              Lobby.currentRoomId := Some "1234" |}
           {| Lobby.username := Some "alice";
              Lobby.currentRoomId := Some "1234" |}
           "alice").
  - apply (LobbyFacts.lobby_run_reachable lobbyBobArrives
             Lobby.initial lobbyBobNamed lobby_initial); reflexivity.
  - reflexivity.
  - reflexivity.
  - reflexivity.
  - reflexivity.
Defined.

(** X15.  In every reachable state of [src/unnamed/part_000] the
    [socket.join] and [socket.leave] calls of the handlers have left every
    live socket joined to exactly one room of the transport, its current
    room, whose member set holds it; so a broadcast to a room reaches
    every socket whose current room it is. *)
Theorem X15_lobby_sockets_are_joined_to_their_room :
  forall (st : Lobby.State) (i k : string),
    lobbyReachable st ->
    (ajoined (Lobby.sio st) i k = true
     <-> exists s, mget i (Lobby.sockets st) = Some s
                   /\ Lobby.currentRoomId s = Some k)
    /\ (forall r, mget k (Lobby.rooms st) = Some r ->
                  (ajoined (Lobby.sio st) i k = true
                   <-> In i (Lobby.room_users r)))
    /\ (forall conns s,
           mget i (Lobby.sockets st) = Some s ->
           Lobby.currentRoomId s = Some k ->
           In i (recipients conns (Lobby.sio st) (ToRoom k))).
Proof.
  intros st i k Hr.
  pose proof (LobbyAdapter.lobbyReachable_adapter st Hr i k) as Ha.
  destruct (LobbyFacts.lobbyReachable_inv st Hr) as [Hm _].
  split; [exact Ha |]. split.
  - intros r Hk. rewrite Ha. symmetry. exact (Hm k r i Hk).
  - intros conns s Hs Hc. simpl. apply AdapterFacts.In_amembers.
    apply Ha. eauto.
Qed.

(** X15 at work: the room "1234" once "bob" has joined "alice" there. *)
Lemma X15_lobby_sockets_are_joined_to_their_room_witness :
  (ajoined (Lobby.sio lobbyBobJoined) "s2" "1234" = true
   <-> exists s, mget "s2" (Lobby.sockets lobbyBobJoined) = Some s
                 /\ Lobby.currentRoomId s = Some "1234")
  /\ (forall r, mget "1234" (Lobby.rooms lobbyBobJoined) = Some r ->
                (ajoined (Lobby.sio lobbyBobJoined) "s2" "1234" = true
                 <-> In "s2" (Lobby.room_users r)))
  /\ (forall conns s,
         mget "s2" (Lobby.sockets lobbyBobJoined) = Some s ->
         Lobby.currentRoomId s = Some "1234" ->
         In "s2" (recipients conns (Lobby.sio lobbyBobJoined)
                             (ToRoom "1234"))).
Proof.
  apply (X15_lobby_sockets_are_joined_to_their_room lobbyBobJoined
           "s2" "1234").
  apply (LobbyFacts.lobby_run_reachable lobbyBobJoins
           Lobby.initial lobbyBobJoined lobby_initial); reflexivity.
Defined.

(** X16.  In every reachable state of [src/unnamed/part_000] a 'typing' or
    'stop typing' signal changes nothing.  It is relayed when the sender
    has a name and the room it names is the sender's current room, and
    then every other socket whose current room that is is among the
    sockets it is delivered to, and the sender is not; otherwise nothing
    is sent. *)
Theorem X16_lobby_typing_reaches_the_other_members :
  forall (wire : option string -> string -> Lobby.Payload)
         (sid rid : string) (st : Lobby.State) (sock : Lobby.Sock),
    lobbyReachable st ->
    mget sid (Lobby.sockets st) = Some sock ->
    Lobby.typingSignal wire sid rid st
    = Some (st,
            if truthy (Lobby.username sock)
               && seq (Lobby.currentRoomId sock) (Some rid)
            then [(ToRoomExcept rid sid, wire (Lobby.username sock) rid)]
            else [])
    /\ (forall conns,
           ~ In sid (recipients conns (Lobby.sio st) (ToRoomExcept rid sid)))
    /\ (forall conns i s,
           i <> sid ->
           mget i (Lobby.sockets st) = Some s ->
           Lobby.currentRoomId s = Some rid ->
           In i (recipients conns (Lobby.sio st) (ToRoomExcept rid sid))).
Proof.
  intros wire sid rid st sock Hr Hs. split; [| split].
  - unfold Lobby.typingSignal. rewrite Hs.
    destruct (LobbyFacts.lobbyReachable_inv st Hr) as (_ & Hc & _).
    destruct (seq (Lobby.currentRoomId sock) (Some rid)) eqn:Hcur.
    + apply seq_eq in Hcur. rewrite (Hc sid sock rid Hs Hcur).
      now destruct (truthy (Lobby.username sock)).
    + now destruct (truthy (Lobby.username sock)).
  - intros conns H. apply AdapterFacts.In_recipients_except in H.
    destruct H as [H _]. now apply H.
  - intros conns i s Hi Hsi Hc. apply AdapterFacts.In_recipients_except.
    split; [exact Hi |].
    apply (LobbyAdapter.lobbyReachable_adapter st Hr i rid). eauto.
Qed.

(** X16 at work: "alice" types in "1234", where "bob" is too. *)
Lemma X16_lobby_typing_reaches_the_other_members_witness :
  Lobby.typing "s1" "1234" lobbyBobJoined
  = Some (lobbyBobJoined,
          [(ToRoomExcept "1234" "s1", Lobby.User_typing (Some "alice") "1234")])
  /\ (forall conns,
         ~ In "s1" (recipients conns (Lobby.sio lobbyBobJoined)
                               (ToRoomExcept "1234" "s1")))
  /\ (forall conns i s,
         i <> "s1" ->
         mget i (Lobby.sockets lobbyBobJoined) = Some s ->
         Lobby.currentRoomId s = Some "1234" ->
         In i (recipients conns (Lobby.sio lobbyBobJoined)
                          (ToRoomExcept "1234" "s1"))).
Proof.
  apply (X16_lobby_typing_reaches_the_other_members Lobby.User_typing
           "s1" "1234" lobbyBobJoined
           {| Lobby.username := Some "alice";
              Lobby.currentRoomId := Some "1234" |}).
  - apply (LobbyFacts.lobby_run_reachable lobbyBobJoins
             Lobby.initial lobbyBobJoined lobby_initial); reflexivity.
  - reflexivity.
Defined.

(** X17.  In a reachable state of [src/unnamed/part_000], when the only
    member of a room other than 'general' disconnects, the room is
    deleted and everybody is sent a room list without it. *)
Theorem X17_lobby_disconnect_deletes_emptied_room :
  forall (clk : Clock) (sid k : string) (st : Lobby.State)
         (sock : Lobby.Sock) (r : Lobby.Room),
    lobbyReachable st ->
    mget sid (Lobby.sockets st) = Some sock ->
    Lobby.currentRoomId sock = Some k ->
    k <> "general" ->
    mget k (Lobby.rooms st) = Some r ->
    (forall i, In i (Lobby.room_users r) -> i = sid) ->
    exists st' out,
      Lobby.disconnect clk sid st = Some (st', out)
      /\ mhas k (Lobby.rooms st') = false
      /\ mhas sid (Lobby.sockets st') = false
      /\ In (ToAll, Lobby.Update_room_list (Lobby.getRoomList st')) out
      /\ ~ In k (map rs_id (Lobby.getRoomList st')).
Proof.
  intros clk sid k st sock r Hr Hs Hcur Hne Hk Honly.
  destruct (LobbyFacts.lobbyReachable_inv st Hr) as (_ & _ & Hkeys).
  destruct (Hkeys k r Hk) as [Hk0 Hid].
  pose proof (LobbyRegistry.lobbyReachable_registry st Hr) as Hreg.
  assert (Hrun : exists st' out,
             Lobby.disconnect clk sid st = Some (st', out)
             /\ Lobby.rooms st'
                = mdel k (mupd k (fun r0 => Lobby.setRoomUsers
                                              (sdel sid (Lobby.room_users r0)) r0)
                               (Lobby.rooms st))
             /\ Lobby.sockets st' = mdel sid (Lobby.sockets st)
             /\ In (ToAll, Lobby.Update_room_list (Lobby.getRoomList st')) out).
  { unfold Lobby.disconnect. rewrite Hs, Hcur. cbv zeta. simpl Lobby.rooms.
    simpl show. simpl truthy.
    apply String.eqb_neq in Hk0. rewrite Hk0. simpl negb.
    unfold mhas at 1. rewrite Hk. simpl andb. cbv iota.
    rewrite mget_mupd, String.eqb_refl, Hk. simpl option_map. cbv iota.
    simpl Lobby.room_users. rewrite (sdel_only sid _ Honly).
    simpl. rewrite Hid. apply String.eqb_neq in Hne. rewrite Hne. simpl.
    eexists _, _. split; [reflexivity |]. simpl.
    split; [reflexivity |]. split; [reflexivity |].
    right. right. left. reflexivity. }
  destruct Hrun as (st' & out & Hd & Er & Es & Hout).
  exists st', out. split; [exact Hd |].
  split; [rewrite Er; apply mhas_mdel_same |].
  split; [rewrite Es; apply mhas_mdel_same |].
  split; [exact Hout |].
  rewrite LobbyRegistry.getRoomList_ids.
  - apply mhas_mkeys. rewrite Er. apply mhas_mdel_same.
  - apply (LobbyRegistry.registryOk_handle clk (Lobby.On_disconnect sid)
             st st' out Hreg Hd).
Qed.

(** X17 at work: "alice", alone in "1234", disconnects. *)
Lemma X17_lobby_disconnect_deletes_emptied_room_witness :
  exists st' out,
    Lobby.disconnect at1000 "s1" lobbyBobNamed = Some (st', out)
    /\ mhas "1234" (Lobby.rooms st') = false
    /\ mhas "s1" (Lobby.sockets st') = false
    /\ In (ToAll, Lobby.Update_room_list (Lobby.getRoomList st')) out
    /\ ~ In "1234" (map rs_id (Lobby.getRoomList st')).
Proof.
  apply (X17_lobby_disconnect_deletes_emptied_room at1000 "s1" "1234"
           lobbyBobNamed
           {| Lobby.username := Some "alice";
              Lobby.currentRoomId := Some "1234" |}
           {| Lobby.id := "1234"; Lobby.name := "Plans";
              Lobby.pin := Some "1234";
              Lobby.history :=
                [{| ev_type := Some TSystem; ev_user := None;
                    ev_text := "alice created and joined the room.";
                    ev_timestamp := 1000; ev_room := None |}];
              Lobby.room_users := ["s1"] |}).
  - apply (LobbyFacts.lobby_run_reachable lobbyBobArrives
             Lobby.initial lobbyBobNamed lobby_initial); reflexivity.
  - reflexivity.
  - reflexivity.
  - discriminate.
  - reflexivity.
  - intros i [<-|[]]. reflexivity.
Defined.

(** X18.  In [src/server.js] a 'typing' or 'stop typing' signal changes
    nothing.  It is relayed when the sender has a name and the room it
    names is the sender's current room, and then, in a reachable state,
    every other session whose current room that is is among the sockets
    it is delivered to, and the sender is not. *)
Theorem X18_server_typing_reaches_the_others :
  forall (wire : option string -> string -> Server.Payload)
         (sid rid : string) (st : Server.State) (u : Server.User),
    serverReachable st ->
    mget sid (Server.users st) = Some u ->
    Server.typingSignal wire sid rid st
    = Some (st,
            if truthy (Server.username u)
               && seq (Server.currentRoomId u) (Some rid)
            then [(ToRoomExcept rid sid, wire (Server.username u) rid)]
            else [])
    /\ (forall conns,
           ~ In sid (recipients conns (Server.sio st) (ToRoomExcept rid sid)))
    /\ (forall conns i v,
           i <> sid ->
           mget i (Server.users st) = Some v ->
           Server.currentRoomId v = Some rid ->
           In i (recipients conns (Server.sio st) (ToRoomExcept rid sid))).
Proof.
  intros wire sid rid st u Hr Hu. split; [| split].
  - unfold Server.typingSignal. rewrite Hu. now destruct (_ && _).
  - intros conns H. apply AdapterFacts.In_recipients_except in H.
    destruct H as [H _]. now apply H.
  - intros conns i v Hi Hv Hc. apply AdapterFacts.In_recipients_except.
    split; [exact Hi |].
    exact (ServerFacts.serverReachable_adapter st Hr i v rid Hv Hc).
Qed.

(** X18 at work: "alice" types in 'general', where "bob" is too. *)
Lemma X18_server_typing_reaches_the_others_witness :
  Server.typing "s1" "general" serverBobInGeneral
  = Some (serverBobInGeneral,
          [(ToRoomExcept "general" "s1",
            Server.User_typing (Some "alice") "general")])
  /\ (forall conns,
         ~ In "s1" (recipients conns (Server.sio serverBobInGeneral)
                               (ToRoomExcept "general" "s1")))
  /\ (forall conns i v,
         i <> "s1" ->
         mget i (Server.users serverBobInGeneral) = Some v ->
         Server.currentRoomId v = Some "general" ->
         In i (recipients conns (Server.sio serverBobInGeneral)
                          (ToRoomExcept "general" "s1"))).
Proof.
  apply (X18_server_typing_reaches_the_others Server.User_typing
           "s1" "general" serverBobInGeneral
           {| Server.username := Some "alice";
              Server.currentRoomId := Some "general" |}).
  - apply (ServerFacts.server_run_reachable bobInGeneral
             Server.initial serverBobInGeneral server_initial).
    reflexivity.
  - reflexivity.
Defined.

(** X19.  In a reachable state of [src/server.js], when a session that is
    in no room claims a name that no session in a room holds, the claim
    is accepted and the session is put into 'general': it becomes its
    current room, its name enters the member set, the join entry is
    appended to the history, and the transport delivers it the broadcasts
    of 'general'. *)
Theorem X19_server_first_name_joins_general :
  forall (clk : Clock) (sid raw : string) (st : Server.State)
         (u : Server.User) (room : Server.Room),
    serverReachable st ->
    mget sid (Server.users st) = Some u ->
    Server.currentRoomId u = None ->
    mget "general" (Server.rooms st) = Some room ->
    trim raw <> "" ->
    ~ heldInRoom st (trim raw) ->
    exists st' out,
      Server.setInitialUsername clk sid raw st
      = Some (st', (ToSocket sid, Server.Username_accepted (trim raw)) :: out)
      /\ mget sid (Server.users st')
         = Some {| Server.username := Some (trim raw);
                   Server.currentRoomId := Some "general" |}
      /\ mget "general" (Server.rooms st')
         = Some (joinedRoom (Some (trim raw)) "general" (clk 1%nat) room)
      /\ In (trim raw) (Server.getUsersInRoom st' "general")
      /\ (forall conns,
             In sid (recipients conns (Server.sio st') (ToRoom "general"))).
Proof.
  intros clk sid raw st u room Hr Hu Hc Hg Hne Hfree.
  destruct (ServerInvariant.serverReachable_inv st Hr)
    as (_ & _ & _ & _ & Hsr).
  pose proof (Hsr sid u Hu) as Hset.
  set (st1 := Server.setUsers st
                (mset sid {| Server.username := Some (trim raw);
                             Server.currentRoomId := Server.currentRoomId u |}
                      (Server.users st))).
  destruct (ServerFacts.joinRoom_success (clk 0%nat) (clk 1%nat) sid "general"
              None st1
              {| Server.username := Some (trim raw);
                 Server.currentRoomId := Server.currentRoomId u |} room)
    as (st' & outLeave & Hj & H1 & H2 & _).
  - simpl. now rewrite mget_mset, String.eqb_refl.
  - simpl. apply String.eqb_neq in Hne. now rewrite Hne.
  - exact Hg.
  - unfold pinGate. simpl. apply andb_false_r.
  - simpl. rewrite Hc. discriminate.
  - simpl. unfold mhas. now rewrite Hset.
  - assert (Hrun : exists out,
               Server.setInitialUsername clk sid raw st
               = Some (st', (ToSocket sid,
                             Server.Username_accepted (trim raw)) :: out)).
    { unfold Server.setInitialUsername. cbv zeta.
      apply String.eqb_neq in Hne. rewrite Hne.
      rewrite <- ServerFacts.taken_heldInRoom in Hfree.
      apply not_true_is_false in Hfree. rewrite Hfree. rewrite Hu.
      fold st1. unfold GENERAL_ROOM_ID. rewrite Hj. eexists. reflexivity. }
    destruct Hrun as [out Hrun].
    exists st', out. split; [exact Hrun |].
    split; [exact H2 |]. split; [exact H1 |]. split.
    + unfold Server.getUsersInRoom. rewrite H1. simpl.
      apply In_sadd. now right.
    + intros conns. simpl. apply ServerFacts.amembers_ajoined.
      assert (Hr' : serverReachable st').
      { eapply server_handle with (e := Server.On_set_initial_username sid raw);
          [exact Hr | exact Hrun]. }
      exact (ServerFacts.serverReachable_adapter st' Hr' sid _ "general"
               H2 eq_refl).
Qed.

(** X19 at work: "bob" connects where "alice" is, and claims his name. *)
Lemma X19_server_first_name_joins_general_witness :
  exists st' out,
    Server.setInitialUsername at1000 "s2" " bob " serverBobConnected
    = Some (st', (ToSocket "s2", Server.Username_accepted "bob") :: out)
    /\ mget "s2" (Server.users st')
       = Some {| Server.username := Some "bob";
                 Server.currentRoomId := Some "general" |}
    /\ mget "general" (Server.rooms st')
       = Some (joinedRoom (Some "bob") "general" 1000
                 {| Server.name := "General"; Server.pin := None;
                    Server.history := [joinEntry (Some "alice") "general" 1000];
                    Server.usersInRoom := ["alice"] |})
    /\ In "bob" (Server.getUsersInRoom st' "general")
    /\ (forall conns,
           In "s2" (recipients conns (Server.sio st') (ToRoom "general"))).
Proof.
  apply (X19_server_first_name_joins_general at1000 "s2" " bob "
           serverBobConnected
           {| Server.username := None; Server.currentRoomId := None |}
           {| Server.name := "General"; Server.pin := None;
              Server.history := [joinEntry (Some "alice") "general" 1000];
              Server.usersInRoom := ["alice"] |}).
  - apply (ServerFacts.server_run_reachable bobConnects
             Server.initial serverBobConnected server_initial).
    reflexivity.
  - reflexivity.
  - reflexivity.
  - reflexivity.
  - discriminate.
  - intros (v & Hin & Hn & _). simpl in Hin.
    destruct Hin as [<-|[<-|[]]]; discriminate.
Defined.

(** X20.  In a reachable state of [src/unnamed/part_000] a socket that is
    in a room and sends 'leave current room' goes back to the lobby: it is
    told so, it has no current room, it is a member of no room, and it has
    been taken out of every room of the transport that a handler had made
    it join. *)
Theorem X20_lobby_leave_returns_to_the_lobby :
  forall (clk : Clock) (sid k : string) (st : Lobby.State)
         (sock : Lobby.Sock),
    lobbyReachable st ->
    mget sid (Lobby.sockets st) = Some sock ->
    Lobby.currentRoomId sock = Some k ->
    exists st' out,
      Lobby.leaveCurrentRoom clk sid st = Some (st', out)
      /\ In (ToSocket sid, Lobby.Entered_lobby) out
      /\ mget sid (Lobby.sockets st')
         = Some {| Lobby.username := Lobby.username sock;
                   Lobby.currentRoomId := None |}
      /\ (forall k' r, mget k' (Lobby.rooms st') = Some r ->
                       ~ In sid (Lobby.room_users r))
      /\ (forall k', ajoined (Lobby.sio st') sid k' = false).
Proof.
  intros clk sid k st sock Hr Hs Hcur.
  destruct (LobbyFacts.lobbyReachable_inv st Hr) as (_ & Hc & Hkeys).
  pose proof (Hc sid sock k Hs Hcur) as Hh.
  destruct (mhas_some _ _ Hh) as [r Hk].
  destruct (Hkeys k r Hk) as [Hne _].
  destruct (LobbyRegistry.handle_returnsL clk (Lobby.On_leave_current_room sid)
              st (LobbyFacts.lobbyReachable_inv st Hr)
              (proj1 (LobbyRegistry.lobbyReachable_registry st Hr)))
    as (st' & out & Hrun).
  { simpl. unfold mhas. now rewrite Hs. }
  assert (Hr' : lobbyReachable st').
  { eapply lobby_handle with (e := Lobby.On_leave_current_room sid);
      [exact Hr | exact I | exact Hrun]. }
  simpl in Hrun. exists st', out. split; [exact Hrun |].
  assert (Hshape : In (ToSocket sid, Lobby.Entered_lobby) out
                   /\ mget sid (Lobby.sockets st')
                      = Some {| Lobby.username := Lobby.username sock;
                                Lobby.currentRoomId := None |}).
  { revert Hrun. unfold Lobby.leaveCurrentRoom. rewrite Hs, Hcur.
    simpl show. simpl truthy. apply String.eqb_neq in Hne. rewrite Hne, Hh.
    simpl andb. cbv iota.
    step_opt; [| discriminate]. intros [= <- <-].
    destruct (LobbyFacts.leaveOld_rooms _ _ _ _ _ _ Hrun) as [_ Es].
    split; [apply in_or_app; right; now left |].
    simpl. now rewrite mget_mupd, String.eqb_refl, Es, Hs. }
  destruct Hshape as [Hout Hs'].
  split; [exact Hout |]. split; [exact Hs' |]. split.
  - intros k' r' Hk' Hin.
    destruct (LobbyFacts.lobbyReachable_inv st' Hr') as (Hm & _).
    apply (Hm k' r' sid Hk') in Hin. destruct Hin as (s & E & Ek).
    rewrite Hs' in E. injection E as <-. discriminate.
  - intros k'. apply not_true_is_false. intros Hin.
    apply (LobbyAdapter.lobbyReachable_adapter st' Hr') in Hin.
    destruct Hin as (s & E & Ek).
    rewrite Hs' in E. injection E as <-. discriminate.
Qed.

(** X20 at work: "bob" leaves "1234". *)
Lemma X20_lobby_leave_returns_to_the_lobby_witness :
  exists st' out,
    Lobby.leaveCurrentRoom at1000 "s2" lobbyBobJoined = Some (st', out)
    /\ In (ToSocket "s2", Lobby.Entered_lobby) out
    /\ mget "s2" (Lobby.sockets st')
       = Some {| Lobby.username := Some "bob";
                 Lobby.currentRoomId := None |}
    /\ (forall k' r, mget k' (Lobby.rooms st') = Some r ->
                     ~ In "s2" (Lobby.room_users r))
    /\ (forall k', ajoined (Lobby.sio st') "s2" k' = false).
Proof.
  apply (X20_lobby_leave_returns_to_the_lobby at1000 "s2" "1234"
           lobbyBobJoined
           {| Lobby.username := Some "bob";
              Lobby.currentRoomId := Some "1234" |}).
  - apply (LobbyFacts.lobby_run_reachable lobbyBobJoins
             Lobby.initial lobbyBobJoined lobby_initial); reflexivity.
  - reflexivity.
  - reflexivity.
Defined.



(** X22.  In a reachable state of [src/unnamed/part_000], when a named
    socket that is in a room changes its name to one no other socket
    holds, the change is announced in that room and nowhere else: the
    room's history gains one entry, the room is sent the message and a
    member list, whose names are read before the socket's own name is
    updated, and the sender is told its new name. *)
Theorem X22_lobby_rename_is_announced_in_the_current_room :
  forall (clk : Clock) (sid raw : string) (st : Lobby.State)
         (sock : Lobby.Sock) (old k : string) (r : Lobby.Room),
    lobbyReachable st ->
    mget sid (Lobby.sockets st) = Some sock ->
    Lobby.username sock = Some old ->
    old <> "" ->
    Lobby.currentRoomId sock = Some k ->
    mget k (Lobby.rooms st) = Some r ->
    trim raw <> "" ->
    ~ heldByOther st sid (trim raw) ->
    exists st' names t1 t2,
      Lobby.changeUsername clk sid raw st
      = Some (st',
              [(ToRoom k,
                Lobby.Chat_message
                  {| ev_type := None; ev_user := Some "System";
                     ev_text := tpl [old; " is now "; trim raw; "."];
                     ev_timestamp := t2; ev_room := Some k |});
               (ToRoom k, Lobby.Update_user_list names);
               (ToSocket sid, Lobby.Username_updated (trim raw))])
      /\ Lobby.usernamesOf (Lobby.sockets st) (Lobby.room_users r) = Some names
      /\ mget k (Lobby.rooms st')
         = Some (Lobby.addHistory
                   {| ev_type := Some TSystem; ev_user := None;
                      ev_text := tpl [old; " is now "; trim raw; "."];
                      ev_timestamp := t1; ev_room := None |} r)
      /\ (forall k', k' <> k ->
                     mget k' (Lobby.rooms st') = mget k' (Lobby.rooms st))
      /\ mget sid (Lobby.sockets st')
         = Some {| Lobby.username := Some (trim raw);
                   Lobby.currentRoomId := Some k |}.
Proof.
  intros clk sid raw st sock old k r Hr Hs Hold Hne Hcur Hk Hraw Hfree.
  pose proof (LobbyFacts.lobbyReachable_inv st Hr) as Hinv.
  destruct (LobbyRegistry.lobbyReachable_registry st Hr) as (Hnd & _ & _).
  pose proof (LobbyRegistry.lobbyInv_membersLive st Hinv Hnd) as Hml.
  destruct Hinv as (Hm & _ & _).
  destruct (LobbyFacts.usernamesOf_live _ _
              (LobbyFacts.membersLive_room st k r Hml Hk)) as [names Hnames].
  set (text := tpl [old; " is now "; trim raw; "."]).
  destruct (LobbyRename.renameInRooms_one clk sid text (Lobby.sockets st)
              k r names (Lobby.rooms st) Hnd Hk) with (i := 0%nat)
    as [j Hloop].
  { intros k' r' Hin. rewrite shas_In.
    rewrite (Hm k' r' sid (mget_of_In _ _ _ Hnd Hin)). split.
    - intros (s & E & Ek). congruence.
    - intros ->. eauto. }
  { exact Hnames. }
  exists {| Lobby.users := Lobby.renameFirst sid (trim raw) (Lobby.users st);
            Lobby.rooms :=
              mupd k (Lobby.addHistory
                        {| ev_type := Some TSystem; ev_user := None;
                           ev_text := text;
                           ev_timestamp := clk (2 * j)%nat;
                           ev_room := None |}) (Lobby.rooms st);
            Lobby.sockets :=
              mupd sid (fun _ => {| Lobby.username := Some (trim raw);
                                    Lobby.currentRoomId := Some k |})
                   (Lobby.sockets st);
            Lobby.sio := Lobby.sio st |},
         names, (clk (2 * j)%nat), (clk (2 * j + 1)%nat).
  split; [| split; [exact Hnames | split; [| split]]].
  - unfold Lobby.changeUsername. rewrite Hs. cbv zeta.
    apply String.eqb_neq in Hraw. rewrite Hraw.
    rewrite <- LobbyFacts.renameTaken_heldByOther in Hfree.
    apply not_true_is_false in Hfree. rewrite Hfree.
    rewrite Hold. simpl truthy. apply String.eqb_neq in Hne. rewrite Hne.
    simpl negb. cbv iota. simpl show. fold text. rewrite Hloop, Hcur.
    reflexivity.
  - simpl. now rewrite mget_mupd, String.eqb_refl, Hk.
  - intros k' Hk'. simpl. rewrite mget_mupd.
    destruct (String.eqb_spec k' k); [contradiction | reflexivity].
  - simpl. now rewrite mget_mupd, String.eqb_refl, Hs.
Qed.

(** X22 at work: "alice" becomes "carol" in "1234", where "bob" is too. *)
Lemma X22_lobby_rename_is_announced_in_the_current_room_witness :
  exists st' names t1 t2,
    Lobby.changeUsername at1000 "s1" " carol " lobbyBobJoined
    = Some (st',
            [(ToRoom "1234",
              Lobby.Chat_message
                {| ev_type := None; ev_user := Some "System";
                   ev_text := "alice is now carol.";
                   ev_timestamp := t2; ev_room := Some "1234" |});
             (ToRoom "1234", Lobby.Update_user_list names);
             (ToSocket "s1", Lobby.Username_updated "carol")])
    /\ Some [Some "alice"; Some "bob"] = Some names
    /\ mget "1234" (Lobby.rooms st')
       = Some {| Lobby.id := "1234"; Lobby.name := "Plans";
                 Lobby.pin := Some "1234";
                 Lobby.history :=
                   [{| ev_type := Some TSystem; ev_user := None;
                       ev_text := "alice created and joined the room.";
                       ev_timestamp := 1000; ev_room := None |};
                    joinEntryL (Some "bob") 1000;
                    {| ev_type := Some TSystem; ev_user := None;
                       ev_text := "alice is now carol.";
                       ev_timestamp := t1; ev_room := None |}];
                 Lobby.room_users := ["s1"; "s2"] |}
    /\ (forall k', k' <> "1234" ->
                   mget k' (Lobby.rooms st')
                   = mget k' (Lobby.rooms lobbyBobJoined))
    /\ mget "s1" (Lobby.sockets st')
       = Some {| Lobby.username := Some "carol";
                 Lobby.currentRoomId := Some "1234" |}.
Proof.
  apply (X22_lobby_rename_is_announced_in_the_current_room
           at1000 "s1" " carol " lobbyBobJoined
           {| Lobby.username := Some "alice";
              Lobby.currentRoomId := Some "1234" |}
           "alice" "1234"
           {| Lobby.id := "1234"; Lobby.name := "Plans";
              Lobby.pin := Some "1234";
              Lobby.history :=
                [{| ev_type := Some TSystem; ev_user := None;
                       ev_text := "alice created and joined the room.";
                       ev_timestamp := 1000; ev_room := None |};
                 joinEntryL (Some "bob") 1000];
              Lobby.room_users := ["s1"; "s2"] |}).
  - apply (LobbyFacts.lobby_run_reachable lobbyBobJoins
             Lobby.initial lobbyBobJoined lobby_initial); reflexivity.
  - reflexivity.
  - reflexivity.
  - discriminate.
  - reflexivity.
  - reflexivity.
  - discriminate.
  - intros (v & Hin & Hn & Hid). simpl in Hin.
    destruct Hin as [<-|[<-|[]]]; discriminate.
Defined.

(** X23.  In [src/server.js], when a named session that is in a room
    changes its name to one no session in a room holds, the room follows:
    the old name leaves the member set and the new one enters it, the
    history gains the entry of the change, and the room is sent the new
    member list and the message. *)
Theorem X23_server_rename_replaces_the_name_in_the_room :
  forall (clk : Clock) (sid raw : string) (st : Server.State)
         (u : Server.User) (old c : string) (room : Server.Room),
    mget sid (Server.users st) = Some u ->
    Server.username u = Some old ->
    old <> "" ->
    Server.currentRoomId u = Some c ->
    c <> "" ->
    mget c (Server.rooms st) = Some room ->
    trim raw <> "" ->
    trim raw <> old ->
    ~ heldInRoom st (trim raw) ->
    exists st',
      Server.changeUsername clk sid raw st
      = Some (st',
              [(ToSocket sid, Server.Username_updated (trim raw));
               (ToRoom c,
                Server.Update_user_list c
                  (sadd (trim raw) (sdel old (Server.usersInRoom room))));
               (ToRoom c,
                Server.Chat_message
                  {| ev_type := Some TSystem; ev_user := Some "System";
                     ev_text := tpl ["<strong>"; old;
                                     "</strong> is now <strong>"; trim raw;
                                     "</strong>."];
                     ev_timestamp := clk 1%nat; ev_room := Some c |})])
      /\ mget c (Server.rooms st')
         = Some {| Server.name := Server.name room;
                   Server.pin := Server.pin room;
                   Server.history :=
                     Server.history room
                     ++ [{| ev_type := Some TSystem; ev_user := None;
                            ev_text := tpl ["<strong>"; old;
                                            "</strong> is now <strong>";
                                            trim raw; "</strong>."];
                            ev_timestamp := clk 0%nat; ev_room := None |}];
                   Server.usersInRoom :=
                     sadd (trim raw) (sdel old (Server.usersInRoom room)) |}
      /\ mget sid (Server.users st')
         = Some {| Server.username := Some (trim raw);
                   Server.currentRoomId := Some c |}.
Proof.
  intros clk sid raw st u old c room Hu Hold Hne Hc Hcne Hroom Hraw Hdiff
         Hfree.
  unfold Server.changeUsername. cbv zeta.
  apply String.eqb_neq in Hraw. rewrite Hraw, Hu, Hold.
  assert (Hd : seq (Some (trim raw)) (Some old) = false)
    by (apply seq_neq; congruence).
  rewrite Hd.
  rewrite <- (ServerFacts.renameTaken_heldInRoom st (trim raw) (Some old))
    in Hfree by congruence.
  apply not_true_is_false in Hfree. rewrite Hfree, Hc.
  simpl truthy. apply String.eqb_neq in Hcne, Hne. rewrite Hcne, Hne.
  simpl negb. cbv iota. simpl show. simpl Server.rooms. rewrite Hroom.
  simpl orElse. rewrite Hne. simpl sdelv.
  eexists. split; [| split].
  - unfold Server.broadcastUserList, Server.getUsersInRoom. simpl.
    rewrite mget_mupd, String.eqb_refl, Hroom. reflexivity.
  - simpl. now rewrite mget_mupd, String.eqb_refl, Hroom.
  - simpl. now rewrite mget_mset, String.eqb_refl.
Qed.

(** X23 at work: "alice", in 'general' with "bob", becomes "carol". *)
Lemma X23_server_rename_replaces_the_name_in_the_room_witness :
  exists st',
    Server.changeUsername at1000 "s1" " carol " serverBobInGeneral
    = Some (st',
            [(ToSocket "s1", Server.Username_updated "carol");
             (ToRoom "general",
              Server.Update_user_list "general" ["bob"; "carol"]);
             (ToRoom "general",
              Server.Chat_message
                {| ev_type := Some TSystem; ev_user := Some "System";
                   ev_text :=
                     "<strong>alice</strong> is now <strong>carol</strong>.";
                   ev_timestamp := 1000; ev_room := Some "general" |})])
    /\ mget "general" (Server.rooms st')
       = Some {| Server.name := "General"; Server.pin := None;
                 Server.history :=
                   [joinEntry (Some "alice") "general" 1000;
                    joinEntry (Some "bob") "general" 1000]
                   ++ [{| ev_type := Some TSystem; ev_user := None;
                          ev_text :=
                            "<strong>alice</strong> is now <strong>carol</strong>.";
                          ev_timestamp := 1000; ev_room := None |}];
                 Server.usersInRoom := ["bob"; "carol"] |}
    /\ mget "s1" (Server.users st')
       = Some {| Server.username := Some "carol";
                 Server.currentRoomId := Some "general" |}.
Proof.
  apply (X23_server_rename_replaces_the_name_in_the_room
           at1000 "s1" " carol " serverBobInGeneral
           {| Server.username := Some "alice";
              Server.currentRoomId := Some "general" |}
           "alice" "general"
           {| Server.name := "General"; Server.pin := None;
              Server.history :=
                [joinEntry (Some "alice") "general" 1000;
                 joinEntry (Some "bob") "general" 1000];
              Server.usersInRoom := ["alice"; "bob"] |}).
  - reflexivity.
  - reflexivity.
  - discriminate.
  - reflexivity.
  - discriminate.
  - reflexivity.
  - discriminate.
  - discriminate.
  - intros (v & Hin & Hn & _). simpl in Hin.
    destruct Hin as [<-|[<-|[]]]; discriminate.
Defined.

(** X24.  In every reachable state of [src/server.js] 'leave current room'
    moves nobody: a session that is in a room is in 'general' and is told
    that it cannot leave it, and a session that is in no room is told
    so. *)
Theorem X24_server_leave_current_room_moves_nobody :
  forall (clk : Clock) (sid : string) (st : Server.State) (u : Server.User),
    serverReachable st ->
    mget sid (Server.users st) = Some u ->
    Server.leaveCurrentRoom clk sid st
    = Some (st,
            [Server.feedback sid
               (if notNull (Server.currentRoomId u)
                then "You cannot leave the General room. You can only switch to another room."
                else "You are not currently in a room to leave.")]).
Proof.
  intros clk sid st u Hr Hu.
  destruct (ServerInvariant.serverReachable_inv st Hr)
    as (_ & _ & _ & Hon & _).
  unfold Server.leaveCurrentRoom. rewrite Hu.
  destruct (Server.currentRoomId u) as [c|] eqn:Hc.
  - pose proof (Hon sid u c Hu Hc) as ->. reflexivity.
  - reflexivity.
Qed.

(** X24 at work: "alice", who has created "Plans", asks to leave. *)
Lemma X24_server_leave_current_room_moves_nobody_witness :
  Server.leaveCurrentRoom at1000 "s1" serverPlans
  = Some (serverPlans,
          [Server.feedback "s1"
             "You cannot leave the General room. You can only switch to another room."]).
Proof.
  apply (X24_server_leave_current_room_moves_nobody at1000 "s1" serverPlans
           {| Server.username := Some "alice";
              Server.currentRoomId := Some "general" |}).
  - apply (ServerFacts.server_run_reachable aliceCreatesPlans
             Server.initial serverPlans server_initial).
    reflexivity.
  - reflexivity.
Defined.

(** X25.  In every reachable state of [src/server.js] the set that
    [userSocketRooms] keeps for a session holds its current room and
    nothing else: it is empty for a session that is in no room. *)
Theorem X25_server_socket_rooms_mirror_the_current_room :
  forall (st : Server.State) (i : string) (u : Server.User),
    serverReachable st ->
    mget i (Server.users st) = Some u ->
    mget i (Server.userSocketRooms st)
    = Some (match Server.currentRoomId u with
            | Some c => [c]
            | None => []
            end).
Proof.
  intros st i u Hr Hu.
  destruct (ServerInvariant.serverReachable_inv st Hr)
    as (_ & _ & _ & _ & Hsr).
  exact (Hsr i u Hu).
Qed.

(** X25 at work: "alice" in 'general', and "bob" just connected. *)
Lemma X25_server_socket_rooms_mirror_the_current_room_witness :
  mget "s1" (Server.userSocketRooms serverBobConnected) = Some ["general"]
  /\ mget "s2" (Server.userSocketRooms serverBobConnected) = Some [].
Proof.
  assert (Hr : serverReachable serverBobConnected).
  { apply (ServerFacts.server_run_reachable bobConnects
             Server.initial serverBobConnected server_initial).
    reflexivity. }
  split.
  - apply (X25_server_socket_rooms_mirror_the_current_room
             serverBobConnected "s1"
             {| Server.username := Some "alice";
                Server.currentRoomId := Some "general" |} Hr).
    reflexivity.
  - apply (X25_server_socket_rooms_mirror_the_current_room
             serverBobConnected "s2"
             {| Server.username := None; Server.currentRoomId := None |} Hr).
    reflexivity.
Defined.

(** X26.  In every reachable state of either server the current room of
    a session is a registered room: no handler removes a room that some
    session is in, and none puts a session into a room that is not
    there. *)
Theorem X26_current_room_is_registered :
  forall (stA : Server.State) (stB : Lobby.State),
    serverReachable stA ->
    lobbyReachable stB ->
    (forall i u c,
        mget i (Server.users stA) = Some u ->
        Server.currentRoomId u = Some c ->
        mhas c (Server.rooms stA) = true)
    /\ (forall i s k,
           mget i (Lobby.sockets stB) = Some s ->
           Lobby.currentRoomId s = Some k ->
           mhas k (Lobby.rooms stB) = true).
Proof.
  intros stA stB HA HB. split.
  - destruct (ServerInvariant.serverReachable_inv stA HA)
      as (_ & _ & Hg & Hon & _).
    intros i u c Hu Hc. now rewrite (Hon i u c Hu Hc).
  - destruct (LobbyFacts.lobbyReachable_inv stB HB) as (_ & Hc & _).
    exact Hc.
Qed.

(** X26 at work: the states in which "bob" has joined "alice". *)
Lemma X26_current_room_is_registered_witness :
  (forall i u c,
      mget i (Server.users serverBobInGeneral) = Some u ->
      Server.currentRoomId u = Some c ->
      mhas c (Server.rooms serverBobInGeneral) = true)
  /\ (forall i s k,
         mget i (Lobby.sockets lobbyBobJoined) = Some s ->
         Lobby.currentRoomId s = Some k ->
         mhas k (Lobby.rooms lobbyBobJoined) = true).
Proof.
  apply (X26_current_room_is_registered serverBobInGeneral lobbyBobJoined).
  - apply (ServerFacts.server_run_reachable bobInGeneral
             Server.initial serverBobInGeneral server_initial).
    reflexivity.
  - apply (LobbyFacts.lobby_run_reachable lobbyBobJoins
             Lobby.initial lobbyBobJoined lobby_initial); reflexivity.
Defined.

(** X27.  In a reachable state of [src/unnamed/part_000], when a named
    socket creates a room with a non-empty name and a PIN that is not yet
    a room id, the room is registered under the PIN and the creator moves
    into it: it is the room's only member, it is a member of no other
    room, it is sent the room with itself as the only user, and everybody
    is sent a room list that shows the new room. *)
Theorem X27_lobby_create_room_moves_the_creator_in :
  forall (clk : Clock) (sid nm p : string) (st : Lobby.State)
         (sock : Lobby.Sock),
    lobbyReachable st ->
    mget sid (Lobby.sockets st) = Some sock ->
    truthy (Lobby.username sock) = true ->
    trim nm <> "" ->
    trim p <> "" ->
    mhas (trim p) (Lobby.rooms st) = false ->
    exists st' out ev,
      Lobby.createRoom clk sid nm (Some p) st = Some (st', out)
      /\ mget (trim p) (Lobby.rooms st')
         = Some {| Lobby.id := trim p; Lobby.name := trim nm;
                   Lobby.pin := Some (trim p);
                   Lobby.history := [ev]; Lobby.room_users := [sid] |}
      /\ mget sid (Lobby.sockets st')
         = Some {| Lobby.username := Lobby.username sock;
                   Lobby.currentRoomId := Some (trim p) |}
      /\ (forall k r, mget k (Lobby.rooms st') = Some r ->
                      k <> trim p -> ~ In sid (Lobby.room_users r))
      /\ In (ToSocket sid,
             Lobby.Room_joined_success
               {| Lobby.j_roomName := trim nm; Lobby.j_roomId := trim p;
                  Lobby.j_history := [ev];
                  Lobby.j_usersInRoom := [Lobby.username sock] |}) out
      /\ In (ToAll, Lobby.Update_room_list (Lobby.getRoomList st')) out
      /\ In {| rs_id := trim p; rs_name := trim nm; rs_hasPin := true |}
            (Lobby.getRoomList st').
Proof.
  intros clk sid nm p st sock Hr Hs Hn Hnm Hp Hnew.
  pose proof (LobbyFacts.lobbyReachable_inv st Hr) as Hinv.
  destruct (LobbyRegistry.lobbyReachable_registry st Hr) as (Hnd & _).
  pose proof (LobbyRegistry.lobbyInv_membersLive st Hinv Hnd) as Hml.
  destruct (LobbyFacts.leaveOld_spec (clk 0%nat) sid sock st Hml)
    as (st1 & out1 & Hleave & Hu & Hso & Hk & _).
  assert (Hrun : exists st' out,
             Lobby.createRoom clk sid nm (Some p) st = Some (st', out)
             /\ Lobby.rooms st'
                = mset (trim p)
                       {| Lobby.id := trim p; Lobby.name := trim nm;
                          Lobby.pin := Some (trim p);
                          Lobby.history :=
                            [{| ev_type := Some TSystem; ev_user := None;
                                ev_text :=
                                  tpl [show "undefined" (Lobby.username sock);
                                       " created and joined the room."];
                                ev_timestamp := clk 1%nat;
                                ev_room := None |}];
                          Lobby.room_users := [sid] |}
                       (Lobby.rooms st1)
             /\ mget sid (Lobby.sockets st')
                = Some {| Lobby.username := Lobby.username sock;
                          Lobby.currentRoomId := Some (trim p) |}
             /\ In (ToSocket sid,
                    Lobby.Room_joined_success
                      {| Lobby.j_roomName := trim nm;
                         Lobby.j_roomId := trim p;
                         Lobby.j_history :=
                           [{| ev_type := Some TSystem; ev_user := None;
                               ev_text :=
                                 tpl [show "undefined" (Lobby.username sock);
                                      " created and joined the room."];
                               ev_timestamp := clk 1%nat;
                               ev_room := None |}];
                         Lobby.j_usersInRoom := [Lobby.username sock] |}) out
             /\ In (ToAll, Lobby.Update_room_list (Lobby.getRoomList st')) out).
  { pose proof (trim_nonempty p Hp) as Hpe. simpl in Hpe.
    pose proof Hnm as Hnm'. pose proof Hp as Hp'.
    apply String.eqb_neq in Hnm', Hp'.
    unfold Lobby.createRoom. rewrite Hs, Hn. simpl.
    rewrite Hpe. simpl. rewrite Hnm', Hp'. simpl.
    rewrite Hnew, Hleave. simpl.
    rewrite mget_mupd, String.eqb_refl, Hso, Hs. simpl.
    eexists _, _. split; [reflexivity |]. simpl.
    split; [reflexivity |].
    split; [now rewrite mget_mupd, String.eqb_refl, Hs |].
    split; apply in_or_app; right; simpl; tauto. }
  destruct Hrun as (st' & out & Hc & Er & Hs' & Ho1 & Ho2).
  assert (Hr' : lobbyReachable st').
  { eapply lobby_handle with (e := Lobby.On_create_room sid nm (Some p));
      [exact Hr | exact I | exact Hc]. }
  assert (Hroom : mget (trim p) (Lobby.rooms st')
                  = Some {| Lobby.id := trim p; Lobby.name := trim nm;
                            Lobby.pin := Some (trim p);
                            Lobby.history :=
                              [{| ev_type := Some TSystem; ev_user := None;
                                  ev_text :=
                                    tpl [show "undefined" (Lobby.username sock);
                                         " created and joined the room."];
                                  ev_timestamp := clk 1%nat;
                                  ev_room := None |}];
                            Lobby.room_users := [sid] |}).
  { rewrite Er. now rewrite mget_mset, String.eqb_refl. }
  exists st', out. eexists.
  split; [exact Hc |]. split; [exact Hroom |]. split; [exact Hs' |].
  split; [| split; [exact Ho1 | split; [exact Ho2 |]]].
  - intros k r Hkr Hne Hin.
    destruct (LobbyFacts.lobbyReachable_inv st' Hr') as (Hm & _).
    apply (Hm k r sid Hkr) in Hin. destruct Hin as (s & E & Ek).
    rewrite Hs' in E. injection E as <-. simpl in Ek. congruence.
  - unfold Lobby.getRoomList, mvalues. rewrite map_map.
    apply in_map_iff. eexists (trim p, _).
    split; [| apply mget_In; exact Hroom]. simpl.
    apply String.eqb_neq in Hp. now rewrite Hp.
Qed.

(** X27 at work: "bob", named and in the lobby, creates "Games" with the
    PIN "77". *)
Lemma X27_lobby_create_room_moves_the_creator_in_witness :
  exists st' out ev,
    Lobby.createRoom at1000 "s2" " Games " (Some "77") lobbyBobNamed
    = Some (st', out)
    /\ mget "77" (Lobby.rooms st')
       = Some {| Lobby.id := "77"; Lobby.name := "Games";
                 Lobby.pin := Some "77";
                 Lobby.history := [ev]; Lobby.room_users := ["s2"] |}
    /\ mget "s2" (Lobby.sockets st')
       = Some {| Lobby.username := Some "bob";
                 Lobby.currentRoomId := Some "77" |}
    /\ (forall k r, mget k (Lobby.rooms st') = Some r ->
                    k <> "77" -> ~ In "s2" (Lobby.room_users r))
    /\ In (ToSocket "s2",
           Lobby.Room_joined_success
             {| Lobby.j_roomName := "Games"; Lobby.j_roomId := "77";
                Lobby.j_history := [ev];
                Lobby.j_usersInRoom := [Some "bob"] |}) out
    /\ In (ToAll, Lobby.Update_room_list (Lobby.getRoomList st')) out
    /\ In {| rs_id := "77"; rs_name := "Games"; rs_hasPin := true |}
          (Lobby.getRoomList st').
Proof.
  apply (X27_lobby_create_room_moves_the_creator_in at1000 "s2" " Games " "77"
           lobbyBobNamed
           {| Lobby.username := Some "bob"; Lobby.currentRoomId := None |}).
  - apply (LobbyFacts.lobby_run_reachable lobbyBobArrives
             Lobby.initial lobbyBobNamed lobby_initial); reflexivity.
  - reflexivity.
  - reflexivity.
  - discriminate.
  - discriminate.
  - reflexivity.
Defined.
